(** * Lab Record Generator: a shallow embedding of [main.py]

    The service has three pieces of behaviour worth stating precisely:
    the logo upload ([upload_logo]), the code-image generator
    ([create_qr_code]) and the document generation ([generate_docx]).
    Python exceptions are modelled by an error monad over an explicit
    file system; the third-party libraries (qrcode, Pillow, what
    python-docx refuses and how it serialises, the operating system's
    refusals) are parameters of the development. *)

From Stdlib Require Import ZArith QArith Ascii String List Lia.
From stdpp Require Import base option list gmap strings.

Set Default Proof Using "Type".
Local Open Scope Z_scope.

(** ** Python string primitives used by [main.py] *)

Module Py.

(** [str.lower] on the ASCII range. *)
Definition lower_char (c : ascii) : ascii :=
  let n := nat_of_ascii c in
  if ((65 <=? n) && (n <=? 90))%nat then ascii_of_nat (n + 32) else c.

Definition upper_char (c : ascii) : ascii :=
  let n := nat_of_ascii c in
  if ((97 <=? n) && (n <=? 122))%nat then ascii_of_nat (n - 32) else c.

Fixpoint lower (s : string) : string :=
  match s with
  | EmptyString => EmptyString
  | String c s' => String (lower_char c) (lower s')
  end.

(** [str.capitalize]: first character upper-cased, the rest lower-cased. *)
Definition capitalize (s : string) : string :=
  match s with
  | EmptyString => EmptyString
  | String c s' => String (upper_char c) (lower s')
  end.

(** [s.startswith(p)]. *)
Fixpoint startswith (p s : string) : bool :=
  match p, s with
  | EmptyString, _ => true
  | String a p', String b s' => if Ascii.eqb a b then startswith p' s' else false
  | String _ _, EmptyString => false
  end.

(** [s.split(sep)] for a one-character separator: never the empty list. *)
Fixpoint split (sep : ascii) (s : string) : list string :=
  match s with
  | EmptyString => [EmptyString]
  | String c s' =>
      if Ascii.eqb c sep then EmptyString :: split sep s'
      else match split sep s' with
           | w :: ws => String c w :: ws
           | [] => [String c EmptyString]
           end
  end.

(** [l[-1]]. *)
Definition last_item {A} (l : list A) : option A := last l.

Fixpoint contains (c : ascii) (s : string) : bool :=
  match s with
  | EmptyString => false
  | String d s' => Ascii.eqb d c || contains c s'
  end.

(** [x in l] for a list of strings. *)
Definition str_in (x : string) (l : list string) : bool :=
  bool_decide (x ∈ l).

(** [str(n)] for a non-negative integer. *)
Definition digit (d : nat) : ascii := ascii_of_nat (48 + d).

Fixpoint str_go (fuel n : nat) (acc : string) : string :=
  match fuel with
  | O => acc
  | S fuel' =>
      let acc' := String (digit (n mod 10)) acc in
      if (n / 10 =? 0)%nat then acc' else str_go fuel' (n / 10) acc'
  end.

Definition str (n : nat) : string := str_go (S n) n EmptyString.

(** [int(s)] on a string of decimal digits, for checking [str]. *)
Definition digit_val (c : ascii) : option nat :=
  let n := nat_of_ascii c in
  if ((48 <=? n) && (n <=? 57))%nat then Some (n - 48)%nat else None.

Fixpoint int_go (s : string) (acc : nat) : option nat :=
  match s with
  | EmptyString => Some acc
  | String c s' =>
      match digit_val c with
      | Some d => int_go s' (10 * acc + d)%nat
      | None => None
      end
  end.

Definition int (s : string) : option nat :=
  match s with
  | EmptyString => None
  | _ => int_go s 0%nat
  end.

(** [s.zfill(width)] for a string without a sign. *)
Fixpoint zeros (k : nat) : string :=
  match k with
  | O => EmptyString
  | S k' => String "0"%char (zeros k')
  end.

Definition zfill (width : nat) (s : string) : string :=
  zeros (width - String.length s) +:+ s.

(** ["\n".join(l)]. *)
Fixpoint join (sep : string) (l : list string) : string :=
  match l with
  | [] => EmptyString
  | [x] => x
  | x :: rest => x +:+ sep +:+ join sep rest
  end.

End Py.

(** ** Exceptions and the effect monad *)

Abbreviation bytes := (list Byte.byte).

(** Every exception the service can meet derives from Python's
    [Exception]; [HTTPException] is FastAPI's, the others come from the
    interpreter and the libraries and carry their message. *)
Inductive exn : Type :=
| HTTPException (status_code : Z) (detail : string)
| PyError (cls : string) (msg : string).

(** [str(e)]: Starlette prints an [HTTPException] as "status: detail". *)
Definition str_exn (e : exn) : string :=
  match e with
  | HTTPException c d => Py.str (Z.to_nat c) +:+ ": " +:+ d
  | PyError _ m => m
  end.

Inductive Res (A : Type) : Type :=
| Ok (a : A)
| Raise (e : exn).
Arguments Ok {A} a.
Arguments Raise {A} e.

(** A computation over a mutable state [S] that returns or raises. *)
Definition M (S A : Type) : Type := S → Res A * S.

Definition ret {S A} (a : A) : M S A := λ s, (Ok a, s).
Definition raise {S A} (e : exn) : M S A := λ s, (Raise e, s).
Definition bind {S A B} (c : M S A) (k : A → M S B) : M S B :=
  λ s, match c s with
       | (Ok a, s') => k a s'
       | (Raise e, s') => (Raise e, s')
       end.

(** [try: body except Exception as e: handler(e)]. *)
Definition try_except {S A} (body : M S A) (handler : exn → M S A) : M S A :=
  λ s, match body s with
       | (Ok a, s') => (Ok a, s')
       | (Raise e, s') => handler e s'
       end.

(** [try: body except: pass]. *)
Definition try_pass {S} (body : M S unit) : M S unit :=
  try_except body (λ _, ret tt).

Declare Scope py_scope.
Delimit Scope py_scope with py.
Notation "x <- c ;; k" := (bind c (λ x, k))
  (at level 100, c at next level, right associativity) : py_scope.
Notation "c ;;; k" := (bind c (λ _, k))
  (at level 100, right associativity) : py_scope.
Local Open Scope py_scope.

Definition get {S} : M S S := λ s, (Ok s, s).
Definition modify {S} (f : S → S) : M S unit := λ s, (Ok tt, f s).

(** Attribute access on a value that may be [None]. *)
Definition not_none {S A} (o : option A) (attr : string) : M S A :=
  match o with
  | Some a => ret a
  | None => raise (PyError "AttributeError"
                     ("'NoneType' object has no attribute '" +:+ attr +:+ "'"))
  end.

(** [l[i]] on a list. *)
Definition item {S A} (l : list A) (i : nat) : M S A :=
  match l !! i with
  | Some a => ret a
  | None => raise (PyError "IndexError" "list index out of range")
  end.

(** ** Images (Pillow) *)

Record Image : Type := mkImage {
  im_size : Z * Z;
  im_pixels : list Z
}.

(** An in-memory binary stream ([io.BytesIO]). *)
Record BytesIO : Type := mkBytesIO {
  buffer : bytes;
  position : nat
}.

Definition BytesIO_write (data : bytes) (b : BytesIO) : BytesIO :=
  {| buffer := take (position b) (buffer b) ++ data
               ++ drop (position b + length data)%nat (buffer b);
     position := (position b + length data)%nat |}.
Definition BytesIO_seek (p : nat) (b : BytesIO) : BytesIO :=
  {| buffer := buffer b; position := p |}.
Definition BytesIO_read (b : BytesIO) : bytes := drop (position b) (buffer b).

(** ** The QR encoder's object ([qrcode.QRCode]) *)

Inductive ErrorCorrection := ERROR_CORRECT_L | ERROR_CORRECT_M
                           | ERROR_CORRECT_Q | ERROR_CORRECT_H.

Record QRCode : Type := mkQRCode {
  qr_version : Z;
  qr_error_correction : ErrorCorrection;
  qr_box_size : Z;
  qr_border : Z;
  qr_data_list : list string;
  qr_modules : list (list bool)
}.

(** ** The document object model (python-docx)

    Lengths are in English Metric Units, as python-docx stores them. *)

Definition Inches (q : Q) : Z := (Qnum q * 914400) ÷ Z.pos (Qden q).
Definition Pt (n : Z) : Z := n * 12700.

Inductive WD_ALIGN_PARAGRAPH := LEFT | CENTER | RIGHT | JUSTIFY.

Record Picture : Type := mkPicture {
  pic_blob : bytes;
  pic_width : Z
}.

Record Run : Type := mkRun {
  run_text : string;
  run_bold : option bool;
  run_size : option Z;
  run_color : option (Z * Z * Z);
  run_underline : option bool;
  run_picture : option Picture
}.

Record Paragraph : Type := mkParagraph {
  par_alignment : option WD_ALIGN_PARAGRAPH;
  par_runs : list Run
}.

(** The children appended to a cell's [w:tcPr] element. *)
Inductive TcPrChild : Type :=
| Edge (tag val sz space color : string)
| TcBorders (children : list (string * string)).

Record Cell : Type := mkCell {
  cell_paragraphs : list Paragraph;
  cell_width : option Z;
  cell_tcPr : list TcPrChild
}.

Record Table : Type := mkTable {
  tbl_style : option string;
  tbl_autofit : bool;
  tbl_rows : list (list Cell)
}.

Inductive Block : Type :=
| BParagraph (p : Paragraph)
| BTable (t : Table).

Record Margins : Type := mkMargins {
  top_margin : option Z;
  bottom_margin : option Z;
  left_margin : option Z;
  right_margin : option Z
}.

Record Document : Type := mkDocument {
  doc_sections : list Margins;
  doc_body : list Block
}.

Module Docx.

(** A run with a text and no formatting: what [add_run(t)] makes once the
    text has been accepted, and [add_run()] with the empty text. *)
Definition plain_run (t : string) : Run :=
  {| run_text := t; run_bold := None; run_size := None; run_color := None;
     run_underline := None; run_picture := None |}.

Definition empty_paragraph : Paragraph :=
  {| par_alignment := None; par_runs := [] |}.

Definition empty_cell : Cell :=
  {| cell_paragraphs := [empty_paragraph]; cell_width := None; cell_tcPr := [] |}.

(** [Document()]: the default template has one section and an empty body. *)
Definition new_document : Document :=
  {| doc_sections := [ {| top_margin := None; bottom_margin := None;
                          left_margin := None; right_margin := None |} ];
     doc_body := [] |}.

(** [doc.add_paragraph()] followed by the changes made to the new
    paragraph through its reference. *)
Definition add_paragraph (p : Paragraph) (d : Document) : Document :=
  {| doc_sections := doc_sections d; doc_body := doc_body d ++ [BParagraph p] |}.

Definition add_block_table (t : Table) (d : Document) : Document :=
  {| doc_sections := doc_sections d; doc_body := doc_body d ++ [BTable t] |}.

(** [doc.add_table(rows, cols)]: a grid of cells with one empty paragraph. *)
Definition new_table (rows cols : nat) : Table :=
  {| tbl_style := None; tbl_autofit := true;
     tbl_rows := replicate rows (replicate cols empty_cell) |}.

Definition set_rows (rs : list (list Cell)) (t : Table) : Table :=
  {| tbl_style := tbl_style t; tbl_autofit := tbl_autofit t; tbl_rows := rs |}.
Definition set_style (s : string) (t : Table) : Table :=
  {| tbl_style := Some s; tbl_autofit := tbl_autofit t; tbl_rows := tbl_rows t |}.
Definition set_autofit (b : bool) (t : Table) : Table :=
  {| tbl_style := tbl_style t; tbl_autofit := b; tbl_rows := tbl_rows t |}.

(** [paragraph.alignment = a]. *)
Definition set_alignment (a : WD_ALIGN_PARAGRAPH) (p : Paragraph) : Paragraph :=
  {| par_alignment := Some a; par_runs := par_runs p |}.

(** [paragraph.add_run(...)], the run given with its formatting. *)
Definition add_run (r : Run) (p : Paragraph) : Paragraph :=
  {| par_alignment := par_alignment p; par_runs := par_runs p ++ [r] |}.

(** The paragraph after [paragraph.text = t]: the runs are replaced by
    one run. *)
Definition set_paragraph_text (t : string) (p : Paragraph) : Paragraph :=
  {| par_alignment := par_alignment p; par_runs := [plain_run t] |}.

Definition set_paragraphs (ps : list Paragraph) (c : Cell) : Cell :=
  {| cell_paragraphs := ps; cell_width := cell_width c; cell_tcPr := cell_tcPr c |}.

(** The cell after [cell.text = t]: the content is replaced by one
    paragraph with one run. *)
Definition set_cell_text (t : string) (c : Cell) : Cell :=
  set_paragraphs [add_run (plain_run t) empty_paragraph] c.

(** [cell.width = w]. *)
Definition set_width (w : Z) (c : Cell) : Cell :=
  {| cell_paragraphs := cell_paragraphs c; cell_width := Some w;
     cell_tcPr := cell_tcPr c |}.

(** [tcPr.append(x)]. *)
Definition tcPr_append (x : TcPrChild) (c : Cell) : Cell :=
  {| cell_paragraphs := cell_paragraphs c; cell_width := cell_width c;
     cell_tcPr := cell_tcPr c ++ [x] |}.

Definition set_bold (b : bool) (r : Run) : Run :=
  {| run_text := run_text r; run_bold := Some b; run_size := run_size r;
     run_color := run_color r; run_underline := run_underline r;
     run_picture := run_picture r |}.
Definition set_size (n : Z) (r : Run) : Run :=
  {| run_text := run_text r; run_bold := run_bold r; run_size := Some n;
     run_color := run_color r; run_underline := run_underline r;
     run_picture := run_picture r |}.
Definition set_color (c : Z * Z * Z) (r : Run) : Run :=
  {| run_text := run_text r; run_bold := run_bold r; run_size := run_size r;
     run_color := Some c; run_underline := run_underline r;
     run_picture := run_picture r |}.
Definition set_underline (b : bool) (r : Run) : Run :=
  {| run_text := run_text r; run_bold := run_bold r; run_size := run_size r;
     run_color := run_color r; run_underline := Some b;
     run_picture := run_picture r |}.
Definition set_picture (pic : Picture) (r : Run) : Run :=
  {| run_text := run_text r; run_bold := run_bold r; run_size := run_size r;
     run_color := run_color r; run_underline := run_underline r;
     run_picture := Some pic |}.

(** [paragraph.text] and [cell.text]. *)
Definition paragraph_text (p : Paragraph) : string :=
  foldr (λ r acc, run_text r +:+ acc) EmptyString (par_runs p).
Definition cell_text (c : Cell) : string :=
  Py.join (String "010"%char EmptyString) (paragraph_text <$> cell_paragraphs c).

(** The tables of a document, in order. *)
Definition tables (d : Document) : list Table :=
  omap (λ b, match b with BTable t => Some t | BParagraph _ => None end) (doc_body d).

(** The pictures a paragraph shows. *)
Definition paragraph_pictures (p : Paragraph) : list Picture :=
  omap run_picture (par_runs p).

End Docx.

(** ** The environment: what the libraries and the operating system do

    None of this is code of the repository.  Each field is a function:
    the same arguments give the same answer (a fixed encoder version). *)
Record Env : Type := mkEnv {
  (** [qr.make(fit=True)]: picks the version and fills the module grid,
      or raises when the payload exceeds the symbol capacity. *)
  qr_make : QRCode → exn + QRCode;
  (** [qr.make_image(fill_color, back_color)]: the natural raster. *)
  qr_make_image : QRCode → string → string → Image;
  (** The LANCZOS resampling of an image to a width and a height, and
      Pillow refusing to make a raster of that size (a [MemoryError]). *)
  lanczos : Image → Z → Z → list Z;
  resize_refused : Image → Z → Z → option exn;
  (** The message of the interpreter's [OverflowError] for an argument
      beyond a C [int]; its wording varies with the version. *)
  overflow_message : string;
  (** Pillow's PNG encoder and its decoder of an uploaded file. *)
  png_encode : Image → bytes;
  image_decode : bytes → exn + Image;
  (** python-docx reading a picture file, and serialising a document. *)
  docx_image_error : bytes → option exn;
  docx_serialize : Document → bytes;
  (** python-docx, through lxml, refusing a text: XML cannot hold NUL
      bytes and control characters. *)
  text_refused : string → option exn;
  (** The operating system refusing to write or to remove a path.  A
      refused write has either failed to open the file, or has opened it,
      which creates or empties it, and failed after some of the bytes:
      [write_partial] gives their number. *)
  write_refused : string → option exn;
  write_partial : string → option nat;
  remove_refused : string → option exn
}.

(** ** The file system *)

Abbreviation FS := (gmap string bytes).

(** [os.path.exists(p)]. *)
Definition os_path_exists (p : string) (fs : FS) : bool :=
  bool_decide (is_Some (fs !! p)).

Section OS.
Context (E : Env).

(** What a refused write of [data] to [p] leaves on disk: nothing new
    when the file could not be opened, the bytes written before the failure
    when it could. *)
Definition refused_write (p : string) (data : bytes) (fs : FS) : FS :=
  match write_partial E p with
  | Some n => <[p := take n data]> fs
  | None => fs
  end.

(** [with open(p, "wb") as f: f.write(data)]. *)
Definition write_file (p : string) (data : bytes) : M FS unit :=
  λ fs, match write_refused E p with
        | Some e => (Raise e, refused_write p data fs)
        | None => (Ok tt, <[p := data]> fs)
        end.

(** [open(p, "rb").read()], as the libraries do. *)
Definition read_file (p : string) : M FS bytes :=
  λ fs, match fs !! p with
        | Some data => (Ok data, fs)
        | None => (Raise (PyError "FileNotFoundError" p), fs)
        end.

(** [os.remove(p)]. *)
Definition os_remove (p : string) : M FS unit :=
  λ fs, match fs !! p with
        | None => (Raise (PyError "FileNotFoundError" p), fs)
        | Some _ =>
            match remove_refused E p with
            | Some e => (Raise e, fs)
            | None => (Ok tt, delete p fs)
            end
        end.

(** The range of a C [int], in which Pillow takes the width and the
    height. *)
Definition fits_c_int (n : Z) : bool := (-2147483648 <=? n) && (n <=? 2147483647).

(** [Image.resize((w, h), LANCZOS)]: the two numbers are converted to C
    [int]s, a size that is not positive is refused, and the new image has
    the requested size when Pillow can make it. *)
Definition Image_resize {S} (im : Image) (size : Z * Z) : M S Image :=
  let '(w, h) := size in
  if negb (fits_c_int w && fits_c_int h)
  then raise (PyError "OverflowError" (overflow_message E))
  else if negb ((0 <? w) && (0 <? h))
  then raise (PyError "ValueError" "height and width must be > 0")
  else match resize_refused E im w h with
       | Some e => raise e
       | None => ret {| im_size := (w, h); im_pixels := lanczos E im w h |}
       end.

(** [run.text = t], which is also behind [add_run(t)], [cell.text = t]
    and [paragraph.text = t]. *)
Definition write_text {S} (t : string) : M S unit :=
  match text_refused E t with
  | Some e => raise e
  | None => ret tt
  end.

(** [paragraph.add_run(t)]: the new run. *)
Definition new_run {S} (t : string) : M S Run :=
  write_text t ;;; ret (Docx.plain_run t).

(** [cell.text = t]. *)
Definition set_cell_text {S} (t : string) (c : Cell) : M S Cell :=
  write_text t ;;; ret (Docx.set_cell_text t c).

(** [paragraph.text = t]. *)
Definition set_paragraph_text {S} (t : string) (p : Paragraph) : M S Paragraph :=
  write_text t ;;; ret (Docx.set_paragraph_text t p).

(** [Image.open(p)]. *)
Definition Image_open (p : string) : M FS Image :=
  data <- read_file p ;;
  match image_decode E data with
  | inl e => raise e
  | inr im => ret im
  end.

(** [img.save(p)] with a [.png] path. *)
Definition Image_save (im : Image) (p : string) : M FS unit :=
  write_file p (png_encode E im).

End OS.

(** ** Loops *)

(** [for x in l: b = body(b, x)]: the loop stops at the first exception. *)
Fixpoint for_each {S A B} (l : list A) (body : B → A → M S B) (b : B) : M S B :=
  match l with
  | [] => ret b
  | x :: l' => b' <- body b x ;; for_each l' body b'
  end.

Fixpoint enumerate_from {A} (k : nat) (l : list A) : list (nat * A) :=
  match l with
  | [] => []
  | x :: l' => (k, x) :: enumerate_from (S k) l'
  end.

(** [enumerate(l)]. *)
Definition enumerate {A} (l : list A) : list (nat * A) := enumerate_from 0 l.

(** [l[i] = f(l[i])], an [IndexError] when [i] is out of range. *)
Definition update_item {S A} (l : list A) (i : nat) (f : A → M S A) : M S (list A) :=
  x <- item l i ;;
  y <- f x ;;
  ret (<[i := y]> l).

(** A change of [cell.paragraphs[i]]. *)
Definition on_paragraph {S} (i : nat) (f : Paragraph → Paragraph) (c : Cell) : M S Cell :=
  ps <- update_item (cell_paragraphs c) i (λ p, ret (f p)) ;;
  ret (Docx.set_paragraphs ps c).

(** A change of [cell.paragraphs[i]] that can fail. *)
Definition in_paragraph {S} (i : nat) (f : Paragraph → M S Paragraph) (c : Cell) : M S Cell :=
  ps <- update_item (cell_paragraphs c) i f ;;
  ret (Docx.set_paragraphs ps c).

(** ** The request and response types *)

Record Experiment : Type := mkExperiment {
  title : string;
  date : string;
  github : string
}.

Record RecordData : Type := mkRecordData {
  course_title : string;
  student_name : string;
  register_number : string;
  experiments : list Experiment
}.

Record UploadFile : Type := mkUploadFile {
  filename : option string;
  content_type : option string;
  file : bytes
}.

Record UploadReply : Type := mkUploadReply {
  reply_message : string;
  reply_filename : string
}.

Record FileResponse : Type := mkFileResponse {
  resp_path : string;
  resp_filename : string;
  resp_media_type : string
}.

(** The state [generate_docx] runs in: the file system and the local
    [qr_images], unbound until its assignment. *)
Record Frame : Type := mkFrame {
  fs : FS;
  qr_images : option (list string)
}.

(** A file-system operation run from [generate_docx]. *)
Definition os {A} (c : M FS A) : M Frame A :=
  λ fr, let '(r, fs') := c (fs fr) in (r, {| fs := fs'; qr_images := qr_images fr |}).

Definition bind_qr_images (l : list string) : M Frame unit :=
  modify (λ fr, {| fs := fs fr; qr_images := Some l |}).

(** [qr_images.append(name)]. *)
Definition append_qr_image (name : string) : M Frame unit :=
  modify (λ fr, {| fs := fs fr; qr_images := (λ l, l ++ [name]) <$> qr_images fr |}).

(** A Python string is true when it is not empty. *)
Definition truthy (s : string) : bool :=
  match s with EmptyString => false | _ => true end.

Definition newline : string := String "010"%char EmptyString.

Section Service.
Context (E : Env).

(** *** [create_qr_code]

    Lines 40 to 61.  The default of [size] is 200; the one call in the
    service passes 150.  Each call builds its own encoder object and its
    own stream. *)
Definition create_qr_code {S} (url : string) (size : Z) : M S BytesIO :=
  let qr := {| qr_version := 1; qr_error_correction := ERROR_CORRECT_L;
               qr_box_size := 10; qr_border := 2;
               qr_data_list := []; qr_modules := [] |} in
  (* qr.add_data(url) *)
  let qr := {| qr_version := qr_version qr;
               qr_error_correction := qr_error_correction qr;
               qr_box_size := qr_box_size qr; qr_border := qr_border qr;
               qr_data_list := qr_data_list qr ++ [url];
               qr_modules := qr_modules qr |} in
  (* qr.make(fit=True) *)
  qr <- match qr_make E qr with inl e => raise e | inr q => ret q end ;;
  let img := qr_make_image E qr "black" "white" in
  img <- Image_resize E img (size, size) ;;
  let img_byte_arr := {| buffer := []; position := 0%nat |} in
  let img_byte_arr := BytesIO_write (png_encode E img) img_byte_arr in
  let img_byte_arr := BytesIO_seek 0 img_byte_arr in
  ret img_byte_arr.

(** *** [set_cell_border]

    Lines 63 to 77: one border element per edge named in the keyword
    arguments with a value that is true. *)
Definition set_cell_border (cell : Cell)
    (kwargs : gmap string (list (string * string))) : Cell :=
  foldl (λ cell edge,
           match kwargs !! edge with
           | Some (_ :: _) =>
               let tag := "tc" +:+ Py.capitalize edge in
               Docx.tcPr_append (Edge ("w:" +:+ tag) "single" "4" "0" "000000") cell
           | _ => cell
           end)
        cell ["top"; "left"; "bottom"; "right"].

(** The keyword arguments of both call sites. *)
Definition single_borders : gmap string (list (string * string)) :=
  list_to_map [ ("top", [("val", "single")]); ("bottom", [("val", "single")]);
                ("left", [("val", "single")]); ("right", [("val", "single")]) ].

(** *** [upload_logo]

    Lines 88 to 118.  The body of the [try] is given in two parts, the
    validations and the storage; the [except] clause wraps both. *)

Definition allowed_extensions : list string := ["png"; "jpg"; "jpeg"].

(** Lines 92 to 99: the two validations; the result is [ext]. *)
Definition logo_extension {S} (f : UploadFile) : M S string :=
  (* Validate file type *)
  ct <- not_none (content_type f) "startswith" ;;
  if negb (Py.startswith "image/" ct)
  then raise (HTTPException 400 "File must be an image")
  else
  (* Determine file extension *)
  name <- not_none (filename f) "split" ;;
  last_part <- match Py.last_item (Py.split "."%char name) with
               | Some x => ret x
               | None => raise (PyError "IndexError" "list index out of range")
               end ;;
  let ext := Py.lower last_part in
  if negb (Py.str_in ext allowed_extensions)
  then raise (HTTPException 400 "Only PNG, JPG, JPEG files allowed")
  else ret ext.

(** Lines 101 to 116: the file is saved and a JPEG is converted. *)
Definition store_logo (f : UploadFile) (ext : string) : M FS UploadReply :=
  (* Save the logo *)
  let logo_path := "college_logo." +:+ ext in
  write_file E logo_path (file f) ;;;
  (* Convert to PNG if needed (for consistency) *)
  logo_path <- (if Py.str_in ext ["jpg"; "jpeg"]
                then img <- Image_open E logo_path ;;
                     Image_save E img "college_logo.png" ;;;
                     os_remove E logo_path ;;;
                     ret "college_logo.png"
                else ret logo_path) ;;
  ret {| reply_message := "Logo uploaded successfully";
         reply_filename := logo_path |}.

Definition upload_logo (f : UploadFile) : M FS UploadReply :=
  try_except
    (ext <- logo_extension f ;; store_logo f ext)
    (λ e, raise (HTTPException 500 ("Error uploading logo: " +:+ str_exn e))).

(** *** [generate_docx]

    Lines 120 to 320.  python-docx changes the document through references
    to its paragraphs, cells and runs; here each block is built with its
    changes and appended where the source created it, and the cells of the
    tables are rewritten by index. *)

(** [run.add_picture(path, width=w)]: python-docx reads the file. *)
Definition add_picture (path : string) (w : Z) : M Frame Picture :=
  data <- os (read_file path) ;;
  match docx_image_error E data with
  | Some e => raise e
  | None => ret {| pic_blob := data; pic_width := w |}
  end.

Definition logo_files : list string :=
  ["college_logo.png"; "college_logo.jpg"; "college_logo.jpeg"].

(** The loop over [logo_files] with its [break]; the result carries
    [logo_exists]. *)
Fixpoint add_logo (files : list string) (doc : Document) : M Frame (Document * bool) :=
  match files with
  | [] => ret (doc, false)
  | logo_file :: rest =>
      fr <- get ;;
      if os_path_exists logo_file (fs fr)
      then pic <- add_picture logo_file (Inches 7.0) ;;
           let logo_para := Docx.set_alignment CENTER Docx.empty_paragraph in
           let logo_para := Docx.add_run (Docx.set_picture pic (Docx.plain_run "")) logo_para in
           ret (Docx.add_paragraph logo_para doc, true)
      else add_logo rest doc
  end.

Definition headers : list string :=
  ["Exp"; "Date"; "Name of The Experiment"; "QR Code"; "Mark"; "Signature"].

Definition widths : list Z :=
  [Inches 0.5; Inches 0.8; Inches 3.0; Inches 0.8; Inches 0.6; Inches 1.0].

(** Lines 174 to 183: the runs of a header cell made bold and 11pt, its
    paragraphs centred, its borders set. *)
Definition header_style (cell : Cell) : Cell :=
  let cell := Docx.set_paragraphs
                ((λ p, Docx.set_alignment CENTER
                         {| par_alignment := par_alignment p;
                            par_runs := (λ r, Docx.set_size (Pt 11) (Docx.set_bold true r))
                                          <$> par_runs p |})
                   <$> cell_paragraphs cell) cell in
  set_cell_border cell single_borders.

(** One header cell: text, bold 11pt runs, centred paragraphs, borders. *)
Definition header_cell {S} (header : string) (cell : Cell) : M S Cell :=
  cell <- set_cell_text E header cell ;;
  ret (header_style cell).

Definition qr_filename (idx : nat) : string := "qr_" +:+ Py.str idx +:+ ".png".

(** The body of the loop over [enumerate(data.experiments)]. *)
Definition fill_row (rows : list (list Cell)) (item_ : nat * Experiment)
    : M Frame (list (list Cell)) :=
  let '(idx, exp) := item_ in
  cells <- item rows (idx + 1) ;;
  (* Experiment number *)
  cells <- update_item cells 0
             (λ c, c <- set_cell_text E (Py.zfill 2 (Py.str (idx + 1))) c ;;
                   on_paragraph 0 (Docx.set_alignment CENTER) c) ;;
  (* Date *)
  cells <- update_item cells 1
             (set_cell_text E (if truthy (date exp) then date exp else "")) ;;
  (* Experiment title and GitHub link *)
  cells <- update_item cells 2
             (in_paragraph 0
                (λ title_para,
                   title_para <- set_paragraph_text E (title exp) title_para ;;
                   breaks <- new_run E (newline +:+ newline) ;;
                   let title_para := Docx.add_run breaks title_para in
                   link_run <- new_run E (github exp) ;;
                   let link_run := Docx.set_size (Pt 9) link_run in
                   let link_run := Docx.set_color (0, 0, 255) link_run in
                   let link_run := Docx.set_underline true link_run in
                   ret (Docx.add_run link_run title_para))) ;;
  (* Generate and insert QR code *)
  qr_img_data <- create_qr_code (github exp) 150 ;;
  let qr_name := qr_filename idx in
  os (write_file E qr_name (BytesIO_read qr_img_data)) ;;;
  append_qr_image qr_name ;;;
  cells <- update_item cells 3
             (λ c, c <- set_cell_text E "" c ;;
                   paragraph <- item (cell_paragraphs c) 0 ;;
                   let paragraph := Docx.set_alignment CENTER paragraph in
                   pic <- add_picture qr_name (Inches 0.75) ;;
                   let run := Docx.set_picture pic (Docx.plain_run "") in
                   ret (Docx.set_paragraphs
                          (<[0%nat := Docx.add_run run paragraph]> (cell_paragraphs c)) c)) ;;
  (* Empty cells for Mark and Signature *)
  cells <- update_item cells 4 (set_cell_text E "") ;;
  cells <- update_item cells 5 (set_cell_text E "") ;;
  let cells := (λ cell, set_cell_border cell single_borders) <$> cells in
  ret (<[(idx + 1)%nat := cells]> rows).

Definition no_borders : TcPrChild :=
  TcBorders ((λ border_name, ("w:" +:+ border_name, "none"))
               <$> ["top"; "left"; "bottom"; "right"; "insideH"; "insideV"]).

(** [para.add_run(t).font.size = Pt(11)]. *)
Definition details_run {S} (t : string) : M S Run :=
  r <- new_run E t ;;
  ret (Docx.set_size (Pt 11) r).

(** [cell = table.rows[r].cells[c]] changed in place. *)
Definition update_cell {S} (rows : list (list Cell)) (r c : nat) (f : Cell → M S Cell)
    : M S (list (list Cell)) :=
  update_item rows r (λ row, update_item row c f).

(** Lines 124 to 287: the document, built in order. *)
Definition build_document (data : RecordData) : M Frame Document :=
  let doc := Docx.new_document in
  (* Set margins *)
  let doc := {| doc_sections :=
                  (λ _ : Margins, {| top_margin := Some (Inches 0.5); bottom_margin := Some (Inches 1);
                           left_margin := Some (Inches 1); right_margin := Some (Inches 1) |})
                    <$> doc_sections doc;
                doc_body := doc_body doc |} in
  (* Add logo if exists *)
  logo <- add_logo logo_files doc ;;
  let '(doc, logo_exists) := logo in
  let doc := if (logo_exists : bool) then Docx.add_paragraph Docx.empty_paragraph doc else doc in
  (* Add course title (centered and bold) *)
  title_run <- new_run E (course_title data) ;;
  let title_run := Docx.set_size (Pt 14) (Docx.set_bold true title_run) in
  let doc := Docx.add_paragraph
               (Docx.add_run title_run (Docx.set_alignment CENTER Docx.empty_paragraph)) doc in
  let doc := Docx.add_paragraph Docx.empty_paragraph doc in
  (* Create table *)
  let num_experiments := length (experiments data) in
  let table := Docx.new_table (num_experiments + 1) 6 in
  let table := Docx.set_style "Table Grid" table in
  (* Header row *)
  header_cells <- item (tbl_rows table) 0 ;;
  header_cells <- for_each (enumerate headers)
                    (λ cells '(idx, header), update_item cells idx (header_cell header))
                    header_cells ;;
  let rows := <[0%nat := header_cells]> (tbl_rows table) in
  (* Set column widths *)
  rows <- for_each (enumerate widths)
            (λ rows '(idx, width),
               for_each (enumerate rows)
                 (λ rows '(r, _), update_cell rows r idx (λ cell, ret (Docx.set_width width cell)))
                 rows)
            rows ;;
  (* Fill data rows *)
  bind_qr_images [] ;;;
  rows <- for_each (enumerate (experiments data)) fill_row rows ;;
  let doc := Docx.add_block_table (Docx.set_rows rows table) doc in
  (* Add spacing after table *)
  let doc := Docx.add_paragraph Docx.empty_paragraph doc in
  let doc := Docx.add_paragraph Docx.empty_paragraph doc in
  (* Add confirmation statement *)
  conf_run <- new_run E
    "I confirm that the experiments and GitHub links provided are entirely my own work." ;;
  let conf_run := Docx.set_bold true conf_run in
  let doc := Docx.add_paragraph (Docx.add_run conf_run Docx.empty_paragraph) doc in
  (* Add spacing *)
  let doc := Docx.add_paragraph Docx.empty_paragraph doc in
  (* Add student details in a table for proper alignment *)
  let details_table := Docx.set_autofit false (Docx.new_table 2 2) in
  let drows := tbl_rows details_table in
  drows <- update_cell drows 0 0
             (in_paragraph 0
                (λ name_para,
                   r <- details_run ("Name: " +:+ student_name data) ;;
                   ret (Docx.add_run r name_para))) ;;
  drows <- update_cell drows 0 1
             (in_paragraph 0
                (λ reg_para,
                   r <- details_run ("Register Number: " +:+ register_number data) ;;
                   ret (Docx.set_alignment RIGHT (Docx.add_run r reg_para)))) ;;
  drows <- update_cell drows 1 0
             (in_paragraph 0
                (λ date_para,
                   r <- details_run "Date:" ;;
                   ret (Docx.add_run r date_para))) ;;
  drows <- update_cell drows 1 1
             (in_paragraph 0
                (λ sign_para,
                   r <- details_run "Learner's Signature:" ;;
                   ret (Docx.set_alignment RIGHT (Docx.add_run r sign_para)))) ;;
  (* Remove table borders *)
  let drows := (λ row : list Cell, Docx.tcPr_append no_borders <$> row) <$> drows in
  ret (Docx.add_block_table (Docx.set_rows drows details_table) doc).

(** [try: if os.path.exists(f): os.remove(f) except: pass], for each file. *)
Definition cleanup (files : list string) : M Frame unit :=
  for_each files
    (λ _ qr_file,
       try_pass (fr <- get ;;
                 if os_path_exists qr_file (fs fr)
                 then os (os_remove E qr_file)
                 else ret tt))
    tt.

Definition docx_media_type : string :=
  "application/vnd.openxmlformats-officedocument.wordprocessingml.document".

Definition output_filename (data : RecordData) : string :=
  register_number data +:+ "_Lab_Record.docx".

Definition generate_docx_try (data : RecordData) : M Frame FileResponse :=
  doc <- build_document data ;;
  (* Save document *)
  os (write_file E (output_filename data) (docx_serialize E doc)) ;;;
  (* Return file *)
  let response := {| resp_path := output_filename data;
                     resp_filename := output_filename data;
                     resp_media_type := docx_media_type |} in
  (* Cleanup QR images *)
  fr <- get ;;
  match qr_images fr with
  | Some files => cleanup files
  | None => raise (PyError "NameError" "name 'qr_images' is not defined")
  end ;;;
  ret response.

Definition generate_docx_except (e : exn) : M Frame FileResponse :=
  (* Cleanup on error *)
  fr <- get ;;
  match qr_images fr with          (* if 'qr_images' in locals() *)
  | Some files => cleanup files
  | None => ret tt
  end ;;;
  raise (HTTPException 500 ("Error: " +:+ str_exn e)).

Definition generate_docx (data : RecordData) (w : FS) : Res FileResponse * FS :=
  let '(r, fr) := try_except (generate_docx_try data) generate_docx_except
                    {| fs := w; qr_images := None |} in
  (r, fs fr).

(** The document a request builds on a file system, when it builds one. *)
Definition built_document (data : RecordData) (w : FS) : option Document :=
  match build_document data {| fs := w; qr_images := None |} with
  | (Ok doc, _) => Some doc
  | (Raise _, _) => None
  end.

(** The exception that stops the building of the document, if one does. *)
Definition build_failure (data : RecordData) (w : FS) : option exn :=
  match build_document data {| fs := w; qr_images := None |} with
  | (Ok _, _) => None
  | (Raise e, _) => Some e
  end.

(** Starlette sends the file at [path] after the handler has returned. *)
Definition serve (resp : FileResponse) (w : FS) : option bytes * FS :=
  (w !! resp_path resp, w).

End Service.

(** ** A reference environment

    A small, executable stand-in for the libraries: payloads of at most 64
    characters fit a symbol, every non-empty file is a picture, a text is
    refused when it holds a control character other than a tab, a line feed
    or a carriage return, and the operating system refuses nothing.  It is
    used to run the service on concrete requests. *)
Module Ref.

Definition png_header : bytes := [Byte.x89; Byte.x50; Byte.x4e; Byte.x47].

Definition make (q : QRCode) : exn + QRCode :=
  if (String.length (String.concat "" (qr_data_list q)) <=? 64)%nat
  then inr q
  else inl (PyError "DataOverflowError" "").

Definition natural_image (q : QRCode) (fill back : string) : Image :=
  let side := (21 + 2 * qr_border q) * qr_box_size q in
  {| im_size := (side, side); im_pixels := [] |}.

Definition encode (im : Image) : bytes :=
  png_header ++ [byte_of_ascii (ascii_of_nat (Z.to_nat (fst (im_size im))));
                 byte_of_ascii (ascii_of_nat (Z.to_nat (snd (im_size im))))].

Definition decode (data : bytes) : exn + Image :=
  match data with
  | [] => inl (PyError "UnidentifiedImageError" "cannot identify image file")
  | _ => inr {| im_size := (1, 1); im_pixels := [] |}
  end.

Definition picture_error (data : bytes) : option exn :=
  match data with
  | [] => Some (PyError "UnrecognizedImageError" "")
  | _ => None
  end.

Definition serialize (d : Document) : bytes :=
  [Byte.x50; Byte.x4b; byte_of_ascii (ascii_of_nat (length (doc_body d)))].

Definition xml_char (c : ascii) : bool :=
  let n := nat_of_ascii c in
  (32 <=? n)%nat || (n =? 9)%nat || (n =? 10)%nat || (n =? 13)%nat.

Fixpoint xml_compatible (t : string) : bool :=
  match t with
  | EmptyString => true
  | String c t' => xml_char c && xml_compatible t'
  end.

Definition text_error (t : string) : option exn :=
  if xml_compatible t then None
  else Some (PyError "ValueError"
               "All strings must be XML compatible: Unicode or ASCII, no NULL bytes or control characters").

Definition env : Env :=
  {| qr_make := make;
     qr_make_image := natural_image;
     lanczos := λ _ _ _, [];
     resize_refused := λ _ _ _, None;
     overflow_message := "Python int too large to convert to C int";
     png_encode := encode;
     image_decode := decode;
     docx_image_error := picture_error;
     docx_serialize := serialize;
     text_refused := text_error;
     write_refused := λ _, None;
     write_partial := λ _, None;
     remove_refused := λ _, None |}.

(** The same libraries under an operating system that refuses to remove
    any file. *)
Definition env_no_remove : Env :=
  {| qr_make := make;
     qr_make_image := natural_image;
     lanczos := λ _ _ _, [];
     resize_refused := λ _ _ _, None;
     overflow_message := "Python int too large to convert to C int";
     png_encode := encode;
     image_decode := decode;
     docx_image_error := picture_error;
     docx_serialize := serialize;
     text_refused := text_error;
     write_refused := λ _, None;
     write_partial := λ _, None;
     remove_refused := λ p, Some (PyError "PermissionError" p) |}.

(** The same libraries on a disk that fills up: the file of the second
    row's code image is opened, and the write fails after two bytes. *)
Definition env_disk_full : Env :=
  {| qr_make := make;
     qr_make_image := natural_image;
     lanczos := λ _ _ _, [];
     resize_refused := λ _ _ _, None;
     overflow_message := "Python int too large to convert to C int";
     png_encode := encode;
     image_decode := decode;
     docx_image_error := picture_error;
     docx_serialize := serialize;
     text_refused := text_error;
     write_refused := λ p, if String.eqb p "qr_1.png"
                           then Some (PyError "OSError" "[Errno 28] No space left on device")
                           else None;
     write_partial := λ _, Some 2%nat;
     remove_refused := λ _, None |}.

(** Three uploads: a text file, a JPEG with dots and capitals in its name,
    and a PNG whose name is the bare word PNG. *)
Definition notes : UploadFile :=
  {| filename := Some "notes.txt"; content_type := Some "text/plain";
     file := [Byte.x41] |}.

Definition photo : UploadFile :=
  {| filename := Some "crest.photo.JPG"; content_type := Some "image/jpeg";
     file := [Byte.xff; Byte.xd8] |}.

Definition shouting : UploadFile :=
  {| filename := Some "PNG"; content_type := Some "image/png";
     file := [Byte.x89; Byte.x50] |}.

(** A file system with a jpg logo and no png logo. *)
Definition with_jpg_logo : FS := {[ "college_logo.jpg" := [Byte.xff; Byte.xd8] ]}.

(** The request of the spec's round trip. *)
Definition asha : RecordData :=
  {| course_title := "Data Structures Lab";
     student_name := "Asha Rao";
     register_number := "21CS045";
     experiments := [ {| title := "Stack Implementation"; date := "2024-01-10";
                         github := "https://github.com/asha/stack" |} ] |}.

End Ref.

(** ** Observations on requests and responses *)

(** The extension [upload_logo] derives from the file name. *)
Definition upload_extension (f : UploadFile) : option string :=
  match filename f with
  | Some name => Py.lower <$> Py.last_item (Py.split "."%char name)
  | None => None
  end.

(** The declared content type is of the image class. *)
Definition declared_image (f : UploadFile) : bool :=
  match content_type f with
  | Some ct => Py.startswith "image/" ct
  | None => false
  end.

(** The extension is one of png, jpg, jpeg. *)
Definition allowed_extension (f : UploadFile) : bool :=
  match upload_extension f with
  | Some ext => Py.str_in ext allowed_extensions
  | None => false
  end.

(** A 4xx-class response. *)
Definition is_client_error (e : exn) : bool :=
  match e with
  | HTTPException c _ => (400 <=? c) && (c <? 500)
  | PyError _ _ => false
  end.

(** The experiment table is the first table of the document. *)
Definition experiment_table (d : Document) : option Table := head (Docx.tables d).

(** The text of the ordinal cell of the experiment at 1-based position [i]. *)
Definition ordinal_text (d : Document) (i : nat) : option string :=
  match experiment_table d with
  | Some t =>
      match tbl_rows t !! i with
      | Some cells => Docx.cell_text <$> cells !! 0%nat
      | None => None
      end
  | None => None
  end.

(** The two-character rendering of a number below one hundred. *)
Definition two_digits (i : nat) : string :=
  String (Py.digit (i / 10)) (String (Py.digit (i `mod` 10)) "").

(** The pictures shown by the paragraphs of the body, outside the tables. *)
Definition body_pictures (d : Document) : list Picture :=
  mjoin (omap (λ b, match b with
                    | BParagraph p => Some (Docx.paragraph_pictures p)
                    | BTable _ => None
                    end) (doc_body d)).

(** A computation that leaves the state as it found it, whether it
    returns or raises. *)
Definition stateless {S A} (c : M S A) : Prop :=
  ∀ s r s', c s = (r, s') → s' = s.

(** The recognized logo file names in their priority order, as the spec
    words the resolution: png, then jpg, then jpeg. *)
Definition resolve_spec (w : FS) : option string :=
  if os_path_exists "college_logo.png" w then Some "college_logo.png"
  else if os_path_exists "college_logo.jpg" w then Some "college_logo.jpg"
  else if os_path_exists "college_logo.jpeg" w then Some "college_logo.jpeg"
  else None.

(** The logo block: a centred paragraph showing the picture at 7 inches. *)
Definition logo_block (blob : bytes) : Block :=
  BParagraph
    (Docx.add_run
       (Docx.set_picture {| pic_blob := blob; pic_width := Inches 7.0 |} (Docx.plain_run ""))
       (Docx.set_alignment CENTER Docx.empty_paragraph)).

Definition spacer : Block := BParagraph Docx.empty_paragraph.

Definition title_block (data : RecordData) : Block :=
  BParagraph
    (Docx.add_run
       (Docx.set_size (Pt 14) (Docx.set_bold true (Docx.plain_run (course_title data))))
       (Docx.set_alignment CENTER Docx.empty_paragraph)).

Definition confirmation_block : Block :=
  BParagraph
    (Docx.add_run
       (Docx.set_bold true (Docx.plain_run
          "I confirm that the experiments and GitHub links provided are entirely my own work."))
       Docx.empty_paragraph).

(** The blocks from the course title to the details table. *)
Definition main_blocks (data : RecordData) (rows : list (list Cell)) (details : Table)
    : list Block :=
  [ title_block data; spacer;
    BTable {| tbl_style := Some "Table Grid"; tbl_autofit := true; tbl_rows := rows |};
    spacer; spacer; confirmation_block; spacer; BTable details ].

(** The recognized logo files present on a file system. *)
Definition stored_logos (w : FS) : list string :=
  List.filter (λ p, os_path_exists p w) logo_files.

(** The names of the code-image files of the first [k] rows. *)
Definition qr_filenames (k : nat) : list string := qr_filename <$> seq 0 k.

(** The same libraries under another refusal of removals. *)
Definition with_remove_refused (r : string → option exn) (E : Env) : Env :=
  {| qr_make := qr_make E;
     qr_make_image := qr_make_image E;
     lanczos := lanczos E;
     resize_refused := resize_refused E;
     overflow_message := overflow_message E;
     png_encode := png_encode E;
     image_decode := image_decode E;
     docx_image_error := docx_image_error E;
     docx_serialize := docx_serialize E;
     text_refused := text_refused E;
     write_refused := write_refused E;
     write_partial := write_partial E;
     remove_refused := r |}.

(** The last character of a string. *)
Fixpoint last_char (s : string) : option ascii :=
  match s with
  | EmptyString => None
  | String c EmptyString => Some c
  | String _ s' => last_char s'
  end.

(** The shape of the experiment table: its rows and their cells. *)
Definition shape (n m : nat) (rows : list (list Cell)) : Prop :=
  length rows = n ∧ Forall (λ r, length r = m) rows.

(** What [cleanup] leaves of a file system: each listed file is deleted
    unless the operating system refuses. *)
Definition sweep (E : Env) (files : list string) (w : FS) : FS :=
  foldl (λ w p, match remove_refused E p with
                | None => delete p w
                | Some _ => w
                end) w files.

(** Every change [generate_docx] has made to the file system [w] so far is
    to a code-image file of one of the [n] rows, and so is every name
    recorded in [qr_images]. *)
Definition tracked (w : FS) (n : nat) (fr : Frame) : Prop :=
  match qr_images fr with
  | None => fs fr = w
  | Some l => (∀ p, p ∈ l → p ∈ qr_filenames n)
              ∧ (∀ p, p ∉ qr_filenames n → fs fr !! p = w !! p)
  end.

(** The response of a successful generation. *)
Definition docx_response (data : RecordData) : FileResponse :=
  {| resp_path := output_filename data;
     resp_filename := output_filename data;
     resp_media_type := docx_media_type |}.

(** The response of a failed generation. *)
Definition generation_error (e : exn) : exn :=
  HTTPException 500 ("Error: " +:+ str_exn e).

(** A cell with a first paragraph, as [cell.paragraphs[0]] needs. *)
Definition has_paragraph (c : Cell) : Prop := is_Some (cell_paragraphs c !! 0%nat).

(** A table of [n] rows of six cells, each with a first paragraph. *)
Definition well_formed (n : nat) (rows : list (list Cell)) : Prop :=
  shape n 6 rows ∧ Forall (Forall has_paragraph) rows.

(** The encoder's object when [qr.make] is called on a payload. *)
Definition qr_request (url : string) : QRCode :=
  {| qr_version := 1; qr_error_correction := ERROR_CORRECT_L;
     qr_box_size := 10; qr_border := 2;
     qr_data_list := [url]; qr_modules := [] |}.

(** The code-image generator as a function of the payload and the size
    alone, as the spec takes it: the symbol of the payload at error
    correction L with a border of 2 modules, drawn black on white, resampled
    to [size] by [size] and encoded as PNG, or the failure of the step that
    fails. *)
Definition code_image (E : Env) (payload : string) (size : Z) : Res bytes :=
  match qr_make E (qr_request payload) with
  | inl e => Raise e
  | inr q =>
      let natural := qr_make_image E q "black" "white" in
      if negb (fits_c_int size)
      then Raise (PyError "OverflowError" (overflow_message E))
      else if negb (0 <? size)
      then Raise (PyError "ValueError" "height and width must be > 0")
      else match resize_refused E natural size size with
           | Some e => Raise e
           | None => Ok (png_encode E {| im_size := (size, size);
                                         im_pixels := lanczos E natural size size |})
           end
  end.


(** The texts [generate_docx] writes into the row of the experiment at
    0-based position [idx], in the order of the source. *)
Definition row_texts (idx : nat) (exp : Experiment) : list string :=
  [ Py.zfill 2 (Py.str (idx + 1)); (if truthy (date exp) then date exp else "");
    title exp; newline +:+ newline; github exp; "" ].

(** The texts written before the data rows, and those written after. *)
Definition heading_texts (data : RecordData) : list string :=
  course_title data :: headers.

Definition closing_texts (data : RecordData) : list string :=
  [ "I confirm that the experiments and GitHub links provided are entirely my own work.";
    "Name: " +:+ student_name data; "Register Number: " +:+ register_number data;
    "Date:"; "Learner's Signature:" ].

(** Every text of a list is one python-docx takes. *)
Definition texts_accepted (E : Env) (ts : list string) : Prop :=
  ∀ t, t ∈ ts → text_refused E t = None.

(** The bytes [create_qr_code] returns for a link at the size the table
    uses, when it returns. *)
Definition qr_png (E : Env) (url : string) : option bytes :=
  match create_qr_code E url 150 tt with
  | (Ok stream, _) => Some (BytesIO_read stream)
  | (Raise _, _) => None
  end.

(** The row of an experiment goes through: python-docx takes its texts,
    the code image of its link is made and python-docx reads it back, and
    the operating system accepts the write of its file. *)
Definition row_passes (E : Env) (idx : nat) (exp : Experiment) : Prop :=
  texts_accepted E (row_texts idx exp)
  ∧ (∃ blob, qr_png E (github exp) = Some blob ∧ docx_image_error E blob = None)
  ∧ write_refused E (qr_filename idx) = None.

(** An environment that lets a request through on a file system:
    python-docx takes the texts around the table and reads the logo it is
    given, every row goes through, and the operating system accepts the
    write of the output file. *)
Record cooperative (E : Env) (data : RecordData) (w : FS) : Prop := {
  texts_fit : texts_accepted E (heading_texts data ++ closing_texts data);
  rows_pass : ∀ idx exp, experiments data !! idx = Some exp → row_passes E idx exp;
  logo_read : ∀ path blob, resolve_spec w = Some path → w !! path = Some blob →
                docx_image_error E blob = None;
  output_written : write_refused E (output_filename data) = None
}.

(** ** The status and health queries

    Lines 79 to 86 and 322 to 324: the two read-only endpoints. *)

Record StatusReply : Type := mkStatusReply {
  status_message : string;
  status_status : string;
  status_version : string;
  logo_uploaded : bool
}.

(** [root]. *)
Definition root (w : FS) : StatusReply :=
  {| status_message := "Lab Record Generator API";
     status_status := "running";
     status_version := "1.0";
     logo_uploaded := os_path_exists "college_logo.png" w
                      || os_path_exists "college_logo.jpg" w
                      || os_path_exists "college_logo.jpeg" w |}.

(** [health_check]: the one entry of the reply. *)
Definition health_check : string * string := ("status", "healthy").

(** ** The document in closed form *)

(** The four border elements [set_cell_border] writes, in its order. *)
Definition four_borders : list TcPrChild :=
  [ Edge "w:tcTop" "single" "4" "0" "000000";
    Edge "w:tcLeft" "single" "4" "0" "000000";
    Edge "w:tcBottom" "single" "4" "0" "000000";
    Edge "w:tcRight" "single" "4" "0" "000000" ].

(** A header cell: the label in one bold 11pt run of a centred paragraph. *)
Definition header_cell_of (label : string) (w : Z) : Cell :=
  {| cell_paragraphs :=
       [ {| par_alignment := Some CENTER;
            par_runs := [ {| run_text := label; run_bold := Some true;
                             run_size := Some (Pt 11); run_color := None;
                             run_underline := None; run_picture := None |} ] |} ];
     cell_width := Some w;
     cell_tcPr := four_borders |}.

Definition header_row : list Cell :=
  [ header_cell_of "Exp" (Inches 0.5);
    header_cell_of "Date" (Inches 0.8);
    header_cell_of "Name of The Experiment" (Inches 3.0);
    header_cell_of "QR Code" (Inches 0.8);
    header_cell_of "Mark" (Inches 0.6);
    header_cell_of "Signature" (Inches 1.0) ].

(** A row of the new table once the column widths are set. *)
Definition blank_row : list Cell :=
  (λ w, {| cell_paragraphs := [Docx.empty_paragraph]; cell_width := Some w;
           cell_tcPr := [] |}) <$> widths.

(** A bordered cell of a data row. *)
Definition data_cell (p : Paragraph) (w : Z) : Cell :=
  {| cell_paragraphs := [p]; cell_width := Some w; cell_tcPr := four_borders |}.

Definition text_paragraph (a : option WD_ALIGN_PARAGRAPH) (t : string) : Paragraph :=
  {| par_alignment := a; par_runs := [Docx.plain_run t] |}.

(** The row of the experiment at 0-based position [idx], showing the
    picture [blob] as its code image. *)
Definition data_row (idx : nat) (exp : Experiment) (blob : bytes) : list Cell :=
  [ data_cell (text_paragraph (Some CENTER) (Py.zfill 2 (Py.str (idx + 1)))) (Inches 0.5);
    data_cell (text_paragraph None (date exp)) (Inches 0.8);
    data_cell
      {| par_alignment := None;
         par_runs :=
           [ Docx.plain_run (title exp);
             Docx.plain_run (newline +:+ newline);
             {| run_text := github exp; run_bold := None; run_size := Some (Pt 9);
                run_color := Some (0, 0, 255); run_underline := Some true;
                run_picture := None |} ] |}
      (Inches 3.0);
    data_cell
      {| par_alignment := Some CENTER;
         par_runs :=
           [ Docx.plain_run "";
             {| run_text := ""; run_bold := None; run_size := None; run_color := None;
                run_underline := None;
                run_picture := Some {| pic_blob := blob; pic_width := Inches 0.75 |} |} ] |}
      (Inches 0.8);
    data_cell (text_paragraph None "") (Inches 0.6);
    data_cell (text_paragraph None "") (Inches 1.0) ].

(** A cell of the details table: one 11pt run, no border on any edge. *)
Definition details_cell (a : option WD_ALIGN_PARAGRAPH) (t : string) : Cell :=
  {| cell_paragraphs :=
       [ {| par_alignment := a;
            par_runs := [ {| run_text := t; run_bold := None; run_size := Some (Pt 11);
                             run_color := None; run_underline := None;
                             run_picture := None |} ] |} ];
     cell_width := None;
     cell_tcPr :=
       [ TcBorders [ ("w:top", "none"); ("w:left", "none"); ("w:bottom", "none");
                     ("w:right", "none"); ("w:insideH", "none"); ("w:insideV", "none") ] ] |}.

Definition details_table (data : RecordData) : Table :=
  {| tbl_style := None; tbl_autofit := false;
     tbl_rows :=
       [ [ details_cell None ("Name: " +:+ student_name data);
           details_cell (Some RIGHT) ("Register Number: " +:+ register_number data) ];
         [ details_cell None "Date:";
           details_cell (Some RIGHT) "Learner's Signature:" ] ] |}.

Definition page_margins : Margins :=
  {| top_margin := Some (Inches 0.5); bottom_margin := Some (Inches 1);
     left_margin := Some (Inches 1); right_margin := Some (Inches 1) |}.

(** [row.cells[idx].width = w] on one row. *)
Definition set_column_width (idx : nat) (w : Z) (row : list Cell) : list Cell :=
  alter (Docx.set_width w) idx row.

(** The loop over [enumerate(widths)] on one row. *)
Definition set_widths_from (k : nat) (ws : list Z) (row : list Cell) : list Cell :=
  foldl (λ row '(idx, w), set_column_width idx w row) row (enumerate_from k ws).

(** ** More concrete requests *)

Module More.

(** A request whose second link is longer than the reference encoder
    takes. *)
Definition overflow : RecordData :=
  {| course_title := "Data Structures Lab";
     student_name := "Asha Rao";
     register_number := "21CS045";
     experiments :=
       [ {| title := "Stack"; date := ""; github := "https://github.com/asha/stack" |};
         {| title := "Queue"; date := "2024-01-17";
            github := "https://github.com/asha/" +:+ Py.zeros 64 |} ] |}.

(** A request of two rows. *)
Definition pair : RecordData :=
  {| course_title := "Data Structures Lab";
     student_name := "Asha Rao";
     register_number := "21CS045";
     experiments :=
       [ {| title := "Stack"; date := ""; github := "https://github.com/asha/stack" |};
         {| title := "Queue"; date := "2024-01-17";
            github := "https://github.com/asha/queue" |} ] |}.

(** A request whose course title holds a NUL character. *)
Definition nul_title : RecordData :=
  {| course_title := String "000"%char "Lab";
     student_name := "Asha Rao";
     register_number := "21CS045";
     experiments := [] |}.

(** A PNG upload named in capitals, with dots in its stem. *)
Definition crest : UploadFile :=
  {| filename := Some "college.crest.v2.PNG"; content_type := Some "image/png";
     file := [Byte.x89; Byte.x50; Byte.x4e; Byte.x47] |}.

(** A JPEG upload with no bytes, which the reference decoder refuses. *)
Definition hollow : UploadFile :=
  {| filename := Some "logo.jpeg"; content_type := Some "image/jpeg"; file := [] |}.

(** A file system whose PNG logo is an empty file, beside a jpg logo and
    a document of the user. *)
Definition with_empty_logo : FS :=
  {[ "college_logo.png" := []; "college_logo.jpg" := [Byte.xff; Byte.xd8];
     "notes.txt" := [Byte.x41] ]}.

(** Keyword arguments that ask for double, thick, red borders. *)
Definition loud_borders : gmap string (list (string * string)) :=
  list_to_map
    [ ("top", [("val", "double"); ("sz", "24")]); ("left", [("color", "FF0000")]);
      ("bottom", [("val", "double")]); ("right", [("val", "dotted")]) ].

End More.

(** * Properties *)

(** ** Strings *)

Section PyFacts.

Lemma append_cons (c : ascii) (s t : string) :
  String c s +:+ t = String c (s +:+ t).
Proof. reflexivity. Qed.

Lemma append_empty_r (s : string) : s +:+ "" = s.
Proof. induction s as [|c s IH]; [done|]. by rewrite append_cons, IH. Qed.

Lemma length_append (s t : string) :
  String.length (s +:+ t) = (String.length s + String.length t)%nat.
Proof.
  induction s as [|c s IH]; [done|].
  rewrite append_cons. cbn [String.length]. by rewrite IH.
Qed.

(** A string without the separator is the only part [split] returns. *)
Lemma split_no_sep (sep : ascii) (s : string) :
  Py.contains sep s = false → Py.split sep s = [s].
Proof.
  induction s as [|c s IH]; [done|]. cbn.
  intros [Hc Hs]%orb_false_iff. rewrite Hc, (IH Hs). done.
Qed.

Lemma str_go_grows (fuel n : nat) (acc : string) :
  (0 < fuel)%nat → (String.length acc < String.length (Py.str_go fuel n acc))%nat.
Proof.
  revert n acc. induction fuel as [|fuel IH]; intros n acc Hf; [lia|].
  cbn [Py.str_go]. destruct (n / 10 =? 0)%nat eqn:Hq.
  - cbn. lia.
  - destruct fuel as [|fuel'].
    + cbn. lia.
    + specialize (IH (n / 10)%nat (String (Py.digit (n `mod` 10)) acc)).
      cbn [String.length] in IH. lia.
Qed.

(** One digit below ten. *)
Lemma str_one_digit (n : nat) :
  (n < 10)%nat → Py.str n = String (Py.digit n) "".
Proof.
  intros Hn. unfold Py.str. cbn [Py.str_go].
  rewrite (Nat.div_small n 10), (Nat.mod_small n 10) by lia. done.
Qed.

(** Two digits from ten to ninety-nine. *)
Lemma str_two_digits (n : nat) :
  (10 ≤ n < 100)%nat →
  Py.str n = String (Py.digit (n / 10)) (String (Py.digit (n `mod` 10)) "").
Proof.
  intros Hn. unfold Py.str. cbn [Py.str_go].
  assert (Hq : (0 < n / 10 < 10)%nat).
  { split.
    - apply Nat.div_str_pos. lia.
    - apply Nat.Div0.div_lt_upper_bound. lia. }
  destruct (n / 10 =? 0)%nat eqn:Hz; [apply Nat.eqb_eq in Hz; lia|].
  destruct n as [|n']; [lia|]. cbn [Py.str_go].
  rewrite (Nat.div_small (S n' / 10) 10), (Nat.mod_small (S n' / 10) 10) by lia.
  done.
Qed.

(** At least two digits from ten on. *)
Lemma str_length_ge (n : nat) :
  (10 ≤ n)%nat → (2 ≤ String.length (Py.str n))%nat.
Proof.
  intros Hn. unfold Py.str. cbn [Py.str_go].
  destruct (n / 10 =? 0)%nat eqn:Hz.
  - apply Nat.eqb_eq in Hz.
    assert (0 < n / 10)%nat by (apply Nat.div_str_pos; lia). lia.
  - pose proof (str_go_grows n (n / 10) (String (Py.digit (n `mod` 10)) "")) as H.
    cbn [String.length] in H. lia.
Qed.

Lemma append_assoc (s t u : string) : (s +:+ t) +:+ u = s +:+ (t +:+ u).
Proof. induction s as [|c s IH]; [done|]. by rewrite !append_cons, IH. Qed.

Lemma str_go_acc (fuel n : nat) (acc : string) :
  Py.str_go fuel n acc = Py.str_go fuel n "" +:+ acc.
Proof.
  revert n acc. induction fuel as [|fuel IH]; intros n acc; [done|].
  cbn [Py.str_go]. destruct (n / 10 =? 0)%nat; [done|].
  rewrite IH, (IH _ (String _ "")), append_assoc. done.
Qed.

(** Enough fuel is as good as more. *)
Lemma str_go_fuel (fuel fuel' n : nat) (acc : string) :
  (n < fuel)%nat → (n < fuel')%nat → Py.str_go fuel n acc = Py.str_go fuel' n acc.
Proof.
  revert fuel' n acc. induction fuel as [|fuel IH]; intros fuel' n acc Hf Hf'; [lia|].
  destruct fuel' as [|fuel']; [lia|]. cbn [Py.str_go].
  destruct (n / 10 =? 0)%nat eqn:Hq; [done|].
  apply Nat.eqb_neq in Hq.
  assert (0 < n)%nat by (destruct n; [done|lia]).
  assert (n / 10 < n)%nat by (apply Nat.div_lt; lia).
  apply IH; lia.
Qed.

(** The decimal of a number from ten on: the decimal of its tenth, then
    its last digit. *)
Lemma str_step (n : nat) :
  (10 ≤ n)%nat → Py.str n = Py.str (n / 10) +:+ String (Py.digit (n `mod` 10)) "".
Proof.
  intros Hn. unfold Py.str at 1. cbn [Py.str_go].
  assert (0 < n / 10 < n)%nat.
  { split; [apply Nat.div_str_pos; lia|apply Nat.div_lt; lia]. }
  destruct (n / 10 =? 0)%nat eqn:Hq; [apply Nat.eqb_eq in Hq; lia|].
  rewrite str_go_acc. unfold Py.str. f_equal. apply str_go_fuel; lia.
Qed.

Lemma int_go_app (s t : string) (a : nat) :
  Py.int_go (s +:+ t) a
  = match Py.int_go s a with Some a' => Py.int_go t a' | None => None end.
Proof.
  revert a. induction s as [|c s IH]; intros a; [done|].
  rewrite append_cons. cbn [Py.int_go]. by destruct (Py.digit_val c).
Qed.

Lemma digit_val_digit (d : nat) : (d < 10)%nat → Py.digit_val (Py.digit d) = Some d.
Proof. intros Hd. do 10 (destruct d as [|d]; [reflexivity|]). lia. Qed.

Lemma int_go_str (n : nat) : Py.int_go (Py.str n) 0 = Some n.
Proof.
  induction (lt_wf n) as [n _ IH].
  destruct (decide (n < 10)%nat) as [Hlt|Hge].
  - rewrite str_one_digit by done. cbn [Py.int_go]. rewrite digit_val_digit by done.
    f_equal; lia.
  - rewrite str_step, int_go_app by lia.
    rewrite IH by (apply Nat.div_lt; lia). cbn [Py.int_go].
    rewrite digit_val_digit by (apply Nat.mod_upper_bound; lia).
    pose proof (Nat.div_mod_eq n 10). f_equal; lia.
Qed.

(** [str] writes the decimal numeral: [int] reads the number back. *)
Lemma int_str (n : nat) : Py.int (Py.str n) = Some n.
Proof.
  unfold Py.int. pose proof (int_go_str n) as H.
  destruct (Py.str n) eqn:Hs; [|done].
  pose proof (str_go_grows (Datatypes.S n) n "") as Hlen.
  unfold Py.str in Hs. rewrite Hs in Hlen. cbn in Hlen. lia.
Qed.

(** [zfill] leaves a string that is wide enough as it is. *)
Lemma zfill_wide (width : nat) (s : string) :
  (width ≤ String.length s)%nat → Py.zfill width s = s.
Proof.
  intros H. unfold Py.zfill.
  replace (width - String.length s)%nat with 0%nat by lia. done.
Qed.

End PyFacts.

(** ** The effect monad *)

Section MonadFacts.
Context {S : Type}.

Lemma bind_Ok_inv {A B} (c : M S A) (k : A → M S B) (s : S) b s' :
  bind c k s = (Ok b, s') →
  ∃ a s1, c s = (Ok a, s1) ∧ k a s1 = (Ok b, s').
Proof.
  unfold bind. destruct (c s) as [[a|e] s1]; [eauto|]. intros [=].
Qed.

Lemma bind_Ok {A B} (c : M S A) (k : A → M S B) s a s1 :
  c s = (Ok a, s1) → bind c k s = k a s1.
Proof. unfold bind. by intros ->. Qed.

Lemma bind_Raise {A B} (c : M S A) (k : A → M S B) s e s1 :
  c s = (Raise e, s1) → bind c k s = (Raise e, s1).
Proof. unfold bind. by intros ->. Qed.

Lemma item_Ok_inv {A} (l : list A) i (s : S) a s' :
  item l i s = (Ok a, s') → l !! i = Some a ∧ s' = s.
Proof.
  unfold item. destruct (l !! i); cbv [ret raise]; intros [=]; by subst.
Qed.

Lemma item_Ok {A} (l : list A) i (s : S) a :
  l !! i = Some a → item l i s = (Ok a, s).
Proof. unfold item. by intros ->. Qed.

Lemma update_item_Ok_inv {A} (l : list A) i f (s : S) l' s' :
  update_item l i f s = (Ok l', s') →
  ∃ x y, l !! i = Some x ∧ f x s = (Ok y, s') ∧ l' = <[i := y]> l.
Proof.
  unfold update_item. intros (x & s1 & Hx & H)%bind_Ok_inv.
  apply item_Ok_inv in Hx as [Hx ->].
  apply bind_Ok_inv in H as (y & s2 & Hy & H).
  cbv [ret] in H. injection H as <- <-. eauto.
Qed.

Lemma update_item_Ok {A} (l : list A) i f (s : S) x y s' :
  l !! i = Some x → f x s = (Ok y, s') →
  update_item l i f s = (Ok (<[i := y]> l), s').
Proof.
  intros Hx Hy. unfold update_item.
  rewrite (bind_Ok _ _ _ _ _ (item_Ok _ _ _ _ Hx)).
  by rewrite (bind_Ok _ _ _ _ _ Hy).
Qed.

Lemma on_paragraph_Ok_inv i f c (s : S) c' s' :
  on_paragraph i f c s = (Ok c', s') →
  ∃ p, cell_paragraphs c !! i = Some p ∧ s' = s
       ∧ c' = Docx.set_paragraphs (<[i := f p]> (cell_paragraphs c)) c.
Proof.
  unfold on_paragraph. intros (ps & s1 & Hps & H)%bind_Ok_inv.
  apply update_item_Ok_inv in Hps as (p & y & Hp & Hy & ->).
  cbv [ret] in H, Hy. injection Hy as <- <-. injection H as <- <-. eauto.
Qed.

Lemma on_paragraph_Ok i f c (s : S) p :
  cell_paragraphs c !! i = Some p →
  on_paragraph i f c s
  = (Ok (Docx.set_paragraphs (<[i := f p]> (cell_paragraphs c)) c), s).
Proof.
  intros Hp. unfold on_paragraph.
  by rewrite (bind_Ok _ _ _ _ _ (update_item_Ok _ _ _ _ _ _ _ Hp eq_refl)).
Qed.

(** An invariant of the loop variable holds after a loop that ends
    without an exception. *)
Lemma for_each_Ok_inv {A B} (I : B → Prop) (body : B → A → M S B) l b s b' s' :
  for_each l body b s = (Ok b', s') →
  I b →
  (∀ b0 x s0 b1 s1, x ∈ l → I b0 → body b0 x s0 = (Ok b1, s1) → I b1) →
  I b'.
Proof.
  revert b s. induction l as [|x l IH]; intros b s H Hb Hstep.
  - cbv [for_each ret] in H. by injection H as <- <-.
  - cbn [for_each] in H. apply bind_Ok_inv in H as (b1 & s1 & H1 & H).
    eapply IH; [exact H| |].
    + eapply Hstep; [|exact Hb|exact H1]. left.
    + intros ??????. apply Hstep. by right.
Qed.

(** A loop whose body cannot fail under an invariant of the loop
    variable and the state ends without an exception. *)
Lemma for_each_progress {A B} (I : B → S → Prop) (body : B → A → M S B) l b s :
  I b s →
  (∀ b0 x s0, x ∈ l → I b0 s0 → ∃ b1 s1, body b0 x s0 = (Ok b1, s1) ∧ I b1 s1) →
  ∃ b' s', for_each l body b s = (Ok b', s') ∧ I b' s'.
Proof.
  revert b s. induction l as [|x l IH]; intros b s Hb Hstep.
  - by exists b, s.
  - destruct (Hstep b x s) as (b1 & s1 & H1 & Hb1); [left|done|].
    destruct (IH b1 s1 Hb1) as (b' & s' & H & Hb').
    { intros ????. apply Hstep. by right. }
    exists b', s'. split; [|done]. cbn [for_each]. by rewrite (bind_Ok _ _ _ _ _ H1).
Qed.

End MonadFacts.

(** ** Computations that do not touch the state *)

Section Stateless.
Context {S : Type}.

Lemma stateless_ret {A} (a : A) : stateless (ret a : M S A).
Proof. intros s r s'. cbv [ret]. by intros [= _ <-]. Qed.

Lemma stateless_raise {A} e : stateless (raise e : M S A).
Proof. intros s r s'. cbv [raise]. by intros [= _ <-]. Qed.

Lemma stateless_bind {A B} (c : M S A) (k : A → M S B) :
  stateless c → (∀ a, stateless (k a)) → stateless (bind c k).
Proof.
  intros Hc Hk s r s'. unfold bind.
  destruct (c s) as [[a|e] s1] eqn:Hcs.
  - intros H. apply Hk in H. apply Hc in Hcs. congruence.
  - intros [= _ <-]. by apply Hc in Hcs.
Qed.

Lemma stateless_item {A} (l : list A) i : stateless (item l i : M S A).
Proof. unfold item. destruct (l !! i); [apply stateless_ret|apply stateless_raise]. Qed.

Lemma stateless_update_item {A} (l : list A) i (f : A → M S A) :
  (∀ x, stateless (f x)) → stateless (update_item l i f).
Proof.
  intros Hf. unfold update_item.
  apply stateless_bind; [apply stateless_item|]. intros x.
  apply stateless_bind; [apply Hf|]. intros y. apply stateless_ret.
Qed.

Lemma stateless_on_paragraph i f c : stateless (on_paragraph i f c : M S Cell).
Proof.
  unfold on_paragraph. apply stateless_bind.
  - apply stateless_update_item. intros p. apply stateless_ret.
  - intros ps. apply stateless_ret.
Qed.

Lemma stateless_for_each {A B} (body : B → A → M S B) l b :
  (∀ b x, stateless (body b x)) → stateless (for_each l body b).
Proof.
  intros Hbody. revert b. induction l as [|x l IH]; intros b; cbn [for_each].
  - apply stateless_ret.
  - apply stateless_bind; [apply Hbody|]. intros b'. apply IH.
Qed.

Lemma stateless_update_cell rows r c (f : Cell → M S Cell) :
  (∀ x, stateless (f x)) → stateless (update_cell rows r c f).
Proof.
  intros Hf. unfold update_cell. apply stateless_update_item.
  intros row. by apply stateless_update_item.
Qed.

(** The outcome of a sequence: the first part raised, or it returned
    and the rest decided. *)
Lemma bind_inv {A B} (c : M S A) (k : A → M S B) (s : S) r s' :
  bind c k s = (r, s') →
  (∃ e, c s = (Raise e, s') ∧ r = Raise e)
  ∨ (∃ a s1, c s = (Ok a, s1) ∧ k a s1 = (r, s')).
Proof.
  unfold bind. destruct (c s) as [[a|e] s1]; [right; eauto|].
  intros [= <- <-]. left. eauto.
Qed.

(** A property of the state that every turn of a loop keeps, whether
    the turn returns or raises, holds when the loop is left. *)
Lemma for_each_state {A B} (J : S → Prop) (body : B → A → M S B) l b s r s' :
  for_each l body b s = (r, s') →
  J s →
  (∀ b0 x s0 r1 s1, x ∈ l → J s0 → body b0 x s0 = (r1, s1) → J s1) →
  J s'.
Proof.
  revert b s. induction l as [|x l IH]; intros b s H Hs Hstep.
  - cbv [for_each ret] in H. by injection H as _ <-.
  - cbn [for_each] in H. apply bind_inv in H as [(e & H & _)|(b1 & s1 & H1 & H)].
    + eapply Hstep; [left|exact Hs|exact H].
    + eapply IH; [exact H| |].
      * eapply Hstep; [left|exact Hs|exact H1].
      * intros ??????. apply Hstep. by right.
Qed.

End Stateless.

Create HintDb stateless.
#[global] Hint Resolve stateless_ret stateless_raise stateless_item
  stateless_on_paragraph : stateless.

(** ** Texts *)

Section TextFacts.
Context (E : Env) {S : Type}.

Lemma write_text_eq t (s : S) :
  write_text E t s
  = match text_refused E t with
    | Some e => (Raise e, s)
    | None => (Ok tt, s)
    end.
Proof. unfold write_text. by destruct (text_refused E t). Qed.

Lemma new_run_eq t (s : S) :
  new_run E t s
  = match text_refused E t with
    | Some e => (Raise e, s)
    | None => (Ok (Docx.plain_run t), s)
    end.
Proof. unfold new_run, bind. rewrite write_text_eq. by destruct (text_refused E t). Qed.

Lemma set_cell_text_eq t c (s : S) :
  set_cell_text E t c s
  = match text_refused E t with
    | Some e => (Raise e, s)
    | None => (Ok (Docx.set_cell_text t c), s)
    end.
Proof. unfold set_cell_text, bind. rewrite write_text_eq. by destruct (text_refused E t). Qed.

Lemma set_paragraph_text_eq t p (s : S) :
  set_paragraph_text E t p s
  = match text_refused E t with
    | Some e => (Raise e, s)
    | None => (Ok (Docx.set_paragraph_text t p), s)
    end.
Proof.
  unfold set_paragraph_text, bind. rewrite write_text_eq. by destruct (text_refused E t).
Qed.

Lemma details_run_eq t (s : S) :
  details_run E t s
  = match text_refused E t with
    | Some e => (Raise e, s)
    | None => (Ok (Docx.set_size (Pt 11) (Docx.plain_run t)), s)
    end.
Proof. unfold details_run, bind. rewrite new_run_eq. by destruct (text_refused E t). Qed.

Lemma header_cell_eq header cell (s : S) :
  header_cell E header cell s
  = match text_refused E header with
    | Some e => (Raise e, s)
    | None => (Ok (header_style (Docx.set_cell_text header cell)), s)
    end.
Proof.
  unfold header_cell, bind. rewrite set_cell_text_eq. by destruct (text_refused E header).
Qed.

Lemma stateless_new_run t : stateless (new_run E t : M S Run).
Proof.
  intros s r s'. rewrite new_run_eq. destruct (text_refused E t); by intros [= _ <-].
Qed.

Lemma stateless_set_cell_text t c : stateless (set_cell_text E t c : M S Cell).
Proof.
  intros s r s'. rewrite set_cell_text_eq. destruct (text_refused E t); by intros [= _ <-].
Qed.

Lemma stateless_set_paragraph_text t p :
  stateless (set_paragraph_text E t p : M S Paragraph).
Proof.
  intros s r s'. rewrite set_paragraph_text_eq.
  destruct (text_refused E t); by intros [= _ <-].
Qed.

Lemma stateless_details_run t : stateless (details_run E t : M S Run).
Proof.
  intros s r s'. rewrite details_run_eq. destruct (text_refused E t); by intros [= _ <-].
Qed.

Lemma stateless_header_cell header cell : stateless (header_cell E header cell : M S Cell).
Proof.
  intros s r s'. rewrite header_cell_eq. destruct (text_refused E header); by intros [= _ <-].
Qed.

Lemma stateless_in_paragraph i (f : Paragraph → M S Paragraph) c :
  (∀ p, stateless (f p)) → stateless (in_paragraph i f c).
Proof.
  intros Hf. unfold in_paragraph. apply stateless_bind.
  - by apply stateless_update_item.
  - intros ps. apply stateless_ret.
Qed.

Lemma in_paragraph_Ok_inv i (f : Paragraph → M S Paragraph) c (s : S) c' s' :
  in_paragraph i f c s = (Ok c', s') →
  ∃ p p', cell_paragraphs c !! i = Some p ∧ f p s = (Ok p', s')
          ∧ c' = Docx.set_paragraphs (<[i := p']> (cell_paragraphs c)) c.
Proof.
  unfold in_paragraph. intros (ps & s1 & Hps & H)%bind_Ok_inv.
  apply update_item_Ok_inv in Hps as (p & p' & Hp & Hp' & ->).
  cbv [ret] in H. injection H as <- <-. eauto.
Qed.

Lemma in_paragraph_Ok i (f : Paragraph → M S Paragraph) c (s : S) p p' s' :
  cell_paragraphs c !! i = Some p → f p s = (Ok p', s') →
  in_paragraph i f c s
  = (Ok (Docx.set_paragraphs (<[i := p']> (cell_paragraphs c)) c), s').
Proof.
  intros Hp Hf. unfold in_paragraph.
  by rewrite (bind_Ok _ _ _ _ _ (update_item_Ok _ _ _ _ _ _ _ Hp Hf)).
Qed.

(** A text that was written is one python-docx takes. *)
Lemma new_run_Ok_inv t (s : S) r s' :
  new_run E t s = (Ok r, s') →
  text_refused E t = None ∧ r = Docx.plain_run t ∧ s' = s.
Proof. rewrite new_run_eq. destruct (text_refused E t); [done|]. by intros [= <- <-]. Qed.

Lemma set_cell_text_Ok_inv t c (s : S) c' s' :
  set_cell_text E t c s = (Ok c', s') →
  text_refused E t = None ∧ c' = Docx.set_cell_text t c ∧ s' = s.
Proof.
  rewrite set_cell_text_eq. destruct (text_refused E t); [done|]. by intros [= <- <-].
Qed.

Lemma set_paragraph_text_Ok_inv t p (s : S) p' s' :
  set_paragraph_text E t p s = (Ok p', s') →
  text_refused E t = None ∧ p' = Docx.set_paragraph_text t p ∧ s' = s.
Proof.
  rewrite set_paragraph_text_eq. destruct (text_refused E t); [done|].
  by intros [= <- <-].
Qed.

Lemma details_run_Ok_inv t (s : S) r s' :
  details_run E t s = (Ok r, s') →
  text_refused E t = None ∧ r = Docx.set_size (Pt 11) (Docx.plain_run t) ∧ s' = s.
Proof.
  rewrite details_run_eq. destruct (text_refused E t); [done|]. by intros [= <- <-].
Qed.

Lemma header_cell_Ok_inv header cell (s : S) cell' s' :
  header_cell E header cell s = (Ok cell', s') →
  text_refused E header = None
  ∧ cell' = header_style (Docx.set_cell_text header cell) ∧ s' = s.
Proof.
  rewrite header_cell_eq. destruct (text_refused E header); [done|].
  by intros [= <- <-].
Qed.

End TextFacts.

#[global] Hint Resolve stateless_new_run stateless_set_cell_text
  stateless_set_paragraph_text stateless_details_run stateless_header_cell : stateless.

(** Solves the goals that a computation made of stateless parts is
    stateless. *)
Ltac stateless_steps :=
  repeat first
    [ progress auto with stateless
    | match goal with
      | |- stateless (let '(_, _) := ?x in _) => destruct x
      end
    | apply stateless_bind; [|intros ?]
    | apply stateless_update_item; intros ?
    | apply stateless_update_cell; intros ?
    | apply stateless_in_paragraph; intros ?
    | apply stateless_for_each; intros ? ? ].

(** ** Logo upload *)

Section Upload.
Context (E : Env).

(** The validation of a request with an image content type and a file
    name: the extension is accepted or the request is refused. *)
Lemma logo_extension_spec {S} (f : UploadFile) (s : S) ct name :
  content_type f = Some ct → filename f = Some name →
  Py.startswith "image/" ct = true →
  ∃ last_part, Py.last_item (Py.split "."%char name) = Some last_part ∧
    logo_extension f s
    = if Py.str_in (Py.lower last_part) allowed_extensions
      then (Ok (Py.lower last_part), s)
      else (Raise (HTTPException 400 "Only PNG, JPG, JPEG files allowed"), s).
Proof.
  intros Hct Hname Himg. unfold logo_extension. rewrite Hct, Hname.
  cbn [not_none]. unfold bind at 1. cbv [ret]. rewrite Himg. cbn [negb].
  unfold bind at 1. cbv [ret].
  destruct (Py.last_item (Py.split "." name)) as [last_part|] eqn:Hlast.
  - exists last_part. split; [done|]. unfold bind. cbv [ret raise].
    by destruct (Py.str_in (Py.lower last_part) allowed_extensions).
  - exfalso. unfold Py.last_item in Hlast. apply last_None in Hlast.
    destruct name as [|c name]; [done|]. cbn in Hlast.
    destruct (Ascii.eqb c "."); [done|]. by destruct (Py.split "." name).
Qed.

(** A request that fails either validation is refused by the validation
    step, whatever the state. *)
Lemma logo_extension_refuses {S} (f : UploadFile) (s : S) :
  declared_image f && allowed_extension f = false →
  ∃ e, logo_extension f s = (Raise e, s).
Proof.
  unfold declared_image, allowed_extension, upload_extension, logo_extension.
  destruct (content_type f) as [ct|]; cbn [not_none]; [|intros _; by eexists].
  unfold bind at 1. cbv [ret].
  destruct (Py.startswith "image/" ct); cbn [negb andb]; [|intros _; by eexists].
  destruct (filename f) as [name|]; cbn [not_none]; [|intros _; by eexists].
  unfold bind at 1. cbv [ret].
  destruct (Py.last_item (Py.split "." name)) as [x|]; cbn [fmap option_fmap option_map];
    [|intros _; by eexists].
  unfold bind. cbv [ret raise]. intros ->. cbn [negb]. by eexists.
Qed.

(** Whatever goes wrong inside [upload_logo] reaches the caller as a
    500, the refusals raised with status 400 included. *)
Lemma upload_logo_failure_status (f : UploadFile) (w : FS) e w' :
  upload_logo E f w = (Raise e, w') → ∃ detail, e = HTTPException 500 detail.
Proof.
  unfold upload_logo, try_except.
  destruct (bind _ _ w) as [[a|e0] w1]; [intros [=]|].
  cbv [raise]. intros [= <- <-]. by eexists.
Qed.

(** C3, as the code has it: a request whose content type is not of the
    image class, or whose extension is not png, jpg or jpeg, is refused, but
    the refusal raised with status 400 is caught by the handler's own
    [except Exception] and reaches the caller with status 500, which is not
    a 4xx-class response. *)
Theorem upload_logo_refusal_is_500 (f : UploadFile) (w : FS) :
  declared_image f && allowed_extension f = false →
  ∃ detail, upload_logo E f w = (Raise (HTTPException 500 detail), w)
            ∧ is_client_error (HTTPException 500 detail) = false.
Proof.
  intros Hbad. destruct (logo_extension_refuses f w Hbad) as [e He].
  eexists. split; [|done].
  unfold upload_logo, try_except. rewrite (bind_Raise _ _ _ _ _ He). done.
Qed.

(** C4, amended: a successful upload with extension jpg or jpeg re-encodes
    the picture to [college_logo.png], removes the file it first wrote, and
    leaves every other path as it was: afterwards the canonical PNG exists
    and the written jpg/jpeg file does not, so that on a file system that
    held no logo of the other JPEG spelling the PNG is the one logo file. *)
Theorem upload_logo_jpeg_converted (f : UploadFile) (w : FS) ext reply w' :
  upload_extension f = Some ext →
  ext = "jpg" ∨ ext = "jpeg" →
  upload_logo E f w = (Ok reply, w') →
  ∃ img, image_decode E (file f) = inr img
    ∧ reply_filename reply = "college_logo.png"
    ∧ w' !! "college_logo.png" = Some (png_encode E img)
    ∧ w' !! ("college_logo." +:+ ext) = None
    ∧ (∀ p, p ≠ "college_logo.png" → p ≠ "college_logo." +:+ ext → w' !! p = w !! p)
    ∧ ((∀ p, p ∈ logo_files → p ≠ "college_logo.png" → p ≠ "college_logo." +:+ ext →
             w !! p = None) →
       stored_logos w' = ["college_logo.png"]).
Proof.
  intros Hext Hjpeg Hup.
  unfold upload_logo, try_except in Hup.
  destruct (bind _ _ w) as [[r|e] w1] eqn:Hbody; cbv [raise] in Hup; [|done].
  injection Hup as -> ->.
  apply bind_Ok_inv in Hbody as (ext' & w0 & Hval & Hstore).
  assert (ext' = ext ∧ w0 = w) as [-> ->].
  { unfold upload_extension in Hext. unfold logo_extension in Hval.
    destruct (content_type f) as [ct|]; cbn [not_none] in Hval; [|done].
    unfold bind at 1 in Hval. cbv [ret] in Hval.
    destruct (Py.startswith "image/" ct); cbn [negb] in Hval; [|done].
    destruct (filename f) as [name|]; cbn [not_none] in Hval; [|done].
    unfold bind at 1 in Hval. cbv [ret] in Hval.
    destruct (Py.last_item (Py.split "." name)) as [x|]; [|done].
    injection Hext as <-. unfold bind in Hval. cbv [ret raise] in Hval.
    destruct (Py.str_in (Py.lower x) allowed_extensions); cbn [negb] in Hval; [|done].
    by injection Hval as <- <-. }
  unfold store_logo in Hstore.
  assert (Hin : Py.str_in ext ["jpg"; "jpeg"] = true).
  { destruct Hjpeg as [-> | ->]; by vm_compute. }
  rewrite Hin in Hstore.
  apply bind_Ok_inv in Hstore as ([] & w1 & Hwrite & Hstore).
  unfold write_file in Hwrite.
  destruct (write_refused E ("college_logo." +:+ ext)); [done|].
  injection Hwrite as <-.
  apply bind_Ok_inv in Hstore as (path & w2 & Hconv & Hret).
  cbv [ret] in Hret. injection Hret as <- <-. cbn [reply_filename].
  apply bind_Ok_inv in Hconv as (img & w3 & Hopen & Hconv).
  unfold Image_open, read_file in Hopen.
  apply bind_Ok_inv in Hopen as (data & w4 & Hread & Hdec).
  rewrite lookup_insert_eq in Hread. injection Hread as <- <-.
  destruct (image_decode E (file f)) as [e|img'] eqn:Himg; [done|].
  cbv [ret] in Hdec. injection Hdec as <- <-.
  apply bind_Ok_inv in Hconv as ([] & w5 & Hsave & Hconv).
  unfold Image_save, write_file in Hsave.
  destruct (write_refused E "college_logo.png"); [done|].
  injection Hsave as <-.
  apply bind_Ok_inv in Hconv as ([] & w6 & Hrm & Hret).
  cbv [ret] in Hret. injection Hret as <- <-.
  assert (Hne : "college_logo.png" ≠ "college_logo." +:+ ext).
  { destruct Hjpeg as [-> | ->]; by vm_compute. }
  unfold os_remove in Hrm.
  rewrite lookup_insert_ne, lookup_insert_eq in Hrm by done.
  destruct (remove_refused E ("college_logo." +:+ ext)); [done|].
  injection Hrm as <-.
  set (w' := delete ("college_logo." +:+ ext) _).
  assert (Hpng : w' !! "college_logo.png" = Some (png_encode E img'))
    by (subst w'; by rewrite lookup_delete_ne, lookup_insert_eq).
  assert (Hgone : w' !! ("college_logo." +:+ ext) = None)
    by (subst w'; by rewrite lookup_delete_eq).
  assert (Hframe : ∀ p, p ≠ "college_logo.png" → p ≠ "college_logo." +:+ ext →
                        w' !! p = w !! p).
  { intros p Hp1 Hp2. subst w'. by rewrite lookup_delete_ne, !lookup_insert_ne. }
  exists img'. do 5 (split; [done|]).
  intros Hclean. unfold stored_logos, logo_files, os_path_exists. cbn [List.filter].
  rewrite Hpng, bool_decide_eq_true_2 by eauto.
  destruct Hjpeg as [-> | ->].
  - change ("college_logo." +:+ "jpg") with "college_logo.jpg" in Hgone, Hframe, Hclean.
    rewrite Hgone, (Hframe "college_logo.jpeg"), Hclean by (done || set_solver).
    by rewrite !bool_decide_eq_false_2 by (by intros [??]).
  - change ("college_logo." +:+ "jpeg") with "college_logo.jpeg" in Hgone, Hframe, Hclean.
    rewrite Hgone, (Hframe "college_logo.jpg"), Hclean by (done || set_solver).
    by rewrite !bool_decide_eq_false_2 by (by intros [??]).
Qed.

(** C10, amended: for a file name without a dot the derived extension is
    the whole lower-cased name; an upload with an image content type is
    refused for its extension when the lower-cased name is none of png,
    jpg, jpeg, and passes the extension check when it is one of them. *)
Theorem upload_logo_no_dot (f : UploadFile) (w : FS) ct name :
  content_type f = Some ct → filename f = Some name →
  Py.startswith "image/" ct = true →
  Py.contains "."%char name = false →
  upload_extension f = Some (Py.lower name)
  ∧ (Py.lower name ∉ allowed_extensions →
       logo_extension f w
       = (Raise (HTTPException 400 "Only PNG, JPG, JPEG files allowed"), w)
       ∧ ∃ detail, upload_logo E f w = (Raise (HTTPException 500 detail), w))
  ∧ (Py.lower name ∈ allowed_extensions →
       logo_extension f w = (Ok (Py.lower name), w)
       ∧ upload_logo E f w
         = try_except (store_logo E f (Py.lower name))
             (λ e, raise (HTTPException 500 ("Error uploading logo: " +:+ str_exn e))) w).
Proof.
  intros Hct Hname Himg Hdot.
  destruct (logo_extension_spec f w ct name Hct Hname Himg) as (x & Hlast & Hval).
  rewrite (split_no_sep _ _ Hdot) in Hlast. injection Hlast as <-.
  split; [|split].
  - unfold upload_extension. by rewrite Hname, (split_no_sep _ _ Hdot).
  - intros Hnot. unfold Py.str_in in Hval. rewrite bool_decide_eq_false_2 in Hval by done.
    split; [done|]. eexists. unfold upload_logo, try_except.
    by rewrite (bind_Raise _ _ _ _ _ Hval).
  - intros Hin. unfold Py.str_in in Hval. rewrite bool_decide_eq_true_2 in Hval by done.
    split; [done|]. unfold upload_logo, try_except.
    by rewrite (bind_Ok _ _ _ _ _ Hval).
Qed.

End Upload.

(** ** The code-image generator *)

Section CodeImage.
Context (E : Env).

(** The outcome of [create_qr_code] in any state: the stream holds, from
    its start, what the generator computes as a function of the payload
    and the size, and the state is left as it was. *)
Lemma create_qr_code_eq {St} (url : string) (size : Z) (s : St) :
  create_qr_code E url size s
  = (match code_image E url size with
     | Ok data => Ok {| buffer := data; position := 0 |}
     | Raise e => Raise e
     end, s).
Proof.
  unfold create_qr_code, code_image, qr_request, bind, Image_resize.
  cbn [app qr_version qr_error_correction qr_box_size qr_border qr_data_list qr_modules].
  destruct (qr_make E _) as [e|q]; [done|]. cbv [ret raise].
  rewrite andb_diag. destruct (fits_c_int size); cbn [negb]; [|done].
  rewrite andb_diag. destruct (0 <? size); cbn [negb]; [|done].
  destruct (resize_refused E _ size size); [done|].
  unfold BytesIO_seek, BytesIO_write. cbn [buffer position take app].
  by rewrite drop_nil, app_nil_r.
Qed.


(** C7, amended: for a payload the encoder accepts and a positive size
    that fits a C [int] and that Pillow can make, the stream
    [create_qr_code] returns holds, from its start, the PNG of a raster of
    exactly [size] by [size] pixels, whatever the size of the raster the
    encoder drew; a size beyond a C [int] raises [OverflowError]. *)
Theorem create_qr_code_size {St} (url : string) (size : Z) (s : St) q :
  0 < size →
  qr_make E {| qr_version := 1; qr_error_correction := ERROR_CORRECT_L;
               qr_box_size := 10; qr_border := 2;
               qr_data_list := [url]; qr_modules := [] |} = inr q →
  (size ≤ 2147483647 →
   resize_refused E (qr_make_image E q "black" "white") size size = None →
   ∃ stream img,
     create_qr_code E url size s = (Ok stream, s)
     ∧ BytesIO_read stream = png_encode E img
     ∧ im_size img = (size, size)
     ∧ im_pixels img = lanczos E (qr_make_image E q "black" "white") size size)
  ∧ (2147483647 < size →
     create_qr_code E url size s
     = (Raise (PyError "OverflowError" (overflow_message E)), s)).
Proof.
  intros Hsize Hq. rewrite create_qr_code_eq. unfold code_image, qr_request.
  rewrite Hq. cbv zeta. unfold fits_c_int. split.
  - intros Hmax Hmade.
    replace (-2147483648 <=? size) with true by (symmetry; apply Z.leb_le; lia).
    replace (size <=? 2147483647) with true by (symmetry; apply Z.leb_le; lia).
    replace (0 <? size) with true by (symmetry; apply Z.ltb_lt; lia).
    cbn [andb negb]. rewrite Hmade.
    eexists _, _. split; [reflexivity|]. done.
  - intros Hbig.
    replace (size <=? 2147483647) with false by (symmetry; apply Z.leb_gt; lia).
    by rewrite andb_false_r.
Qed.

(** What [qr_png] names is what a call at 150 pixels returns, in any
    state. *)
Lemma create_qr_code_of_png {St} url blob (s : St) :
  qr_png E url = Some blob →
  create_qr_code E url 150 s = (Ok {| buffer := blob; position := 0 |}, s).
Proof.
  unfold qr_png. rewrite !create_qr_code_eq.
  destruct (code_image E url 150) as [data|e]; [|done].
  unfold BytesIO_read. cbn [position buffer drop]. by intros [= <-].
Qed.

Lemma qr_png_of_run {St} url (s : St) stream s' :
  create_qr_code E url 150 s = (Ok stream, s') →
  qr_png E url = Some (BytesIO_read stream).
Proof.
  unfold qr_png. rewrite !create_qr_code_eq.
  destruct (code_image E url 150) as [data|e]; [|done]. by intros [= <- _].
Qed.

End CodeImage.

(** ** Document generation *)

Section Generate.
Context (E : Env).

Lemma set_cell_border_paragraphs (c : Cell) kwargs :
  cell_paragraphs (set_cell_border c kwargs) = cell_paragraphs c.
Proof.
  unfold set_cell_border. cbn [foldl].
  repeat match goal with
         | |- context [kwargs !! ?k] => destruct (kwargs !! k) as [[|??]|]
         end; done.
Qed.

Lemma stateless_create_qr_code {S} url size :
  stateless (create_qr_code E url size : M S BytesIO).
Proof.
  intros s r s'.
  unfold create_qr_code, bind, Image_resize. cbv [ret raise].
  destruct (qr_make E _) as [e|q]; [by intros [= _ <-]|].
  destruct (negb _); [by intros [= _ <-]|].
  destruct (negb _); [by intros [= _ <-]|].
  destruct (resize_refused E _ _ _); by intros [= _ <-].
Qed.

Lemma stateless_add_picture path wd : stateless (add_picture E path wd).
Proof.
  intros fr r fr'.
  unfold add_picture, bind, os, read_file. destruct fr as [w q]. cbn [fs qr_images].
  destruct (w !! path) as [data|]; [|by intros [= _ <-]].
  destruct (docx_image_error E data); cbv [ret raise]; by intros [= _ <-].
Qed.

#[local] Hint Resolve stateless_create_qr_code stateless_add_picture : stateless.

Lemma add_picture_Ok_inv path wd fr pic fr' :
  add_picture E path wd fr = (Ok pic, fr') →
  ∃ data, fs fr !! path = Some data ∧ docx_image_error E data = None
          ∧ pic = {| pic_blob := data; pic_width := wd |}.
Proof.
  unfold add_picture, bind, os, read_file. destruct fr as [w q]. cbn [fs qr_images].
  destruct (w !! path) as [data|]; [|done].
  destruct (docx_image_error E data) eqn:Herr; cbv [ret raise]; [done|].
  intros [= <- _]. eauto.
Qed.

Lemma os_write_file_Ok_inv p data fr u fr' :
  os (write_file E p data) fr = (Ok u, fr') →
  write_refused E p = None
  ∧ fr' = {| fs := <[p := data]> (fs fr); qr_images := qr_images fr |}.
Proof.
  unfold os, write_file. destruct (write_refused E p); [done|].
  by intros [= _ <-].
Qed.

Lemma os_write_file_Raise_inv p data fr e fr' :
  os (write_file E p data) fr = (Raise e, fr') →
  write_refused E p = Some e
  ∧ fr' = {| fs := refused_write E p data (fs fr); qr_images := qr_images fr |}.
Proof.
  unfold os, write_file. destruct (write_refused E p); [|done].
  by intros [= <- <-].
Qed.

Lemma refused_write_lookup_ne p data (w : FS) p' :
  p' ≠ p → refused_write E p data w !! p' = w !! p'.
Proof.
  intros Hne. unfold refused_write. destruct (write_partial E p); [|done].
  by rewrite lookup_insert_ne.
Qed.

(** One turn of the loop over the experiments that ends without an
    exception: the row of the experiment is rewritten, its first cell
    reads the padded ordinal, one code-image file is written and
    recorded. *)
Lemma fill_row_Ok_inv rows idx exp fr rows' fr' :
  fill_row E rows (idx, exp) fr = (Ok rows', fr') →
  ∃ cells cells' c data,
    rows !! (idx + 1)%nat = Some cells
    ∧ rows' = <[(idx + 1)%nat := cells']> rows
    ∧ length cells' = length cells
    ∧ cells' !! 0%nat = Some c
    ∧ Docx.cell_text c = Py.zfill 2 (Py.str (idx + 1))
    ∧ fs fr' = <[qr_filename idx := data]> (fs fr)
    ∧ qr_images fr' = (λ l, l ++ [qr_filename idx]) <$> qr_images fr.
Proof.
  unfold fill_row. intros H.
  apply bind_Ok_inv in H as (cells & s1 & Hcells & H).
  apply item_Ok_inv in Hcells as [Hcells ->].
  apply bind_Ok_inv in H as (cells1 & s1 & H1 & H).
  apply update_item_Ok_inv in H1 as (c0 & c0' & Hc0 & Hc0' & ->).
  apply bind_Ok_inv in Hc0' as (c0t & s2 & Hc0t & Hc0').
  apply set_cell_text_Ok_inv in Hc0t as (_ & -> & ->).
  apply on_paragraph_Ok_inv in Hc0' as (p0 & Hp0 & -> & ->).
  cbn in Hp0. injection Hp0 as <-.
  apply bind_Ok_inv in H as (cells2 & s1 & H2 & H).
  apply update_item_Ok_inv in H2 as (c1 & c1' & Hc1 & Hc1' & ->).
  apply set_cell_text_Ok_inv in Hc1' as (_ & -> & ->).
  apply bind_Ok_inv in H as (cells3 & s1 & H3 & H).
  apply update_item_Ok_inv in H3 as (c2 & c2' & Hc2 & Hc2' & ->).
  assert (s1 = fr) as ->.
  { revert Hc2'. stateless_steps. }
  apply bind_Ok_inv in H as (qr & s1 & Hqr & H).
  pose proof (stateless_create_qr_code _ _ _ _ _ Hqr) as ->.
  apply bind_Ok_inv in H as (u1 & s1 & Hw & H).
  apply os_write_file_Ok_inv in Hw as [_ ->].
  apply bind_Ok_inv in H as (u2 & s1 & Happ & H).
  cbv [append_qr_image modify] in Happ. injection Happ as <- <-.
  apply bind_Ok_inv in H as (cells4 & s1 & H4 & H).
  apply update_item_Ok_inv in H4 as (c3 & c3' & Hc3 & Hc3' & ->).
  apply bind_Ok_inv in Hc3' as (c3t & s2 & Hc3t & Hc3').
  apply set_cell_text_Ok_inv in Hc3t as (_ & -> & ->).
  apply bind_Ok_inv in Hc3' as (p3 & s2 & Hp3 & Hc3').
  apply item_Ok_inv in Hp3 as [Hp3 ->].
  apply bind_Ok_inv in Hc3' as (pic & s2 & Hpic & Hc3').
  pose proof (stateless_add_picture _ _ _ _ _ Hpic) as ->.
  cbv [ret] in Hc3'. injection Hc3' as <- <-.
  apply bind_Ok_inv in H as (cells5 & s1 & H5 & H).
  apply update_item_Ok_inv in H5 as (c4 & c4' & Hc4 & Hc4' & ->).
  apply set_cell_text_Ok_inv in Hc4' as (_ & -> & ->).
  apply bind_Ok_inv in H as (cells6 & s1 & H6 & H).
  apply update_item_Ok_inv in H6 as (c5 & c5' & Hc5 & Hc5' & ->).
  apply set_cell_text_Ok_inv in Hc5' as (_ & -> & ->).
  cbv [ret] in H. injection H as <- <-.
  eexists cells, _, _, _. split; [done|]. split; [done|].
  split; [by rewrite length_fmap, !length_insert|].
  split.
  { rewrite list_lookup_fmap, !list_lookup_insert_ne by done.
    rewrite list_lookup_insert_eq by (by apply lookup_lt_Some in Hc0). done. }
  split.
  { unfold Docx.cell_text. rewrite set_cell_border_paragraphs. cbn.
    by rewrite append_empty_r. }
  split; done.
Qed.

Lemma enumerate_from_elem {A} (l : list A) k i x :
  (i, x) ∈ enumerate_from k l → (k ≤ i < k + length l)%nat.
Proof.
  revert k. induction l as [|y l IH]; intros k; cbn [enumerate_from length].
  - by intros ?%elem_of_nil.
  - intros [[= -> ->]|Hin]%elem_of_cons; [lia|]. apply IH in Hin. lia.
Qed.

(** The loop over the experiments, left without an exception: the table
    keeps its shape, the rows up to the starting one are untouched, each
    row after it reads its padded ordinal, and one file name per
    experiment has been recorded. *)
Lemma fill_rows_Ok_inv exps k rows fr rows' fr' :
  for_each (enumerate_from k exps) (fill_row E) rows fr = (Ok rows', fr') →
  length rows' = length rows
  ∧ (∀ m, Forall (λ r, length r = m) rows → Forall (λ r, length r = m) rows')
  ∧ (∀ j, (j ≤ k)%nat → rows' !! j = rows !! j)
  ∧ (∀ i, (k < i ≤ k + length exps)%nat →
       ∃ cells c, rows' !! i = Some cells ∧ cells !! 0%nat = Some c
                  ∧ Docx.cell_text c = Py.zfill 2 (Py.str i))
  ∧ qr_images fr'
    = (λ l, l ++ (qr_filename <$> seq k (length exps))) <$> qr_images fr.
Proof.
  revert k rows fr. induction exps as [|exp exps IH]; intros k rows fr H.
  - cbv [enumerate_from for_each ret] in H. injection H as <- <-.
    repeat split; try done.
    + intros i Hi. cbn [length] in Hi. lia.
    + cbn. destruct (qr_images fr); cbn; [|done]. by rewrite app_nil_r.
  - cbn [enumerate_from for_each] in H.
    apply bind_Ok_inv in H as (rows1 & fr1 & Hrow & H).
    apply fill_row_Ok_inv in Hrow
      as (cells & cells' & c & data & Hcells & -> & Hlen & Hc & Htext & _ & Hq).
    apply IH in H as (Hl & Hshape & Hkeep & Hord & Hqr).
    rewrite Nat.add_1_r in *.
    split; [by rewrite Hl, length_insert|].
    split.
    { intros m Hm. apply Hshape, Forall_insert; [done|].
      rewrite Hlen. by eapply (Forall_lookup_1 _ _ _ _ Hm). }
    split.
    { intros j Hj. rewrite Hkeep by lia. apply list_lookup_insert_ne. lia. }
    split.
    { intros i Hi. cbn [length] in Hi.
      destruct (decide (i = Datatypes.S k)) as [->|Hne].
      - exists cells', c. split; [|done].
        rewrite Hkeep by lia. apply list_lookup_insert_eq.
        by apply lookup_lt_Some in Hcells.
      - apply Hord. lia. }
    rewrite Hqr, Hq. cbn [length seq fmap list_fmap].
    destruct (qr_images fr) as [l|]; cbn; [|done].
    by rewrite <- app_assoc.
Qed.

(** One turn of the loop, whatever its outcome: nothing has changed, or
    the write of the turn's code-image file was refused, which leaves the
    file system as a refused write does and records nothing, or the file
    has been written and recorded. *)
Lemma fill_row_frame rows idx exp fr r fr' :
  fill_row E rows (idx, exp) fr = (r, fr') →
  fr' = fr
  ∨ (∃ data e, r = Raise e ∧ write_refused E (qr_filename idx) = Some e
       ∧ fr' = {| fs := refused_write E (qr_filename idx) data (fs fr);
                  qr_images := qr_images fr |})
  ∨ ∃ data, fr' = {| fs := <[qr_filename idx := data]> (fs fr);
                     qr_images := (λ l, l ++ [qr_filename idx]) <$> qr_images fr |}.
Proof.
  unfold fill_row. intros H.
  apply bind_inv in H as [(e & H & _)|(cells & s1 & Hc & H)];
    [left; by eapply stateless_item|].
  apply stateless_item in Hc as ->.
  apply bind_inv in H as [(e & H & _)|(cells1 & s1 & Hc & H)];
    [left; revert H; stateless_steps|].
  assert (s1 = fr) as -> by (revert Hc; stateless_steps).
  apply bind_inv in H as [(e & H & _)|(cells2 & s1 & Hc' & H)];
    [left; revert H; stateless_steps|].
  assert (s1 = fr) as -> by (revert Hc'; stateless_steps).
  apply bind_inv in H as [(e & H & _)|(cells3 & s1 & Hc'' & H)];
    [left; revert H; stateless_steps|].
  assert (s1 = fr) as -> by (revert Hc''; stateless_steps).
  apply bind_inv in H as [(e & H & _)|(qr & s1 & Hq & H)];
    [left; by eapply stateless_create_qr_code|].
  apply stateless_create_qr_code in Hq as ->.
  apply bind_inv in H as [(e & H & ->)|(u & s1 & Hw & H)].
  { apply os_write_file_Raise_inv in H as [He ->]. right. left. eauto. }
  apply os_write_file_Ok_inv in Hw as [_ ->].
  apply bind_inv in H as [(e & H & _)|(u' & s1 & Ha & H)]; [done|].
  cbv [append_qr_image modify] in Ha. injection Ha as _ <-. cbn [fs qr_images] in H.
  right. right. eexists.
  match type of H with ?c _ = _ => assert (Hrest : stateless c) end.
  { stateless_steps. }
  by apply Hrest in H.
Qed.


Lemma add_logo_cons logo_file rest doc fr :
  add_logo E (logo_file :: rest) doc fr
  = if os_path_exists logo_file (fs fr)
    then bind (add_picture E logo_file (Inches 7.0))
           (λ pic, ret (Docx.add_paragraph
                          (Docx.add_run (Docx.set_picture pic (Docx.plain_run ""))
                             (Docx.set_alignment CENTER Docx.empty_paragraph)) doc, true)) fr
    else add_logo E rest doc fr.
Proof. cbn [add_logo]. unfold bind at 1, get. by destruct (os_path_exists _ _). Qed.

Lemma stateless_add_logo files doc : stateless (add_logo E files doc).
Proof.
  induction files as [|logo_file rest IH]; [apply stateless_ret|].
  intros fr r fr'. rewrite add_logo_cons.
  destruct (os_path_exists logo_file (fs fr)); [|apply IH].
  apply stateless_bind; [apply stateless_add_picture|]. intros pic. apply stateless_ret.
Qed.

(** The loop over the logo file names: the first name that exists is the
    one embedded, and none is embedded when none exists. *)
Lemma add_logo_Ok_inv files doc fr doc1 logo_exists fr1 :
  add_logo E files doc fr = (Ok (doc1, logo_exists), fr1) →
  match List.find (λ p, os_path_exists p (fs fr)) files with
  | Some path =>
      ∃ blob, fs fr !! path = Some blob
              ∧ doc_sections doc1 = doc_sections doc
              ∧ doc_body doc1 = doc_body doc ++ [logo_block blob]
              ∧ logo_exists = true
  | None => doc1 = doc ∧ logo_exists = false
  end.
Proof.
  induction files as [|logo_file rest IH].
  - cbv [add_logo ret]. by intros [= <- <- _].
  - rewrite add_logo_cons. cbn [List.find].
    destruct (os_path_exists logo_file (fs fr)); [|apply IH].
    intros (pic & s1 & Hpic & H)%bind_Ok_inv.
    apply add_picture_Ok_inv in Hpic as (blob & Hblob & _ & ->).
    cbv [ret] in H. injection H as <- <- _. eauto.
Qed.


Lemma update_cell_shape {St} n m rows r c (g : Cell → Cell) (s : St) rows' s' :
  update_cell rows r c (λ cell, ret (g cell)) s = (Ok rows', s') →
  shape n m rows → shape n m rows'.
Proof.
  unfold update_cell. intros (row & row' & Hrow & Hrow' & ->)%update_item_Ok_inv [Hn Hm].
  apply update_item_Ok_inv in Hrow' as (x & y & Hx & _ & ->).
  split; [by rewrite length_insert|].
  apply Forall_insert; [done|]. rewrite length_insert.
  by eapply (Forall_lookup_1 _ _ _ _ Hm).
Qed.

Lemma build_document_Ok_inv data fr doc fr' :
  build_document E data fr = (Ok doc, fr') →
  ∃ doc0 doc1 logo_exists rows0 rows details,
    doc_body doc0 = []
    ∧ add_logo E logo_files doc0 fr = (Ok (doc1, logo_exists), fr)
    ∧ shape (Datatypes.S (length (experiments data))) 6 rows0
    ∧ for_each (enumerate (experiments data)) (fill_row E) rows0
        {| fs := fs fr; qr_images := Some [] |} = (Ok rows, fr')
    ∧ doc_body doc
      = doc_body doc1 ++ (if logo_exists then [spacer] else [])
        ++ main_blocks data rows details.
Proof.
  unfold build_document. intros H.
  apply bind_Ok_inv in H as ([doc1 logo_exists] & s1 & Hlogo & H).
  pose proof (stateless_add_logo _ _ _ _ _ Hlogo) as ->.
  apply bind_Ok_inv in H as (title_run & s1 & Htitle & H).
  apply new_run_Ok_inv in Htitle as (_ & -> & ->).
  apply bind_Ok_inv in H as (hc & s1 & Hhc & H).
  apply item_Ok_inv in Hhc as [Hhc ->].
  apply bind_Ok_inv in H as (hc' & s1 & Hhdr & H).
  assert (s1 = fr) as -> by (revert Hhdr; stateless_steps).
  assert (Hhc' : length hc' = 6%nat).
  { eapply (for_each_Ok_inv (λ cells, length cells = 6%nat)); [exact Hhdr| |].
    - cbn [Docx.set_style Docx.new_table tbl_rows] in Hhc.
      apply lookup_replicate in Hhc as [-> _]. by rewrite length_replicate.
    - intros cells [idx header] s0 cells' s2 _ Hlen Hupd.
      apply update_item_Ok_inv in Hupd as (? & ? & _ & _ & ->).
      by rewrite length_insert. }
  apply bind_Ok_inv in H as (rows0 & s1 & Hw & H).
  assert (s1 = fr) as -> by (revert Hw; stateless_steps).
  assert (Hshape : shape (Datatypes.S (length (experiments data))) 6 rows0).
  { eapply (for_each_Ok_inv (shape (Datatypes.S (length (experiments data))) 6));
      [exact Hw| |].
    - cbn [Docx.set_style Docx.new_table tbl_rows]. split.
      + rewrite length_insert, length_replicate. lia.
      + apply Forall_insert; [|done].
        apply Forall_replicate. by rewrite length_replicate.
    - intros rows1 [idx width] s0 rows2 s2 _ Hsh Hin.
      eapply (for_each_Ok_inv (shape (Datatypes.S (length (experiments data))) 6));
        [exact Hin|exact Hsh|].
      intros rows3 [r row] s3 rows4 s4 _ Hsh3 Hupd.
      by eapply update_cell_shape. }
  apply bind_Ok_inv in H as (u & s1 & Hq & H).
  cbv [bind_qr_images modify] in Hq. injection Hq as _ <-.
  apply bind_Ok_inv in H as (rows & fr2 & Hfill & H).
  apply bind_Ok_inv in H as (conf_run & s1 & Hconf & H).
  apply new_run_Ok_inv in Hconf as (_ & -> & ->).
  apply bind_Ok_inv in H as (d1 & s1 & Hd1 & H).
  assert (s1 = fr2) as -> by (revert Hd1; stateless_steps).
  apply bind_Ok_inv in H as (d2 & s1 & Hd2 & H).
  assert (s1 = fr2) as -> by (revert Hd2; stateless_steps).
  apply bind_Ok_inv in H as (d3 & s1 & Hd3 & H).
  assert (s1 = fr2) as -> by (revert Hd3; stateless_steps).
  apply bind_Ok_inv in H as (d4 & s1 & Hd4 & H).
  assert (s1 = fr2) as -> by (revert Hd4; stateless_steps).
  cbv [ret] in H. injection H as <- <-.
  eexists _, doc1, logo_exists, rows0, rows, _.
  split; [|split; [exact Hlogo|split; [exact Hshape|split; [exact Hfill|]]]]; [done|].
  unfold main_blocks, spacer, title_block, confirmation_block.
  destruct logo_exists; cbn [doc_body Docx.add_block_table Docx.add_paragraph];
    rewrite <- !app_assoc; reflexivity.
Qed.

(** *** Cleanup *)

Lemma sweep_cons f files (w : FS) :
  sweep E (f :: files) w
  = sweep E files (match remove_refused E f with
                   | None => delete f w
                   | Some _ => w
                   end).
Proof. reflexivity. Qed.

Lemma sweep_lookup_None files (w : FS) p :
  w !! p = None → sweep E files w !! p = None.
Proof.
  revert w. induction files as [|f files IH]; intros w Hp; [done|].
  rewrite sweep_cons. apply IH. destruct (remove_refused E f); [done|].
  destruct (decide (f = p)) as [->|Hne].
  - apply lookup_delete_eq.
  - by rewrite lookup_delete_ne.
Qed.

Lemma sweep_lookup_notin files (w : FS) p :
  p ∉ files → sweep E files w !! p = w !! p.
Proof.
  revert w. induction files as [|f files IH]; intros w Hp; [done|].
  apply not_elem_of_cons in Hp as [Hne Hp].
  rewrite sweep_cons, IH by done.
  destruct (remove_refused E f); [done|]. by rewrite lookup_delete_ne.
Qed.

Lemma sweep_lookup_removed files (w : FS) p :
  p ∈ files → remove_refused E p = None → sweep E files w !! p = None.
Proof.
  revert w. induction files as [|f files IH]; intros w Hp Hrm.
  - by apply elem_of_nil in Hp.
  - rewrite sweep_cons.
    apply elem_of_cons in Hp as [->|Hp]; [|by apply IH].
    rewrite Hrm. apply sweep_lookup_None, lookup_delete_eq.
Qed.

(** [cleanup] never raises: a refused removal is passed over. *)
Lemma cleanup_eq files fr :
  cleanup E files fr
  = (Ok tt, {| fs := sweep E files (fs fr); qr_images := qr_images fr |}).
Proof.
  unfold cleanup. revert fr. induction files as [|f files IH]; intros fr.
  - by destruct fr.
  - rewrite sweep_cons. cbn [for_each]. unfold bind at 1, try_pass, try_except.
    unfold bind at 1, get. unfold os_path_exists.
    destruct (fs fr !! f) as [data|] eqn:Hf.
    + rewrite bool_decide_eq_true_2 by eauto.
      unfold os, os_remove. rewrite Hf.
      destruct (remove_refused E f); cbv [ret]; rewrite IH; cbn [fs qr_images]; done.
    + rewrite bool_decide_eq_false_2 by (by intros [??]).
      cbv [ret]. rewrite IH.
      destruct (remove_refused E f); [done|]. by rewrite delete_id.
Qed.

(** *** The handler as a whole *)

Lemma generate_docx_eq data w :
  generate_docx E data w
  = match build_document E data {| fs := w; qr_images := None |} with
    | (Ok doc, fr1) =>
        match write_refused E (output_filename data), qr_images fr1 with
        | None, Some files =>
            (Ok (docx_response data),
             sweep E files (<[output_filename data := docx_serialize E doc]> (fs fr1)))
        | None, None =>
            (Raise (generation_error (PyError "NameError" "name 'qr_images' is not defined")),
             <[output_filename data := docx_serialize E doc]> (fs fr1))
        | Some e, Some files =>
            (Raise (generation_error e),
             sweep E files
               (refused_write E (output_filename data) (docx_serialize E doc) (fs fr1)))
        | Some e, None =>
            (Raise (generation_error e),
             refused_write E (output_filename data) (docx_serialize E doc) (fs fr1))
        end
    | (Raise e, fr1) =>
        (Raise (generation_error e),
         match qr_images fr1 with
         | Some files => sweep E files (fs fr1)
         | None => fs fr1
         end)
    end.
Proof.
  unfold generate_docx, try_except, generate_docx_try, generate_docx_except.
  unfold bind at 1.
  destruct (build_document E data _) as [[doc|e] [w1 q]]; cbn [fs qr_images].
  - unfold bind at 1, os, write_file. cbn [fs qr_images].
    destruct (write_refused E (output_filename data)) as [e|].
    + unfold bind at 1, get. cbn [fs qr_images]. destruct q as [files|].
      * unfold bind. rewrite cleanup_eq. done.
      * unfold bind. done.
    + unfold bind at 1, get. cbn [fs qr_images]. destruct q as [files|].
      * unfold bind at 1. rewrite cleanup_eq. done.
      * unfold bind at 1. done.
  - unfold bind at 1, get. cbn [fs qr_images]. destruct q as [files|].
    + unfold bind. rewrite cleanup_eq. done.
    + unfold bind. done.
Qed.

(** *** What a request leaves on disk *)

Lemma qr_filename_listed i n : (i < n)%nat → qr_filename i ∈ qr_filenames n.
Proof.
  intros Hi. apply list_elem_of_fmap. exists i. split; [done|].
  apply elem_of_seq. lia.
Qed.

Lemma fill_rows_tracked w exps rows r fr :
  for_each (enumerate exps) (fill_row E) rows {| fs := w; qr_images := Some [] |} = (r, fr) →
  is_Some (qr_images fr) ∧ tracked w (length exps) fr.
Proof.
  intros H.
  eapply (for_each_state (λ fr, is_Some (qr_images fr) ∧ tracked w (length exps) fr));
    [exact H| |].
  - split; [by eexists|]. split; [by intros p ?%elem_of_nil|done].
  - intros rows0 [idx exp] fr0 r1 fr1 Hin [[l Hl] Htr] Hrow.
    apply enumerate_from_elem in Hin.
    assert (Hname : qr_filename idx ∈ qr_filenames (length exps))
      by (apply qr_filename_listed; lia).
    unfold tracked in *. rewrite Hl in Htr. destruct Htr as [Hnames Hrest].
    apply fill_row_frame in Hrow as [->|[(data & e & _ & _ & ->)|[data ->]]];
      cbn [fs qr_images]; rewrite Hl; cbn [fmap option_fmap option_map].
    + by eauto.
    + split; [by eexists|]. split; [done|].
      intros p Hp. rewrite refused_write_lookup_ne by (by intros ->). by apply Hrest.
    + split; [by eexists|]. split.
      * intros p [Hp|Hp]%elem_of_app; [by apply Hnames|].
        by apply list_elem_of_singleton in Hp as ->.
      * intros p Hp. rewrite lookup_insert_ne by (by intros <-). by apply Hrest.
Qed.

(** Whatever the outcome of building the document, the file system
    differs from the one the request found only in code-image files of the
    rows. *)
Lemma build_document_tracked data w r fr1 :
  build_document E data {| fs := w; qr_images := None |} = (r, fr1) →
  tracked w (length (experiments data)) fr1.
Proof.
  unfold build_document. intros H.
  assert (Hstart : tracked w (length (experiments data)) {| fs := w; qr_images := None |})
    by done.
  apply bind_inv in H as [(e & H & _)|([doc1 logo_exists] & s1 & Hc & H)];
    [by apply stateless_add_logo in H as ->|].
  apply stateless_add_logo in Hc as ->.
  apply bind_inv in H as [(e & H & _)|(title_run & s1 & Hc & H)];
    [by apply stateless_new_run in H as ->|].
  apply stateless_new_run in Hc as ->.
  apply bind_inv in H as [(e & H & _)|(hc & s1 & Hc & H)];
    [by apply stateless_item in H as ->|].
  apply stateless_item in Hc as ->.
  apply bind_inv in H as [(e & H & _)|(hc' & s1 & Hc & H)].
  { assert (fr1 = {| fs := w; qr_images := None |}) as -> by (revert H; stateless_steps).
    done. }
  assert (s1 = {| fs := w; qr_images := None |}) as -> by (revert Hc; stateless_steps).
  apply bind_inv in H as [(e & H & _)|(rows0 & s1 & Hc' & H)].
  { assert (fr1 = {| fs := w; qr_images := None |}) as -> by (revert H; stateless_steps).
    done. }
  assert (s1 = {| fs := w; qr_images := None |}) as -> by (revert Hc'; stateless_steps).
  apply bind_inv in H as [(e & H & _)|(u & s1 & Hq & H)]; [done|].
  cbv [bind_qr_images modify] in Hq. injection Hq as _ <-. cbn [fs] in H.
  apply bind_inv in H as [(e & H & _)|(rows & fr2 & Hfill & H)];
    [by apply fill_rows_tracked in H as [_ ?]|].
  apply fill_rows_tracked in Hfill as [_ Htr].
  match type of H with ?c _ = _ => assert (Hrest : stateless c) end.
  { stateless_steps. }
  by apply Hrest in H as ->.
Qed.

(** After a document has been built, the recorded files are those of
    all the rows. *)
Lemma build_document_Ok_images data fr doc fr' :
  build_document E data fr = (Ok doc, fr') →
  qr_images fr' = Some (qr_filenames (length (experiments data))).
Proof.
  intros (doc0 & doc1 & le & rows0 & rows & details & _ & _ & _ & Hfill & _)
    %build_document_Ok_inv.
  apply fill_rows_Ok_inv in Hfill as (_ & _ & _ & _ & ->). done.
Qed.

Lemma last_char_append (s t : string) :
  t ≠ "" → last_char (s +:+ t) = last_char t.
Proof.
  intros Ht. induction s as [|c s IH]; [done|].
  rewrite append_cons, <- IH. cbn [last_char].
  destruct (s +:+ t) eqn:Hst; [|done].
  destruct s; [done|]. by rewrite append_cons in Hst.
Qed.

(** The output document is never one of the code-image files. *)
Lemma output_not_qr data k : output_filename data ∉ qr_filenames k.
Proof.
  intros (i & Heq & _)%list_elem_of_fmap.
  apply (f_equal last_char) in Heq.
  unfold output_filename, qr_filename in Heq.
  rewrite (last_char_append (register_number data)) in Heq by done.
  rewrite (last_char_append "qr_") in Heq by (by destruct (Py.str i)).
  rewrite (last_char_append (Py.str i)) in Heq by done.
  vm_compute in Heq. done.
Qed.

Lemma build_document_remove_irrelevant r data fr :
  build_document (with_remove_refused r E) data fr = build_document E data fr.
Proof. reflexivity. Qed.

(** The layout of a built document: an optional logo block with its
    spacer, then the fixed sequence of blocks around the tables. *)
Lemma built_document_layout data w doc :
  built_document E data w = Some doc →
  ∃ prefix rows details,
    doc_body doc = prefix ++ main_blocks data rows details
    ∧ match resolve_spec w with
      | Some path => ∃ blob, w !! path = Some blob ∧ prefix = [logo_block blob; spacer]
      | None => prefix = []
      end
    ∧ shape (Datatypes.S (length (experiments data))) 6 rows
    ∧ (∀ i, (1 ≤ i ≤ length (experiments data))%nat →
         ∃ cells c, rows !! i = Some cells ∧ cells !! 0%nat = Some c
                    ∧ Docx.cell_text c = Py.zfill 2 (Py.str i)).
Proof.
  unfold built_document.
  destruct (build_document E data _) as [[doc'|e] fr1] eqn:Hb; [|done].
  intros [= ->].
  apply build_document_Ok_inv in Hb
    as (doc0 & doc1 & le & rows0 & rows & details & Hd0 & Hlogo & [Hn Hm] & Hfill & Hbody).
  apply add_logo_Ok_inv in Hlogo. cbn [fs] in Hlogo.
  apply fill_rows_Ok_inv in Hfill as (Hlen & Hshape & _ & Hord & _).
  exists (doc_body doc1 ++ (if le then [spacer] else [])), rows, details.
  split; [by rewrite <- app_assoc|].
  split; [|split; [split; [congruence|by apply Hshape]|]].
  - change (resolve_spec w) with (List.find (λ p, os_path_exists p w) logo_files).
    destruct (List.find _ logo_files) as [path|].
    + destruct Hlogo as (blob & Hblob & _ & -> & ->). rewrite Hd0. eauto.
    + destruct Hlogo as [-> ->]. by rewrite Hd0.
  - intros i Hi. apply Hord. lia.
Qed.

(** A successful request: the document was built, the response names
    the output file, and what is left on disk is the swept file system. *)
Lemma generate_docx_Ok_inv data w resp w' :
  generate_docx E data w = (Ok resp, w') →
  ∃ doc fr1,
    build_document E data {| fs := w; qr_images := None |} = (Ok doc, fr1)
    ∧ resp = docx_response data
    ∧ w' = sweep E (qr_filenames (length (experiments data)))
             (<[output_filename data := docx_serialize E doc]> (fs fr1)).
Proof.
  rewrite generate_docx_eq.
  destruct (build_document E data _) as [[doc|e] fr1] eqn:Hb; [|done].
  rewrite (build_document_Ok_images _ _ _ _ Hb).
  destruct (write_refused E (output_filename data)); [done|].
  intros [= <- <-]. eauto.
Qed.


Lemma tables_layout prefix data rows details :
  Forall (λ b, ∃ p, b = BParagraph p) prefix →
  omap (λ b, match b with BTable t => Some t | BParagraph _ => None end)
    (prefix ++ main_blocks data rows details)
  = [ {| tbl_style := Some "Table Grid"; tbl_autofit := true; tbl_rows := rows |};
      details ].
Proof.
  intros Hp. rewrite omap_app.
  replace (omap _ prefix) with (@nil Table); [done|].
  induction Hp as [|b prefix [p ->] _ IH]; [done|]. by cbn.
Qed.

(** C1: the experiment table of the document a successful request writes
    has one row more than there are experiments, none included, and six
    cells in every row. *)
Theorem generate_docx_table_shape (data : RecordData) (w : FS) resp w' :
  generate_docx E data w = (Ok resp, w') →
  ∃ doc table,
    built_document E data w = Some doc
    ∧ experiment_table doc = Some table
    ∧ length (tbl_rows table) = (length (experiments data) + 1)%nat
    ∧ Forall (λ row, length row = 6%nat) (tbl_rows table).
Proof.
  intros (doc & fr1 & Hb & _ & _)%generate_docx_Ok_inv.
  assert (Hdoc : built_document E data w = Some doc)
    by (unfold built_document; by rewrite Hb).
  destruct (built_document_layout _ _ _ Hdoc)
    as (prefix & rows & details & Hbody & Hlogo & [Hn Hm] & _).
  exists doc, {| tbl_style := Some "Table Grid"; tbl_autofit := true; tbl_rows := rows |}.
  split; [done|]. split; [|split; [cbn [tbl_rows]; lia|done]].
  unfold experiment_table, Docx.tables. rewrite Hbody, tables_layout; [done|].
  destruct (resolve_spec w).
  - destruct Hlogo as (blob & _ & ->). repeat constructor; by eexists.
  - by subst prefix.
Qed.

(** C2: in a built document the ordinal cell of the experiment at 1-based
    position [i] reads [str(i).zfill(2)], where [str(i)] is the decimal
    numeral of [i]: the two digits of [i], with a leading zero below ten, up
    to 99, and the numeral as it is, at least two characters long, from 100
    on. *)
Theorem ordinal_cell_text (data : RecordData) (w : FS) doc (i : nat) :
  built_document E data w = Some doc →
  (1 ≤ i ≤ length (experiments data))%nat →
  ordinal_text doc i = Some (Py.zfill 2 (Py.str i))
  ∧ Py.int (Py.str i) = Some i
  ∧ ((i ≤ 99)%nat → Py.zfill 2 (Py.str i) = two_digits i)
  ∧ ((100 ≤ i)%nat → Py.zfill 2 (Py.str i) = Py.str i
                      ∧ (2 ≤ String.length (Py.str i))%nat).
Proof.
  intros Hdoc Hi.
  destruct (built_document_layout _ _ _ Hdoc)
    as (prefix & rows & details & Hbody & Hlogo & _ & Hord).
  destruct (Hord i Hi) as (cells & c & Hrow & Hcell & Htext).
  split; [|split; [apply int_str|split]].
  - unfold ordinal_text, experiment_table, Docx.tables.
    rewrite Hbody, tables_layout.
    + cbn [head tbl_rows]. rewrite Hrow, Hcell. cbn. by rewrite Htext.
    + destruct (resolve_spec w).
      * destruct Hlogo as (blob & _ & ->). repeat constructor; by eexists.
      * by subst prefix.
  - intros Hle. unfold two_digits.
    destruct (decide (i < 10)%nat) as [Hlt|Hge].
    + rewrite str_one_digit by done.
      rewrite (Nat.div_small i 10), (Nat.mod_small i 10) by done. done.
    + rewrite str_two_digits by lia. done.
  - intros Hge. pose proof (str_length_ge i) as Hlen.
    split; [apply zfill_wide|]; lia.
Qed.

(** C5: the logo is looked up as png, then jpg, then jpeg; the first file
    found is embedded in a logo block followed by one spacer, and when
    there is none the body starts at the course title, with neither block
    nor spacer, and shows no picture outside the tables. *)
Theorem logo_resolution (data : RecordData) (w : FS) doc :
  built_document E data w = Some doc →
  ∃ rows details,
    match resolve_spec w with
    | Some path =>
        ∃ blob, w !! path = Some blob
                ∧ doc_body doc = logo_block blob :: spacer :: main_blocks data rows details
                ∧ body_pictures doc = [ {| pic_blob := blob; pic_width := Inches 7.0 |} ]
    | None => doc_body doc = main_blocks data rows details
              ∧ body_pictures doc = []
    end.
Proof.
  intros Hdoc.
  destruct (built_document_layout _ _ _ Hdoc)
    as (prefix & rows & details & Hbody & Hlogo & _ & _).
  exists rows, details. unfold body_pictures.
  destruct (resolve_spec w) as [path|].
  - destruct Hlogo as (blob & Hblob & ->). exists blob.
    split; [done|]. rewrite Hbody. done.
  - subst prefix. rewrite Hbody. done.
Qed.

(** C8: after a successful request the output document, named after the
    register number, is on disk with the serialised document and is
    still there once it has been served; apart from it, only code-image
    files of the rows differ from the file system the request found. *)
Theorem output_document_kept (data : RecordData) (w : FS) resp w' :
  generate_docx E data w = (Ok resp, w') →
  ∃ doc,
    built_document E data w = Some doc
    ∧ resp_path resp = register_number data +:+ "_Lab_Record.docx"
    ∧ w' !! resp_path resp = Some (docx_serialize E doc)
    ∧ serve resp w' = (Some (docx_serialize E doc), w')
    ∧ (∀ p, p ≠ resp_path resp →
            p ∉ qr_filenames (length (experiments data)) →
            w' !! p = w !! p)
    ∧ (∀ p, p ∈ qr_filenames (length (experiments data)) →
            remove_refused E p = None → w' !! p = None).
Proof.
  intros (doc & fr1 & Hb & -> & ->)%generate_docx_Ok_inv.
  pose proof (build_document_tracked _ _ _ _ Hb) as Htr.
  unfold tracked in Htr. rewrite (build_document_Ok_images _ _ _ _ Hb) in Htr.
  destruct Htr as [_ Hrest].
  assert (Hout : sweep E (qr_filenames (length (experiments data)))
                   (<[output_filename data := docx_serialize E doc]> (fs fr1))
                 !! output_filename data = Some (docx_serialize E doc)).
  { rewrite sweep_lookup_notin by apply output_not_qr. apply lookup_insert_eq. }
  exists doc. cbn [docx_response resp_path].
  split; [unfold built_document; by rewrite Hb|].
  split; [done|]. split; [done|].
  split; [unfold serve; cbn [resp_path docx_response]; by rewrite Hout|].
  split.
  - intros p Hp Hq. rewrite sweep_lookup_notin, lookup_insert_ne by done.
    by apply Hrest.
  - intros p Hp Hrm. by apply sweep_lookup_removed.
Qed.


(** *** A cooperative environment lets every request through *)

Lemma enumerate_from_elem_value {A} (l : list A) k i x :
  (i, x) ∈ enumerate_from k l → x ∈ l.
Proof.
  revert k. induction l as [|y l IH]; intros k; cbn [enumerate_from].
  - by intros ?%elem_of_nil.
  - intros [[= -> ->]|Hin]%elem_of_cons; [left|]. right. by eapply IH.
Qed.

Lemma header_row_progress (fr : Frame) cells :
  texts_accepted E headers →
  length cells = 6%nat → Forall has_paragraph cells →
  ∃ cells',
    for_each (enumerate headers)
      (λ (cells : list Cell) '(idx, header), update_item cells idx (header_cell E header))
      cells fr = (Ok cells', fr)
    ∧ length cells' = 6%nat ∧ Forall has_paragraph cells'.
Proof.
  intros Htexts Hlen Hpar.
  destruct (for_each_progress
              (λ cells s, (length cells = 6%nat ∧ Forall has_paragraph cells) ∧ s = fr)
              (λ (cells : list Cell) '(idx, header),
                 update_item cells idx (header_cell E header))
              (enumerate headers) cells fr) as (cells' & s' & H & [HI ->]); [done| |by eauto].
  intros cells0 [idx header] s0 Hin [[Hl Hp] ->].
  pose proof (enumerate_from_elem_value _ _ _ _ Hin) as Hheader.
  apply enumerate_from_elem in Hin. cbn [length headers] in Hin.
  destruct (lookup_lt_is_Some_2 cells0 idx) as [x Hx]; [lia|].
  eexists _, fr. split.
  { apply (update_item_Ok _ _ _ _ x); [done|].
    rewrite header_cell_eq, (Htexts header Hheader). reflexivity. }
  split; [|done]. split; [by rewrite length_insert|].
  apply Forall_insert; [done|].
  unfold has_paragraph, header_style. rewrite set_cell_border_paragraphs. by eexists.
Qed.

Lemma widths_progress (fr : Frame) n rows :
  well_formed n rows →
  ∃ rows',
    for_each (enumerate widths)
      (λ (rows : list (list Cell)) '(idx, width),
         for_each (enumerate rows)
           (λ (rows0 : list (list Cell)) '(r, _),
              update_cell rows0 r idx (λ cell, ret (Docx.set_width width cell)))
           rows)
      rows fr = (Ok rows', fr)
    ∧ well_formed n rows'.
Proof.
  intros Hwf.
  destruct (for_each_progress (λ rows s, well_formed n rows ∧ s = fr)
              (λ (rows : list (list Cell)) '(idx, width),
                 for_each (enumerate rows)
                   (λ (rows0 : list (list Cell)) '(r, _),
                      update_cell rows0 r idx (λ cell, ret (Docx.set_width width cell)))
                   rows)
              (enumerate widths) rows fr) as (rows' & s' & H & [HI ->]); [done| |by eauto].
  intros rows0 [idx width] s0 Hin [Hwf0 ->].
  apply enumerate_from_elem in Hin. cbn [length widths] in Hin.
  apply (for_each_progress (λ rows s, well_formed n rows ∧ s = fr)); [done|].
  intros rows1 [r row] s1 Hr [[[Hn Hm] Hp] ->].
  apply enumerate_from_elem in Hr.
  destruct Hwf0 as [[Hn0 _] _].
  destruct (lookup_lt_is_Some_2 rows1 r) as [row1 Hrow1]; [lia|].
  pose proof (Forall_lookup_1 _ _ _ _ Hm Hrow1) as Hlen. cbn beta in Hlen.
  pose proof (Forall_lookup_1 _ _ _ _ Hp Hrow1) as Hpar. cbn beta in Hpar.
  destruct (lookup_lt_is_Some_2 row1 idx) as [x Hx]; [lia|].
  eexists _, fr. split.
  { unfold update_cell. eapply update_item_Ok; [exact Hrow1|].
    by apply (update_item_Ok _ _ _ _ x). }
  split; [|done]. split; [split|].
  - by rewrite length_insert.
  - apply Forall_insert; [done|]. by rewrite length_insert.
  - apply Forall_insert; [done|]. apply Forall_insert; [done|].
    exact (Forall_lookup_1 _ _ _ _ Hpar Hx).
Qed.

Lemma add_picture_Ok path wd fr data :
  fs fr !! path = Some data → docx_image_error E data = None →
  add_picture E path wd fr = (Ok {| pic_blob := data; pic_width := wd |}, fr).
Proof.
  intros Hd He. unfold add_picture, bind, os, read_file. rewrite Hd, He.
  by destruct fr.
Qed.

Lemma fill_row_progress n rows idx exp fr :
  well_formed n rows → (idx + 1 < n)%nat →
  row_passes E idx exp →
  ∃ rows' fr', fill_row E rows (idx, exp) fr = (Ok rows', fr') ∧ well_formed n rows'.
Proof.
  intros [[Hn Hm] Hp] Hidx (Htexts & (blob & Hblob & Himg) & Hw).
  destruct (lookup_lt_is_Some_2 rows (idx + 1)) as [cells Hcells]; [lia|].
  pose proof (Forall_lookup_1 _ _ _ _ Hm Hcells) as Hlen. cbn beta in Hlen.
  pose proof (Forall_lookup_1 _ _ _ _ Hp Hcells) as Hpar. cbn beta in Hpar.
  destruct cells as [|c0 [|c1 [|c2 [|c3 [|c4 [|c5 [|]]]]]]]; try done.
  assert (Hp2 : has_paragraph c2).
  { by eapply (Forall_lookup_1 _ _ 2%nat _ Hpar). }
  destruct Hp2 as [p2 Hp2].
  pose proof (create_qr_code_of_png E (github exp) blob fr Hblob) as Hqr.
  assert (Ht0 : text_refused E (Py.zfill 2 (Py.str (idx + 1))) = None)
    by (apply Htexts, list_elem_of_In; cbn; auto).
  assert (Ht1 : text_refused E (if truthy (date exp) then date exp else "") = None)
    by (apply Htexts, list_elem_of_In; cbn; auto).
  assert (Ht2 : text_refused E (title exp) = None)
    by (apply Htexts, list_elem_of_In; cbn; auto).
  assert (Ht3 : text_refused E (newline +:+ newline) = None)
    by (apply Htexts, list_elem_of_In; cbn; auto).
  assert (Ht4 : text_refused E (github exp) = None)
    by (apply Htexts, list_elem_of_In; cbn; auto 10).
  assert (Ht5 : text_refused E "" = None)
    by (apply Htexts, list_elem_of_In; cbn; auto 10).
  unfold fill_row.
  rewrite (bind_Ok _ _ _ _ _ (item_Ok _ _ _ _ Hcells)).
  erewrite bind_Ok.
  2:{ eapply (update_item_Ok _ 0%nat); [reflexivity|].
      erewrite bind_Ok; [|rewrite set_cell_text_eq, Ht0; reflexivity].
      eapply on_paragraph_Ok. reflexivity. }
  erewrite bind_Ok.
  2:{ eapply (update_item_Ok _ 1%nat); [reflexivity|].
      rewrite set_cell_text_eq, Ht1. reflexivity. }
  erewrite bind_Ok.
  2:{ eapply (update_item_Ok _ 2%nat); [reflexivity|].
      eapply in_paragraph_Ok; [exact Hp2|].
      erewrite bind_Ok; [|rewrite set_paragraph_text_eq, Ht2; reflexivity].
      erewrite bind_Ok; [|rewrite new_run_eq, Ht3; reflexivity].
      erewrite bind_Ok; [|rewrite new_run_eq, Ht4; reflexivity].
      reflexivity. }
  rewrite (bind_Ok _ _ _ _ _ Hqr).
  unfold bind at 1, os, write_file. rewrite Hw.
  unfold bind at 1, append_qr_image, modify. cbn [fs qr_images].
  erewrite bind_Ok.
  2:{ eapply (update_item_Ok _ 3%nat); [reflexivity|].
      erewrite bind_Ok; [|rewrite set_cell_text_eq, Ht5; reflexivity].
      erewrite bind_Ok; [|by apply item_Ok].
      erewrite bind_Ok; [reflexivity|].
      apply add_picture_Ok; [apply lookup_insert_eq|exact Himg]. }
  erewrite bind_Ok.
  2:{ eapply (update_item_Ok _ 4%nat); [reflexivity|].
      rewrite set_cell_text_eq, Ht5. reflexivity. }
  erewrite bind_Ok.
  2:{ eapply (update_item_Ok _ 5%nat); [reflexivity|].
      rewrite set_cell_text_eq, Ht5. reflexivity. }
  eexists _, _. split; [reflexivity|].
  split; [split|].
  - by rewrite length_insert.
  - apply Forall_insert; [done|]. by rewrite length_fmap, !length_insert.
  - apply Forall_insert; [done|].
    apply Forall_fmap, Forall_forall. intros c Hc.
    unfold compose, has_paragraph. rewrite set_cell_border_paragraphs.
    cbn in Hc. set_unfold in Hc.
    destruct Hc as [->|[->|[->|[->|[->|[->|[]]]]]]]; cbn; try by eexists.
    rewrite list_lookup_insert_eq by (by apply lookup_lt_Some in Hp2). by eexists.
Qed.


Lemma add_logo_progress doc fr :
  (∀ path blob, resolve_spec (fs fr) = Some path → fs fr !! path = Some blob →
                docx_image_error E blob = None) →
  ∃ doc1 logo_exists, add_logo E logo_files doc fr = (Ok (doc1, logo_exists), fr).
Proof.
  intros Hread. unfold logo_files, resolve_spec in *.
  repeat
    (rewrite add_logo_cons;
     match goal with
     | |- context [os_path_exists ?p (fs fr)] =>
         destruct (os_path_exists p (fs fr)) eqn:?
     end;
     [match goal with
      | H : os_path_exists ?p (fs fr) = true |- _ =>
          let blob := fresh "blob" in
          let Hblob := fresh "Hblob" in
          apply bool_decide_eq_true_1 in H as [blob Hblob];
          erewrite bind_Ok;
            [by eexists _, _
            |apply add_picture_Ok; [exact Hblob|by eapply Hread]]
      end|]).
  by eexists _, _.
Qed.

Lemma enumerate_from_elem_lookup {A} (l : list A) k i x :
  (i, x) ∈ enumerate_from k l → l !! (i - k)%nat = Some x ∧ (k ≤ i)%nat.
Proof.
  revert k. induction l as [|y l IH]; intros k; cbn [enumerate_from].
  - by intros ?%elem_of_nil.
  - intros [[= -> ->]|Hin]%elem_of_cons.
    + rewrite Nat.sub_diag. done.
    + apply IH in Hin as [Hx Hk]. split; [|lia].
      replace (i - k)%nat with (Datatypes.S (i - Datatypes.S k)) by lia. done.
Qed.

(** The details table when its four texts are taken. *)
Lemma details_progress (data : RecordData) (fr : Frame) (drows : list (list Cell)) t r c
    (g : Run → Paragraph → Paragraph) row cell p :
  text_refused E t = None →
  drows !! r = Some row → row !! c = Some cell → cell_paragraphs cell !! 0%nat = Some p →
  update_cell drows r c
    (in_paragraph 0 (λ para, run <- details_run E t ;; ret (g run para))) fr
  = (Ok (<[r := <[c := Docx.set_paragraphs
                         (<[0%nat := g (Docx.set_size (Pt 11) (Docx.plain_run t)) p]>
                            (cell_paragraphs cell)) cell]> row]> drows), fr).
Proof.
  intros Ht Hrow Hcell Hp. unfold update_cell.
  eapply update_item_Ok; [exact Hrow|].
  eapply update_item_Ok; [exact Hcell|].
  eapply in_paragraph_Ok; [exact Hp|].
  erewrite bind_Ok; [|rewrite details_run_eq, Ht; reflexivity]. reflexivity.
Qed.

(** Under a cooperative environment every request gets its document. *)
Lemma build_document_progress data w :
  cooperative E data w →
  ∃ doc fr1, build_document E data {| fs := w; qr_images := None |} = (Ok doc, fr1).
Proof.
  intros [Htexts Hrows Hlogo _]. unfold build_document.
  assert (Hheading : ∀ t, t ∈ heading_texts data → text_refused E t = None).
  { intros t Ht. apply Htexts, elem_of_app. by left. }
  assert (Hclosing : ∀ t, t ∈ closing_texts data → text_refused E t = None).
  { intros t Ht. apply Htexts, elem_of_app. by right. }
  destruct (add_logo_progress
              {| doc_sections :=
                   (λ _ : Margins,
                      {| top_margin := Some (Inches 0.5); bottom_margin := Some (Inches 1);
                         left_margin := Some (Inches 1); right_margin := Some (Inches 1) |})
                     <$> doc_sections Docx.new_document;
                 doc_body := doc_body Docx.new_document |}
              {| fs := w; qr_images := None |} Hlogo) as (doc1 & le & Hl).
  rewrite (bind_Ok _ _ _ _ _ Hl).
  erewrite bind_Ok; [|rewrite new_run_eq, (Hheading (course_title data)) by left; reflexivity].
  erewrite bind_Ok.
  2:{ apply item_Ok. cbn [Docx.set_style Docx.new_table tbl_rows].
      rewrite Nat.add_1_r. reflexivity. }
  destruct (header_row_progress {| fs := w; qr_images := None |}
              (replicate 6 Docx.empty_cell)) as (hc & Hhc & Hhl & Hhp).
  { intros t Ht. apply Hheading. by right. }
  { reflexivity. }
  { repeat constructor; by eexists. }
  rewrite (bind_Ok _ _ _ _ _ Hhc).
  destruct (widths_progress {| fs := w; qr_images := None |}
              (Datatypes.S (length (experiments data)))
              (<[0%nat := hc]>
                 (tbl_rows (Docx.set_style "Table Grid"
                              (Docx.new_table (length (experiments data) + 1) 6)))))
    as (rows0 & Hw0 & Hwf0).
  { cbn [Docx.set_style Docx.new_table tbl_rows]. split; [split|].
    - rewrite length_insert, length_replicate. lia.
    - apply Forall_insert; [|done]. apply Forall_replicate. reflexivity.
    - apply Forall_insert; [|done]. apply Forall_replicate.
      repeat constructor; by eexists. }
  rewrite (bind_Ok _ _ _ _ _ Hw0).
  unfold bind at 1, bind_qr_images, modify. cbn [fs].
  destruct (for_each_progress
              (λ rows (_ : Frame), well_formed (Datatypes.S (length (experiments data))) rows)
              (fill_row E) (enumerate (experiments data)) rows0
              {| fs := w; qr_images := Some [] |} Hwf0) as (rows & fr2 & Hfill & _).
  { intros rows1 [idx exp] fr Hin Hwf1.
    pose proof (enumerate_from_elem_lookup _ _ _ _ Hin) as [Hidx _].
    rewrite Nat.sub_0_r in Hidx.
    apply enumerate_from_elem in Hin.
    apply fill_row_progress; [done|lia|by apply Hrows]. }
  rewrite (bind_Ok _ _ _ _ _ Hfill).
  erewrite bind_Ok.
  2:{ rewrite new_run_eq, Hclosing; [reflexivity|]. apply list_elem_of_In; cbn; auto. }
  erewrite bind_Ok.
  2:{ apply (details_progress data); [|reflexivity..].
      apply Hclosing, list_elem_of_In; cbn; auto. }
  erewrite bind_Ok.
  2:{ apply (details_progress data _ _ _ _ _
               (λ run para, Docx.set_alignment RIGHT (Docx.add_run run para)));
        [|reflexivity..].
      apply Hclosing, list_elem_of_In; cbn; auto. }
  erewrite bind_Ok.
  2:{ apply (details_progress data); [|reflexivity..].
      apply Hclosing, list_elem_of_In; cbn; auto. }
  erewrite bind_Ok.
  2:{ apply (details_progress data _ _ _ _ _
               (λ run para, Docx.set_alignment RIGHT (Docx.add_run run para)));
        [|reflexivity..].
      apply Hclosing, list_elem_of_In; cbn; auto 10. }
  eexists _, fr2. reflexivity.
Qed.

End Generate.

(** X1: with a cooperative environment (python-docx takes every text the
    handler writes, every link fits a symbol, Pillow makes the rasters,
    python-docx reads the code images and the logo, the operating system
    accepts the writes) a request is answered, with the response that
    names its output file. *)
Theorem generate_docx_succeeds (E : Env) (data : RecordData) (w : FS) :
  cooperative E data w →
  ∃ w', generate_docx E data w = (Ok (docx_response data), w').
Proof.
  intros Hco. destruct (build_document_progress E data w Hco) as (doc & fr1 & Hb).
  rewrite generate_docx_eq, Hb, (output_written _ _ _ Hco).
  rewrite (build_document_Ok_images _ _ _ _ _ Hb). by eexists.
Qed.




(** ** The service run on concrete requests *)

Module Runs.

(** A text file with a wrong content type is refused with status 500. *)
Lemma upload_notes :
  ∃ detail, upload_logo Ref.env Ref.notes ∅ = (Raise (HTTPException 500 detail), ∅)
            ∧ is_client_error (HTTPException 500 detail) = false.
Proof. apply (upload_logo_refusal_is_500 Ref.env Ref.notes ∅). vm_compute. reflexivity. Defined.

(** A JPEG upload leaves the PNG and no JPG. *)
Lemma upload_photo :
  ∃ img, image_decode Ref.env (file Ref.photo) = inr img
    ∧ reply_filename {| reply_message := "Logo uploaded successfully";
                        reply_filename := "college_logo.png" |} = "college_logo.png"
    ∧ snd (upload_logo Ref.env Ref.photo ∅) !! "college_logo.png"
      = Some (png_encode Ref.env img)
    ∧ snd (upload_logo Ref.env Ref.photo ∅) !! ("college_logo." +:+ "jpg") = None
    ∧ (∀ p, p ≠ "college_logo.png" → p ≠ "college_logo." +:+ "jpg" →
            snd (upload_logo Ref.env Ref.photo ∅) !! p = (∅ : FS) !! p)
    ∧ ((∀ p, p ∈ logo_files → p ≠ "college_logo.png" → p ≠ "college_logo." +:+ "jpg" →
             (∅ : FS) !! p = None) →
       stored_logos (snd (upload_logo Ref.env Ref.photo ∅)) = ["college_logo.png"]).
Proof.
  apply (upload_logo_jpeg_converted Ref.env Ref.photo ∅ "jpg").
  - vm_compute. reflexivity.
  - left. reflexivity.
  - vm_compute. reflexivity.
Defined.

(** C4, as stated, fails once a logo of the other JPEG spelling is on
    disk, as a failed upload leaves one: the upload of a jpg succeeds, and
    afterwards the PNG and the jpeg file both exist. *)
Lemma upload_photo_beside_jpeg :
  snd (upload_logo Ref.env More.hollow ∅) !! "college_logo.jpeg" = Some []
  ∧ upload_extension Ref.photo = Some "jpg"
  ∧ fst (upload_logo Ref.env Ref.photo (snd (upload_logo Ref.env More.hollow ∅)))
    = Ok {| reply_message := "Logo uploaded successfully";
            reply_filename := "college_logo.png" |}
  ∧ stored_logos (snd (upload_logo Ref.env Ref.photo (snd (upload_logo Ref.env More.hollow ∅))))
    = ["college_logo.png"; "college_logo.jpeg"].
Proof. repeat split; vm_compute; reflexivity. Qed.

(** The file name PNG, without a dot, passes the extension check. *)
Lemma upload_shouting :
  upload_extension Ref.shouting = Some (Py.lower "PNG")
  ∧ (Py.lower "PNG" ∉ allowed_extensions →
       logo_extension Ref.shouting (∅ : FS)
       = (Raise (HTTPException 400 "Only PNG, JPG, JPEG files allowed"), ∅)
       ∧ ∃ detail, upload_logo Ref.env Ref.shouting ∅ = (Raise (HTTPException 500 detail), ∅))
  ∧ (Py.lower "PNG" ∈ allowed_extensions →
       logo_extension Ref.shouting (∅ : FS) = (Ok (Py.lower "PNG"), ∅)
       ∧ upload_logo Ref.env Ref.shouting ∅
         = try_except (store_logo Ref.env Ref.shouting (Py.lower "PNG"))
             (λ e, raise (HTTPException 500 ("Error uploading logo: " +:+ str_exn e))) ∅).
Proof.
  apply (upload_logo_no_dot Ref.env Ref.shouting ∅ "image/png" "PNG"); reflexivity.
Defined.

(** C10, as stated, fails on the file name PNG: it has no dot and is none
    of png, jpg, jpeg, yet the upload is accepted and stored. *)
Lemma upload_shouting_accepted :
  Py.contains "."%char "PNG" = false
  ∧ ("PNG" ∉ ["png"; "jpg"; "jpeg"])
  ∧ fst (upload_logo Ref.env Ref.shouting ∅)
    = Ok {| reply_message := "Logo uploaded successfully";
            reply_filename := "college_logo.png" |}
  ∧ snd (upload_logo Ref.env Ref.shouting ∅) !! "college_logo.png" = Some (file Ref.shouting).
Proof.
  split; [reflexivity|].
  split.
  { assert (Hd : bool_decide ("PNG" ∈ ["png"; "jpg"; "jpeg"]) = false)
      by (vm_compute; reflexivity).
    by apply bool_decide_eq_false in Hd. }
  split; vm_compute; reflexivity.
Qed.

Lemma asha_table :
  ∃ doc table,
    built_document Ref.env Ref.asha ∅ = Some doc
    ∧ experiment_table doc = Some table
    ∧ length (tbl_rows table) = (length (experiments Ref.asha) + 1)%nat
    ∧ Forall (λ row, length row = 6%nat) (tbl_rows table).
Proof.
  eapply (generate_docx_table_shape Ref.env Ref.asha ∅). vm_compute. reflexivity.
Defined.

Lemma asha_ordinal :
  ∃ doc, built_document Ref.env Ref.asha ∅ = Some doc
    ∧ ordinal_text doc 1 = Some (Py.zfill 2 (Py.str 1))
    ∧ Py.int (Py.str 1) = Some 1%nat
    ∧ ((1 ≤ 99)%nat → Py.zfill 2 (Py.str 1) = two_digits 1)
    ∧ ((100 ≤ 1)%nat → Py.zfill 2 (Py.str 1) = Py.str 1
                        ∧ (2 ≤ String.length (Py.str 1))%nat).
Proof.
  eexists. split; [vm_compute; reflexivity|].
  apply (ordinal_cell_text Ref.env Ref.asha ∅ _ 1); [vm_compute; reflexivity|].
  cbn. lia.
Defined.

(** With a jpg logo and no png logo on disk, the jpg is embedded. *)
Lemma asha_logo :
  ∃ doc, built_document Ref.env Ref.asha Ref.with_jpg_logo = Some doc
    ∧ ∃ rows details,
        match resolve_spec Ref.with_jpg_logo with
        | Some path =>
            ∃ blob, Ref.with_jpg_logo !! path = Some blob
              ∧ doc_body doc = logo_block blob :: spacer :: main_blocks Ref.asha rows details
              ∧ body_pictures doc = [ {| pic_blob := blob; pic_width := Inches 7.0 |} ]
        | None => doc_body doc = main_blocks Ref.asha rows details
                  ∧ body_pictures doc = []
        end.
Proof.
  eexists. split; [vm_compute; reflexivity|].
  apply (logo_resolution Ref.env Ref.asha Ref.with_jpg_logo). vm_compute. reflexivity.
Defined.

Lemma link_image :
  ∃ stream img,
    create_qr_code Ref.env "https://github.com/asha/stack" 150 tt = (Ok stream, tt)
    ∧ BytesIO_read stream = png_encode Ref.env img
    ∧ im_size img = (150, 150)
    ∧ im_pixels img
      = lanczos Ref.env
          (qr_make_image Ref.env
             {| qr_version := 1; qr_error_correction := ERROR_CORRECT_L;
                qr_box_size := 10; qr_border := 2;
                qr_data_list := ["https://github.com/asha/stack"]; qr_modules := [] |}
             "black" "white") 150 150.
Proof.
  apply (create_qr_code_size Ref.env "https://github.com/asha/stack" 150 tt);
    [lia|reflexivity|lia|reflexivity].
Defined.

(** C7, as stated, fails on the positive size 2147483648: the payload is
    within the symbol capacity, and the generator raises instead of
    returning a raster. *)
Lemma link_image_too_large :
  0 < 2147483648
  ∧ (∃ q, qr_make Ref.env (qr_request "https://github.com/asha/stack") = inr q)
  ∧ ∃ msg, create_qr_code Ref.env "https://github.com/asha/stack" 2147483648 tt
           = (Raise (PyError "OverflowError" msg), tt).
Proof.
  split; [lia|]. split; [by eexists|]. eexists. vm_compute. reflexivity.
Qed.

Lemma asha_output :
  ∃ doc,
    built_document Ref.env Ref.asha ∅ = Some doc
    ∧ resp_path (docx_response Ref.asha) = register_number Ref.asha +:+ "_Lab_Record.docx"
    ∧ snd (generate_docx Ref.env Ref.asha ∅) !! resp_path (docx_response Ref.asha)
      = Some (docx_serialize Ref.env doc)
    ∧ serve (docx_response Ref.asha) (snd (generate_docx Ref.env Ref.asha ∅))
      = (Some (docx_serialize Ref.env doc), snd (generate_docx Ref.env Ref.asha ∅))
    ∧ (∀ p, p ≠ resp_path (docx_response Ref.asha) →
            p ∉ qr_filenames (length (experiments Ref.asha)) →
            snd (generate_docx Ref.env Ref.asha ∅) !! p = (∅ : FS) !! p)
    ∧ (∀ p, p ∈ qr_filenames (length (experiments Ref.asha)) →
            remove_refused Ref.env p = None →
            snd (generate_docx Ref.env Ref.asha ∅) !! p = None).
Proof.
  apply (output_document_kept Ref.env Ref.asha ∅). vm_compute. reflexivity.
Defined.

(** The reference environment is cooperative for the request. *)
Lemma asha_cooperative : cooperative Ref.env Ref.asha ∅.
Proof.
  split.
  - intros t Ht. apply list_elem_of_In in Ht. cbn in Ht.
    repeat (destruct Ht as [<-|Ht]; [vm_compute; reflexivity|]). done.
  - intros [|idx] exp Hexp; [|done]. injection Hexp as <-.
    split; [|split; [|reflexivity]].
    + intros t Ht. apply list_elem_of_In in Ht. cbn in Ht.
      repeat (destruct Ht as [<-|Ht]; [vm_compute; reflexivity|]). done.
    + eexists. split; vm_compute; reflexivity.
  - intros path blob Hpath. vm_compute in Hpath. done.
  - reflexivity.
Qed.

(** A request without experiments gets a table of the header row alone. *)
Lemma empty_request_table :
  let data := {| course_title := "Networks Lab"; student_name := "R. Iyer";
                 register_number := "21CS007"; experiments := [] |} in
  ∃ doc table rest,
    fst (generate_docx Ref.env data ∅) = Ok (docx_response data)
    ∧ built_document Ref.env data ∅ = Some doc
    ∧ Docx.tables doc = table :: rest
    ∧ length (tbl_rows table) = 1%nat
    ∧ Docx.cell_text <$> (tbl_rows table !!! 0%nat) = headers.
Proof. cbv zeta. eexists _, _, _. repeat split; vm_compute; reflexivity. Qed.

(** The request of the spec's round trip: one data row, ordinal 01. *)
Lemma asha_row :
  ∃ doc table,
    built_document Ref.env Ref.asha ∅ = Some doc
    ∧ experiment_table doc = Some table
    ∧ Docx.cell_text <$> (tbl_rows table !!! 1%nat)
      = ["01"; "2024-01-10";
         "Stack Implementation" +:+ newline +:+ newline +:+ "https://github.com/asha/stack";
         ""; ""; ""]
    ∧ resp_filename (docx_response Ref.asha) = "21CS045_Lab_Record.docx".
Proof. eexists _, _. repeat split; vm_compute; reflexivity. Qed.

(** A refused removal: the code image stays on disk and the response is
    the one of the run without refusals. *)
Lemma asha_refused_removal :
  fst (generate_docx Ref.env_no_remove Ref.asha ∅) = fst (generate_docx Ref.env Ref.asha ∅)
  ∧ is_Some (snd (generate_docx Ref.env_no_remove Ref.asha ∅) !! qr_filename 0)
  ∧ snd (generate_docx Ref.env Ref.asha ∅) !! qr_filename 0 = None.
Proof. repeat split; vm_compute; eauto. Qed.

(** A link beyond the symbol capacity in the second row: the request
    fails with status 500 and the first row's code image is gone. *)
Lemma overflow_cleanup :
  let long := "https://github.com/asha/" +:+ Py.zeros 64 in
  let data := {| course_title := "DS Lab"; student_name := "Asha Rao";
                 register_number := "21CS045";
                 experiments := [ {| title := "Stack"; date := ""; github := "https://g/s" |};
                                  {| title := "Queue"; date := ""; github := long |} ] |} in
  generate_docx Ref.env data ∅ = (Raise (generation_error (PyError "DataOverflowError" "")), ∅).
Proof. vm_compute. reflexivity. Qed.

(** A NUL character in the course title: python-docx refuses the text
    and the request fails with status 500. *)
Lemma nul_title_fails :
  generate_docx Ref.env More.nul_title ∅
  = (Raise (generation_error
              (PyError "ValueError"
                 "All strings must be XML compatible: Unicode or ASCII, no NULL bytes or control characters")),
     ∅).
Proof. vm_compute. reflexivity. Qed.

End Runs.

(** ** The tables in closed form *)

Section ClosedForm.
Context (E : Env).

#[local] Hint Resolve stateless_create_qr_code stateless_add_picture : stateless.

(** The loop over the headers on the cells of a new row, when the six
    labels are taken. *)
Lemma header_loop_eq (fr : Frame) :
  texts_accepted E headers →
  for_each (enumerate headers)
    (λ (cells : list Cell) '(idx, header), update_item cells idx (header_cell E header))
    (replicate 6 Docx.empty_cell) fr
  = (Ok ((λ h, header_style (Docx.set_cell_text h Docx.empty_cell)) <$> headers), fr).
Proof.
  intros Ht. cbn [enumerate headers enumerate_from for_each].
  repeat (erewrite bind_Ok;
          [|eapply update_item_Ok;
            [reflexivity
            |rewrite header_cell_eq; rewrite Ht by (apply list_elem_of_In; cbn; auto 10);
             reflexivity]]).
  reflexivity.
Qed.

(** The same loop, left without an exception. *)
Lemma header_loop_inv (fr : Frame) hc fr' :
  for_each (enumerate headers)
    (λ (cells : list Cell) '(idx, header), update_item cells idx (header_cell E header))
    (replicate 6 Docx.empty_cell) fr = (Ok hc, fr') →
  hc = (λ h, header_style (Docx.set_cell_text h Docx.empty_cell)) <$> headers
  ∧ fr' = fr.
Proof.
  intros H. cbn [enumerate headers enumerate_from for_each] in H.
  repeat (apply bind_Ok_inv in H as (? & ? & Hc & H);
          apply update_item_Ok_inv in Hc as (? & ? & Hx & Hy & ->);
          apply header_cell_Ok_inv in Hy as (_ & -> & ->);
          cbn in Hx; injection Hx as <-).
  cbv [ret] in H. injection H as <- <-. done.
Qed.

(** The inner loop of the widths: every row gets the width in its column. *)
Lemma width_column_eq (fr : Frame) idx w (rows0 pre rows : list (list Cell)) k :
  length rows0 = length rows → length pre = k →
  Forall (λ row, (idx < length row)%nat) rows →
  for_each (enumerate_from k rows0)
    (λ (acc : list (list Cell)) '(r, _),
       update_cell acc r idx (λ cell, ret (Docx.set_width w cell)))
    (pre ++ rows) fr
  = (Ok (pre ++ (set_column_width idx w <$> rows)), fr).
Proof.
  revert rows pre k. induction rows0 as [|x rows0 IH]; intros rows pre k Hlen Hk Hidx.
  - destruct rows; [|done]. done.
  - destruct rows as [|row rows]; [done|].
    apply Forall_cons in Hidx as [Hrow Hidx].
    destruct (lookup_lt_is_Some_2 row idx Hrow) as [c Hc].
    cbn [enumerate_from for_each].
    erewrite bind_Ok.
    2:{ unfold update_cell. eapply update_item_Ok.
        - rewrite <- Hk. apply list_lookup_middle. done.
        - by apply (update_item_Ok _ _ _ _ c). }
    replace (<[k := <[idx := Docx.set_width w c]> row]> (pre ++ row :: rows))
      with ((pre ++ [set_column_width idx w row]) ++ rows).
    + rewrite (IH rows (pre ++ [set_column_width idx w row]) (Datatypes.S k)).
      * by rewrite <- app_assoc.
      * cbn in Hlen. lia.
      * rewrite length_app. cbn. lia.
      * done.
    + rewrite <- app_assoc, <- Hk. cbn [app].
      rewrite <- (Nat.add_0_r (length pre)), insert_app_r. cbn.
      unfold set_column_width. f_equal. f_equal.
      apply list_eq. intros j. destruct (decide (j = idx)) as [->|Hne].
      * rewrite list_lookup_alter_eq, Hc, list_lookup_insert_eq by done. done.
      * by rewrite list_lookup_alter_ne, list_lookup_insert_ne.
Qed.

Lemma set_column_width_length idx w row :
  length (set_column_width idx w row) = length row.
Proof. apply length_alter. Qed.

(** The loops over the widths: every row gets every width. *)
Lemma widths_loop_eq (fr : Frame) ws k (rows : list (list Cell)) :
  Forall (λ row, (k + length ws ≤ length row)%nat) rows →
  for_each (enumerate_from k ws)
    (λ (rows : list (list Cell)) '(idx, width),
       for_each (enumerate rows)
         (λ (rows0 : list (list Cell)) '(r, _),
            update_cell rows0 r idx (λ cell, ret (Docx.set_width width cell)))
         rows)
    rows fr
  = (Ok (set_widths_from k ws <$> rows), fr).
Proof.
  revert k rows. induction ws as [|w ws IH]; intros k rows Hlen.
  - cbn. unfold set_widths_from. cbn. by rewrite list_fmap_id.
  - cbn [enumerate_from for_each].
    erewrite bind_Ok.
    2:{ apply (width_column_eq fr k w rows [] rows 0%nat); [done|done|].
        eapply Forall_impl; [exact Hlen|]. cbn. intros; lia. }
    cbn [app]. rewrite IH.
    + rewrite <- list_fmap_compose. done.
    + apply Forall_fmap. eapply Forall_impl; [exact Hlen|].
      intros row Hrow. cbn in *. rewrite set_column_width_length. lia.
Qed.

Lemma truthy_or_empty (s : string) : (if truthy s then s else "") = s.
Proof. by destruct s. Qed.

(** One turn of the loop on a row that is still blank: the row becomes
    the data row of the experiment. *)
Lemma fill_row_blank_inv rows idx exp fr rows' fr' :
  fill_row E rows (idx, exp) fr = (Ok rows', fr') →
  rows !! (idx + 1)%nat = Some blank_row →
  ∃ blob, qr_png E (github exp) = Some blob
          ∧ rows' = <[(idx + 1)%nat := data_row idx exp blob]> rows.
Proof.
  unfold fill_row. intros H Hblank.
  apply bind_Ok_inv in H as (cells & s1 & Hcells & H).
  apply item_Ok_inv in Hcells as [Hcells ->].
  rewrite Hblank in Hcells. injection Hcells as <-.
  apply bind_Ok_inv in H as (cells1 & s1 & H1 & H).
  apply update_item_Ok_inv in H1 as (c0 & c0' & Hc0 & Hc0' & ->).
  apply bind_Ok_inv in Hc0' as (c0t & s2 & Hc0t & Hc0').
  apply set_cell_text_Ok_inv in Hc0t as (_ & -> & ->).
  apply on_paragraph_Ok_inv in Hc0' as (p0 & Hp0 & -> & ->).
  cbn in Hp0. injection Hp0 as <-. cbn in Hc0. injection Hc0 as <-.
  apply bind_Ok_inv in H as (cells2 & s1 & H2 & H).
  apply update_item_Ok_inv in H2 as (c1 & c1' & Hc1 & Hc1' & ->).
  apply set_cell_text_Ok_inv in Hc1' as (_ & -> & ->). cbn in Hc1. injection Hc1 as <-.
  apply bind_Ok_inv in H as (cells3 & s1 & H3 & H).
  apply update_item_Ok_inv in H3 as (c2 & c2' & Hc2 & Hc2' & ->).
  apply in_paragraph_Ok_inv in Hc2' as (p2 & p2' & Hp2 & Hf & ->).
  cbn in Hc2. injection Hc2 as <-. cbn in Hp2. injection Hp2 as <-.
  apply bind_Ok_inv in Hf as (pt & s2 & Hpt & Hf).
  apply set_paragraph_text_Ok_inv in Hpt as (_ & -> & ->).
  apply bind_Ok_inv in Hf as (breaks & s2 & Hbr & Hf).
  apply new_run_Ok_inv in Hbr as (_ & -> & ->).
  apply bind_Ok_inv in Hf as (link & s2 & Hlink & Hf).
  apply new_run_Ok_inv in Hlink as (_ & -> & ->).
  cbv [ret] in Hf. injection Hf as <- <-.
  apply bind_Ok_inv in H as (qr & s1 & Hqr & H).
  pose proof (stateless_create_qr_code _ _ _ _ _ _ Hqr) as ->.
  apply qr_png_of_run in Hqr.
  apply bind_Ok_inv in H as (u1 & s1 & Hw & H).
  apply os_write_file_Ok_inv in Hw as [_ ->].
  apply bind_Ok_inv in H as (u2 & s1 & Happ & H).
  cbv [append_qr_image modify] in Happ. injection Happ as <- <-.
  apply bind_Ok_inv in H as (cells4 & s1 & H4 & H).
  apply update_item_Ok_inv in H4 as (c3 & c3' & Hc3 & Hc3' & ->).
  cbn in Hc3. injection Hc3 as <-.
  apply bind_Ok_inv in Hc3' as (c3t & s2 & Hc3t & Hc3').
  apply set_cell_text_Ok_inv in Hc3t as (_ & -> & ->).
  apply bind_Ok_inv in Hc3' as (p3 & s2 & Hp3 & Hc3').
  apply item_Ok_inv in Hp3 as [Hp3 ->]. cbn in Hp3. injection Hp3 as <-.
  apply bind_Ok_inv in Hc3' as (pic & s2 & Hpic & Hc3').
  pose proof (stateless_add_picture _ _ _ _ _ _ Hpic) as ->.
  apply add_picture_Ok_inv in Hpic as (blob & Hblob & _ & ->).
  cbn [fs] in Hblob. rewrite lookup_insert_eq in Hblob. injection Hblob as <-.
  cbv [ret] in Hc3'. injection Hc3' as <- <-.
  apply bind_Ok_inv in H as (cells5 & s1 & H5 & H).
  apply update_item_Ok_inv in H5 as (c4 & c4' & Hc4 & Hc4' & ->).
  apply set_cell_text_Ok_inv in Hc4' as (_ & -> & ->). cbn in Hc4. injection Hc4 as <-.
  apply bind_Ok_inv in H as (cells6 & s1 & H6 & H).
  apply update_item_Ok_inv in H6 as (c5 & c5' & Hc5 & Hc5' & ->).
  apply set_cell_text_Ok_inv in Hc5' as (_ & -> & ->). cbn in Hc5. injection Hc5 as <-.
  cbv [ret] in H. injection H as <- <-.
  exists (BytesIO_read qr). split; [done|].
  rewrite truthy_or_empty. reflexivity.
Qed.

(** The loop over the experiments on rows that are still blank: each
    experiment's row becomes its data row. *)
Lemma fill_rows_closed exps k rows fr rows' fr' :
  for_each (enumerate_from k exps) (fill_row E) rows fr = (Ok rows', fr') →
  (∀ j, (k < j ≤ k + length exps)%nat → rows !! j = Some blank_row) →
  ∀ i exp, exps !! i = Some exp →
    ∃ blob, qr_png E (github exp) = Some blob
            ∧ rows' !! Datatypes.S (k + i) = Some (data_row (k + i) exp blob).
Proof.
  revert k rows fr. induction exps as [|exp0 exps IH]; intros k rows fr H Hblank i exp Hi.
  - done.
  - cbn [enumerate_from for_each] in H.
    apply bind_Ok_inv in H as (rows1 & fr1 & Hrow & H).
    assert (Hk : rows !! (k + 1)%nat = Some blank_row).
    { apply Hblank. cbn [length]. lia. }
    apply fill_row_blank_inv in Hrow as (blob0 & Hblob0 & ->); [|done].
    destruct i as [|i].
    + injection Hi as <-. exists blob0. split; [done|].
      apply fill_rows_Ok_inv in H as (_ & _ & Hkeep & _).
      rewrite Hkeep by lia. rewrite Nat.add_0_r, <- Nat.add_1_r.
      apply list_lookup_insert_eq. by apply lookup_lt_Some in Hk.
    + cbn in Hi.
      destruct (IH (Datatypes.S k) _ _ H) with (i := i) (exp := exp) as (blob & Hblob & Hrow);
        [|done|].
      * intros j Hj. rewrite list_lookup_insert_ne by lia.
        apply Hblank. cbn [length]. lia.
      * exists blob. split; [done|].
        replace (k + Datatypes.S i)%nat with (Datatypes.S k + i)%nat by lia. done.
Qed.

(** One cell of the details table, filled. *)
Lemma details_cell_inv (fr : Frame) (drows : list (list Cell)) t r c
    (g : Run → Paragraph → Paragraph) drows' fr' :
  update_cell drows r c
    (in_paragraph 0 (λ para, run <- details_run E t ;; ret (g run para))) fr
  = (Ok drows', fr') →
  ∃ row cell p,
    drows !! r = Some row ∧ row !! c = Some cell ∧ cell_paragraphs cell !! 0%nat = Some p
    ∧ drows' = <[r := <[c := Docx.set_paragraphs
                               (<[0%nat := g (Docx.set_size (Pt 11) (Docx.plain_run t)) p]>
                                  (cell_paragraphs cell)) cell]> row]> drows
    ∧ fr' = fr.
Proof.
  unfold update_cell. intros (row & row' & Hrow & H & ->)%update_item_Ok_inv.
  apply update_item_Ok_inv in H as (cell & cell' & Hcell & H & ->).
  apply in_paragraph_Ok_inv in H as (p & p' & Hp & H & ->).
  apply bind_Ok_inv in H as (run & s1 & Hrun & H).
  apply details_run_Ok_inv in Hrun as (_ & -> & ->).
  cbv [ret] in H. injection H as <- <-. by eexists _, _, _.
Qed.

(** A built document, whole: the margins, the optional logo block with
    its spacer, the title, the experiment table filled from the header
    row and blank rows, and the closing blocks with the details table. *)
Lemma build_document_closed data fr doc fr' :
  build_document E data fr = (Ok doc, fr') →
  ∃ prefix rows,
    doc = {| doc_sections := [page_margins];
             doc_body := prefix ++ main_blocks data rows (details_table data) |}
    ∧ match resolve_spec (fs fr) with
      | Some path => ∃ blob, fs fr !! path = Some blob ∧ prefix = [logo_block blob; spacer]
      | None => prefix = []
      end
    ∧ for_each (enumerate (experiments data)) (fill_row E)
        (header_row :: replicate (length (experiments data)) blank_row)
        {| fs := fs fr; qr_images := Some [] |} = (Ok rows, fr').
Proof.
  unfold build_document. intros H.
  apply bind_Ok_inv in H as ([doc1 logo_exists] & s1 & Hlogo & H).
  pose proof (stateless_add_logo _ _ _ _ _ _ Hlogo) as ->.
  apply add_logo_Ok_inv in Hlogo.
  apply bind_Ok_inv in H as (title_run & s1 & Htitle & H).
  apply new_run_Ok_inv in Htitle as (_ & -> & ->).
  apply bind_Ok_inv in H as (hc & s1 & Hhc & H).
  apply item_Ok_inv in Hhc as [Hhc ->].
  cbn [Docx.set_style Docx.new_table tbl_rows] in Hhc.
  apply lookup_replicate in Hhc as [-> _].
  apply bind_Ok_inv in H as (hc' & s1 & Hhdr & H).
  apply header_loop_inv in Hhdr as [-> ->].
  apply bind_Ok_inv in H as (rows0 & s1 & Hw & H).
  unfold enumerate in Hw. rewrite widths_loop_eq in Hw.
  2:{ cbn [Docx.set_style Docx.new_table tbl_rows].
      apply Forall_insert; [|done]. apply Forall_replicate. done. }
  injection Hw as <- <-.
  apply bind_Ok_inv in H as (u & s1 & Hq & H).
  cbv [bind_qr_images modify] in Hq. injection Hq as _ <-.
  apply bind_Ok_inv in H as (rows & fr2 & Hfill & H).
  apply bind_Ok_inv in H as (conf_run & s1 & Hconf & H).
  apply new_run_Ok_inv in Hconf as (_ & -> & ->).
  apply bind_Ok_inv in H as (d1 & s1 & Hd1 & H).
  apply details_cell_inv in Hd1 as (row1 & cell1 & p1 & Hr1 & Hc1 & Hp1 & -> & ->).
  cbn in Hr1. injection Hr1 as <-. cbn in Hc1. injection Hc1 as <-.
  cbn in Hp1. injection Hp1 as <-.
  apply bind_Ok_inv in H as (d2 & s1 & Hd2 & H).
  apply (details_cell_inv _ _ _ _ _
           (λ run para, Docx.set_alignment RIGHT (Docx.add_run run para))) in Hd2
    as (row2 & cell2 & p2 & Hr2 & Hc2 & Hp2 & -> & ->).
  cbn in Hr2. injection Hr2 as <-. cbn in Hc2. injection Hc2 as <-.
  cbn in Hp2. injection Hp2 as <-.
  apply bind_Ok_inv in H as (d3 & s1 & Hd3 & H).
  apply details_cell_inv in Hd3 as (row3 & cell3 & p3 & Hr3 & Hc3 & Hp3 & -> & ->).
  cbn in Hr3. injection Hr3 as <-. cbn in Hc3. injection Hc3 as <-.
  cbn in Hp3. injection Hp3 as <-.
  apply bind_Ok_inv in H as (d4 & s1 & Hd4 & H).
  apply (details_cell_inv _ _ _ _ _
           (λ run para, Docx.set_alignment RIGHT (Docx.add_run run para))) in Hd4
    as (row4 & cell4 & p4 & Hr4 & Hc4 & Hp4 & -> & ->).
  cbn in Hr4. injection Hr4 as <-. cbn in Hc4. injection Hc4 as <-.
  cbn in Hp4. injection Hp4 as <-.
  cbv [ret] in H. injection H as <- <-.
  assert (Hrows0 :
    set_widths_from 0 widths
      <$> <[0%nat := (λ h, header_style (Docx.set_cell_text h Docx.empty_cell)) <$> headers]>
            (tbl_rows (Docx.set_style "Table Grid"
                         (Docx.new_table (length (experiments data) + 1) 6)))
    = header_row :: replicate (length (experiments data)) blank_row).
  { rewrite Nat.add_1_r. cbn [Docx.set_style Docx.new_table tbl_rows replicate].
    change (<[0%nat := ?x]> (?y :: ?l)) with (x :: l).
    rewrite fmap_cons, fmap_replicate. f_equal. }
  change (resolve_spec (fs fr)) with (List.find (λ p, os_path_exists p (fs fr)) logo_files).
  cbn [fs doc_sections doc_body Docx.new_document fmap list_fmap] in Hlogo.
  exists (doc_body doc1 ++ (if logo_exists then [spacer] else [])), rows.
  split; [|split; [|rewrite <- Hrows0; exact Hfill]].
  - assert (Hsec : doc_sections doc1 = [page_margins]).
    { destruct (List.find _ logo_files).
      - by destruct Hlogo as (blob & _ & -> & _).
      - by destruct Hlogo as [-> _]. }
    clear Hlogo. destruct doc1 as [secs body]. cbn [doc_sections doc_body] in *. subst secs.
    unfold main_blocks, spacer, title_block, confirmation_block.
    unfold Docx.add_block_table, Docx.add_paragraph.
    destruct logo_exists; cbn [doc_body doc_sections];
      rewrite <- !app_assoc; reflexivity.
  - destruct (List.find _ logo_files) as [path|].
    + destruct Hlogo as (blob & Hblob & _ & -> & ->). cbn. eauto.
    + destruct Hlogo as [-> ->]. done.
Qed.

Lemma tables_of_layout prefix data rows details :
  Forall (λ b, ∃ p, b = BParagraph p) prefix →
  Docx.tables {| doc_sections := [page_margins];
                 doc_body := prefix ++ main_blocks data rows details |}
  = [ {| tbl_style := Some "Table Grid"; tbl_autofit := true; tbl_rows := rows |};
      details ].
Proof.
  intros Hp. unfold Docx.tables. cbn [doc_body]. rewrite omap_app.
  replace (omap _ prefix) with (@nil Table); [done|].
  induction Hp as [|b prefix [p ->] _ IH]; [done|]. by cbn.
Qed.

(** A built document with its experiment table: the header row first,
    then one data row per experiment. *)
Lemma built_document_closed data w doc :
  built_document E data w = Some doc →
  ∃ prefix rows,
    doc = {| doc_sections := [page_margins];
             doc_body := prefix ++ main_blocks data rows (details_table data) |}
    ∧ Forall (λ b, ∃ p, b = BParagraph p) prefix
    ∧ match resolve_spec w with
      | Some path => ∃ blob, w !! path = Some blob ∧ prefix = [logo_block blob; spacer]
      | None => prefix = []
      end
    ∧ length rows = Datatypes.S (length (experiments data))
    ∧ rows !! 0%nat = Some header_row
    ∧ (∀ idx exp, experiments data !! idx = Some exp →
         ∃ blob, qr_png E (github exp) = Some blob
                 ∧ rows !! Datatypes.S idx = Some (data_row idx exp blob)).
Proof.
  unfold built_document.
  destruct (build_document E data _) as [[doc'|e] fr1] eqn:Hb; [|done].
  intros [= ->].
  apply build_document_closed in Hb as (prefix & rows & -> & Hlogo & Hfill).
  cbn [fs] in Hlogo.
  exists prefix, rows. split; [done|]. split; [|split; [exact Hlogo|split; [|split]]].
  - destruct (resolve_spec w).
    + destruct Hlogo as (blob & _ & ->). repeat constructor; by eexists.
    + subst prefix. constructor.
  - apply fill_rows_Ok_inv in Hfill as (-> & _). cbn. by rewrite length_replicate.
  - apply fill_rows_Ok_inv in Hfill as (_ & _ & Hkeep & _). by rewrite Hkeep.
  - intros idx exp Hexp.
    eapply (fill_rows_closed _ 0) in Hfill as (blob & Hblob & Hrow); [| |exact Hexp].
    + exists blob. done.
    + intros j Hj. destruct j as [|j]; [lia|]. cbn.
      apply lookup_replicate_2. lia.
Qed.

End ClosedForm.

(** ** More of the document *)

Section Coverage.
Context (E : Env).

(** X3: the first row of the experiment table of a built document is the
    header row: the six labels, each in one bold 11pt run of a centred
    paragraph, in a cell of its column's width with the four borders; the
    table has the Table Grid style. *)
Theorem header_row_built (data : RecordData) (w : FS) doc :
  built_document E data w = Some doc →
  ∃ table,
    experiment_table doc = Some table
    ∧ tbl_style table = Some "Table Grid"
    ∧ tbl_rows table !! 0%nat = Some header_row
    ∧ Docx.cell_text <$> header_row = headers
    ∧ cell_width <$> header_row = Some <$> widths.
Proof.
  intros (prefix & rows & -> & Hp & _ & _ & Hhdr & _)%built_document_closed.
  eexists. unfold experiment_table. rewrite tables_of_layout by done.
  split; [reflexivity|]. split; [reflexivity|]. split; [exact Hhdr|].
  split; reflexivity.
Qed.

(** X4: in a built document the row of the experiment at 0-based position
    [idx] is its data row: the padded ordinal centred, the date, the title
    followed by two line breaks and the link in 9pt blue underlined, the
    code image that [create_qr_code] returns for the link at 150 pixels
    shown centred at 0.75 inch, and two empty cells; each cell has its
    column's width and the four borders. *)
Theorem data_rows_built (data : RecordData) (w : FS) doc idx exp :
  built_document E data w = Some doc →
  experiments data !! idx = Some exp →
  ∃ table blob,
    experiment_table doc = Some table
    ∧ qr_png E (github exp) = Some blob
    ∧ tbl_rows table !! Datatypes.S idx = Some (data_row idx exp blob)
    ∧ Docx.cell_text <$> data_row idx exp blob
      = [ Py.zfill 2 (Py.str (idx + 1)); date exp;
          title exp +:+ newline +:+ newline +:+ github exp; ""; ""; "" ]
    ∧ cell_width <$> data_row idx exp blob = Some <$> widths
    ∧ Forall (λ c, cell_tcPr c = four_borders) (data_row idx exp blob).
Proof.
  intros (prefix & rows & -> & Hp & _ & _ & _ & Hrows)%built_document_closed Hexp.
  destruct (Hrows idx exp Hexp) as (blob & Hblob & Hrow).
  eexists _, blob. unfold experiment_table. rewrite tables_of_layout by done.
  split; [reflexivity|]. split; [done|]. split; [exact Hrow|].
  split; [|split; [reflexivity|repeat constructor]].
  unfold data_row, Docx.cell_text, Docx.paragraph_text, text_paragraph.
  cbn [fmap list_fmap cell_paragraphs data_cell par_runs Py.join foldr run_text
       Docx.plain_run].
  by rewrite !append_empty_r.
Qed.

(** X5: a built document has the page margins of half an inch at the top
    and one inch elsewhere, and two tables: the experiment table and the
    borderless two-by-two details table with the name and the register
    number in its first row, the date and the signature labels in its
    second, the right column aligned to the right. *)
Theorem details_table_built (data : RecordData) (w : FS) doc :
  built_document E data w = Some doc →
  doc_sections doc = [page_margins]
  ∧ ∃ table, Docx.tables doc = [table; details_table data]
             ∧ (λ row : list Cell, Docx.cell_text <$> row) <$> tbl_rows (details_table data)
               = [ [ "Name: " +:+ student_name data;
                     "Register Number: " +:+ register_number data ];
                   [ "Date:"; "Learner's Signature:" ] ].
Proof.
  intros (prefix & rows & -> & Hp & _)%built_document_closed.
  split; [reflexivity|]. eexists. rewrite tables_of_layout by done.
  split; [reflexivity|].
  unfold details_table, details_cell, Docx.cell_text, Docx.paragraph_text.
  cbn [fmap list_fmap tbl_rows cell_paragraphs par_runs Py.join foldr run_text].
  by rewrite !append_empty_r.
Qed.

(** X2: a request that fails has failed either while the document was
    built or when the output file was written; it reaches the caller with
    status 500 and the detail "Error: " followed by the message of that very
    exception.  In the first case the output file is as it was; in both,
    every path but the output file and the code-image files of the rows is
    as it was. *)
Theorem generate_docx_failure (data : RecordData) (w : FS) e w' :
  generate_docx E data w = (Raise e, w') →
  ∃ cause,
    e = HTTPException 500 ("Error: " +:+ str_exn cause)
    ∧ ((build_failure E data w = Some cause
        ∧ w' !! output_filename data = w !! output_filename data)
       ∨ (∃ doc, built_document E data w = Some doc
                 ∧ write_refused E (output_filename data) = Some cause))
    ∧ (∀ p, p ∉ qr_filenames (length (experiments data)) → p ≠ output_filename data →
            w' !! p = w !! p).
Proof.
  intros H. rewrite generate_docx_eq in H. unfold build_failure, built_document.
  destruct (build_document E data _) as [[doc|e0] fr1] eqn:Hb.
  - pose proof (build_document_tracked _ _ _ _ _ Hb) as Htr.
    unfold tracked in Htr. rewrite (build_document_Ok_images _ _ _ _ _ Hb) in *.
    destruct Htr as [_ Hrest].
    destruct (write_refused E (output_filename data)) as [e1|]; [|done].
    injection H as <- <-. exists e1. split; [done|]. split; [right; by eauto|].
    intros p Hp Hout.
    rewrite sweep_lookup_notin, refused_write_lookup_ne by done. by apply Hrest.
  - pose proof (build_document_tracked _ _ _ _ _ Hb) as Htr.
    unfold tracked in Htr. injection H as <- <-. exists e0. split; [done|].
    assert (Hframe : ∀ p, p ∉ qr_filenames (length (experiments data)) →
              match qr_images fr1 with
              | Some files => sweep E files (fs fr1)
              | None => fs fr1
              end !! p = w !! p).
    { destruct (qr_images fr1) as [files|]; [|intros p _; by rewrite Htr].
      destruct Htr as [Hnames Hrest]. intros p Hp.
      rewrite sweep_lookup_notin by (intros Hin; by apply Hp, Hnames). by apply Hrest. }
    split.
    + left. split; [done|]. apply Hframe, output_not_qr.
    + intros p Hp _. by apply Hframe.
Qed.

Lemma add_picture_Raise path wd fr data e :
  fs fr !! path = Some data → docx_image_error E data = Some e →
  add_picture E path wd fr = (Raise e, fr).
Proof.
  intros Hd He. unfold add_picture, bind, os, read_file. rewrite Hd, He.
  by destruct fr.
Qed.

Lemma add_logo_Raise doc fr path blob e :
  resolve_spec (fs fr) = Some path → fs fr !! path = Some blob →
  docx_image_error E blob = Some e →
  add_logo E logo_files doc fr = (Raise e, fr).
Proof.
  unfold resolve_spec, logo_files. intros Hpath Hblob He.
  repeat
    (rewrite add_logo_cons;
     match goal with
     | |- context [os_path_exists ?p (fs fr)] =>
         destruct (os_path_exists p (fs fr)) eqn:?
     end;
     [injection Hpath as <-;
      by rewrite (bind_Raise _ _ _ _ _ (add_picture_Raise _ _ _ _ _ Hblob He))|]).
  done.
Qed.

(** X13: when the logo file the resolution finds is not a picture
    python-docx can read, the request fails with that error, no later
    logo name is tried, and the file system is left as it was. *)
Theorem unreadable_logo_aborts (data : RecordData) (w : FS) path blob e :
  resolve_spec w = Some path → w !! path = Some blob →
  docx_image_error E blob = Some e →
  generate_docx E data w = (Raise (HTTPException 500 ("Error: " +:+ str_exn e)), w).
Proof.
  intros Hpath Hblob He. rewrite generate_docx_eq.
  unfold build_document.
  rewrite (bind_Raise _ _ _ _ _
             (add_logo_Raise _ {| fs := w; qr_images := None |} path blob e Hpath Hblob He)).
  reflexivity.
Qed.

Lemma append_cancel_r (s s' t : string) : s +:+ t = s' +:+ t → s = s'.
Proof.
  revert s'. induction s as [|c s IH]; intros s' H.
  - destruct s' as [|c' s']; [done|].
    apply (f_equal String.length) in H. rewrite !length_append in H.
    cbn [String.length] in H. lia.
  - destruct s' as [|c' s'].
    + apply (f_equal String.length) in H. rewrite !length_append in H.
      cbn [String.length] in H. lia.
    + rewrite !append_cons in H. injection H as -> H. f_equal. by apply IH.
Qed.

Lemma str_inj (i j : nat) : Py.str i = Py.str j → i = j.
Proof.
  intros H. apply (f_equal Py.int) in H. rewrite !int_str in H. by injection H.
Qed.

Lemma qr_filename_inj (i j : nat) : qr_filename i = qr_filename j → i = j.
Proof.
  unfold qr_filename. intros H. rewrite !append_cons in H.
  injection H as H. change ("" +:+ ?s) with s in H.
  by apply append_cancel_r, str_inj in H.
Qed.

(** X11: the code-image files of the rows of one request have pairwise
    different names, whatever the number of rows. *)
Theorem qr_filenames_NoDup (k : nat) : NoDup (qr_filenames k).
Proof.
  unfold qr_filenames. apply NoDup_fmap_2; [|apply NoDup_seq].
  intros i j. apply qr_filename_inj.
Qed.

(** X10: a cell given all four edges gets, after the properties it had,
    the four borders in the order top, left, bottom, right, each a single
    line of size 4 in black, whatever the values passed for the edges;
    its paragraphs and its width are not touched. *)
Theorem set_cell_border_all_edges (cell : Cell) (kwargs : gmap string (list (string * string))) :
  (∀ edge, edge ∈ ["top"; "left"; "bottom"; "right"] →
           ∃ d ds, kwargs !! edge = Some (d :: ds)) →
  set_cell_border cell kwargs
  = {| cell_paragraphs := cell_paragraphs cell; cell_width := cell_width cell;
       cell_tcPr := cell_tcPr cell ++ four_borders |}.
Proof.
  intros Hkw.
  destruct (Hkw "top") as (d1 & ds1 & H1); [apply list_elem_of_In; cbn; auto|].
  destruct (Hkw "left") as (d2 & ds2 & H2); [apply list_elem_of_In; cbn; auto|].
  destruct (Hkw "bottom") as (d3 & ds3 & H3); [apply list_elem_of_In; cbn; auto|].
  destruct (Hkw "right") as (d4 & ds4 & H4); [apply list_elem_of_In; cbn; auto|].
  unfold set_cell_border. cbn [foldl]. rewrite H1, H2, H3, H4.
  unfold Docx.tcPr_append, four_borders. cbn [cell_paragraphs cell_width cell_tcPr].
  by rewrite <- !app_assoc.
Qed.

(** An edge that is not named, or named with an empty value, gets no
    border. *)
Lemma set_cell_border_no_edge (cell : Cell) (kwargs : gmap string (list (string * string))) :
  (∀ edge, kwargs !! edge = None ∨ kwargs !! edge = Some []) →
  set_cell_border cell kwargs = cell.
Proof.
  intros Hkw. unfold set_cell_border. cbn [foldl].
  destruct (Hkw "top") as [-> | ->], (Hkw "left") as [-> | ->],
    (Hkw "bottom") as [-> | ->], (Hkw "right") as [-> | ->]; done.
Qed.

Lemma root_flag (w : FS) :
  logo_uploaded (root w) = true ↔ is_Some (resolve_spec w).
Proof.
  unfold root, resolve_spec. cbn [logo_uploaded].
  destruct (os_path_exists "college_logo.png" w),
    (os_path_exists "college_logo.jpg" w),
    (os_path_exists "college_logo.jpeg" w); cbn; split; intros H;
    first [done | by eexists | by destruct H as [??]].
Qed.

(** X9: the status query reports a logo exactly when a document built on
    the same file system starts with a logo block and its spacer. *)
Theorem root_reports_logo (data : RecordData) (w : FS) doc :
  built_document E data w = Some doc →
  logo_uploaded (root w) = true
  ↔ ∃ blob rest, doc_body doc = logo_block blob :: spacer :: rest.
Proof.
  intros (prefix & rows & -> & _ & Hlogo & _)%built_document_closed.
  rewrite root_flag. cbn [doc_body]. destruct (resolve_spec w) as [path|].
  - destruct Hlogo as (blob & _ & ->). split; [|by eauto]. intros _. by eexists _, _.
  - subst prefix. split; [by intros [??]|]. by intros (blob & rest & ?).
Qed.

(** *** Uploads *)

Lemma split_nonempty (sep : ascii) (s : string) : Py.split sep s ≠ [].
Proof.
  destruct s as [|c s]; [done|]. cbn.
  destruct (Ascii.eqb c sep); [done|]. by destruct (Py.split sep s).
Qed.

(** [split] of two strings joined by the separator: the parts of the
    first, then the parts of the second. *)
Lemma split_app (sep : ascii) (a b : string) :
  Py.split sep (a +:+ String sep b) = Py.split sep a ++ Py.split sep b.
Proof.
  induction a as [|c a IH].
  - change ("" +:+ ?s) with s. cbn [Py.split]. by rewrite Ascii.eqb_refl.
  - rewrite append_cons. cbn [Py.split]. rewrite IH.
    destruct (Ascii.eqb c sep); [done|].
    pose proof (split_nonempty sep a). by destruct (Py.split sep a).
Qed.

Lemma last_app_nonempty {A} (l1 l2 : list A) : l2 ≠ [] → last (l1 ++ l2) = last l2.
Proof.
  intros H. destruct l2 as [|x l2 _] using rev_ind; [done|].
  by rewrite app_assoc, !last_snoc.
Qed.

(** The validations pass on a request with an image content type and an
    allowed extension. *)
Lemma logo_extension_accepts {St} (f : UploadFile) (s : St) ext :
  declared_image f = true → upload_extension f = Some ext →
  ext ∈ allowed_extensions →
  logo_extension f s = (Ok ext, s).
Proof.
  unfold declared_image, upload_extension, logo_extension.
  destruct (content_type f) as [ct|]; [|done]. intros Hct.
  destruct (filename f) as [name|]; [|done].
  cbn [not_none]. unfold bind at 1. cbv [ret]. rewrite Hct. cbn [negb].
  unfold bind at 1. cbv [ret].
  destruct (Py.last_item (Py.split "." name)) as [x|]; [|done].
  intros [= <-] Hin. unfold bind. cbv [ret].
  unfold Py.str_in. by rewrite bool_decide_eq_true_2.
Qed.

(** What the validations establish when they pass. *)
Lemma logo_extension_Ok_inv {St} (f : UploadFile) (s : St) ext s' :
  logo_extension f s = (Ok ext, s') →
  s' = s ∧ declared_image f = true ∧ upload_extension f = Some ext
  ∧ ext ∈ allowed_extensions.
Proof.
  unfold declared_image, upload_extension, logo_extension.
  destruct (content_type f) as [ct|]; cbn [not_none]; [|done].
  unfold bind at 1. cbv [ret].
  destruct (Py.startswith "image/" ct); cbn [negb]; [|done].
  destruct (filename f) as [name|]; cbn [not_none]; [|done].
  unfold bind at 1. cbv [ret].
  destruct (Py.last_item (Py.split "." name)) as [x|]; [|done].
  unfold bind. cbv [ret raise]. unfold Py.str_in.
  case_bool_decide; cbn [negb]; [|done]. by intros [= <- <-].
Qed.

Lemma stateless_logo_extension {St} (f : UploadFile) :
  stateless (logo_extension f : M St string).
Proof.
  intros s r s'. unfold logo_extension.
  destruct (content_type f) as [ct|]; cbn [not_none]; [|by intros [= _ <-]].
  unfold bind at 1. cbv [ret].
  destruct (Py.startswith "image/" ct); cbn [negb]; [|by intros [= _ <-]].
  destruct (filename f) as [name|]; cbn [not_none]; [|by intros [= _ <-]].
  unfold bind at 1. cbv [ret].
  destruct (Py.last_item (Py.split "." name)) as [x|]; [|by intros [= _ <-]].
  unfold bind. cbv [ret raise].
  destruct (Py.str_in _ _); cbn [negb]; by intros [= _ <-].
Qed.

(** X12: the extension is what follows the last dot of the file name,
    lower-cased, whatever dots and capitals come before it. *)
Theorem upload_extension_last_dot (f : UploadFile) stem ext :
  filename f = Some (stem +:+ "." +:+ ext) →
  Py.contains "."%char ext = false →
  upload_extension f = Some (Py.lower ext).
Proof.
  intros Hname Hdot. unfold upload_extension, Py.last_item. rewrite Hname.
  change ("." +:+ ext) with (String "."%char ext).
  rewrite split_app, last_app_nonempty by apply split_nonempty.
  by rewrite (split_no_sep _ _ Hdot).
Qed.

(** X6: an upload with an image content type and the extension png
    stores the bytes as they came under [college_logo.png], in place of
    whatever logo was there, changes no other path, and answers with that
    name. *)
Theorem upload_logo_png (f : UploadFile) (w : FS) :
  declared_image f = true → upload_extension f = Some "png" →
  write_refused E "college_logo.png" = None →
  upload_logo E f w
  = (Ok {| reply_message := "Logo uploaded successfully";
           reply_filename := "college_logo.png" |},
     <["college_logo.png" := file f]> w).
Proof.
  intros Himg Hext Hw. unfold upload_logo, try_except.
  assert (Hin : "png" ∈ allowed_extensions) by (apply list_elem_of_In; cbn; auto).
  rewrite (bind_Ok _ _ _ _ _ (logo_extension_accepts f w "png" Himg Hext Hin)).
  unfold store_logo, bind, write_file.
  change ("college_logo." +:+ "png") with "college_logo.png". by rewrite Hw.
Qed.

(** X7: when the file of a jpg or jpeg upload cannot be decoded, the
    upload fails with status 500 and the file it wrote stays on disk
    under its jpg or jpeg name; no PNG is written. *)
Theorem upload_logo_undecodable (f : UploadFile) (w : FS) ext e :
  declared_image f = true → upload_extension f = Some ext →
  ext = "jpg" ∨ ext = "jpeg" →
  write_refused E ("college_logo." +:+ ext) = None →
  image_decode E (file f) = inl e →
  upload_logo E f w
  = (Raise (HTTPException 500 ("Error uploading logo: " +:+ str_exn e)),
     <["college_logo." +:+ ext := file f]> w).
Proof.
  intros Himg Hext Hjpeg Hw Hdec. unfold upload_logo, try_except.
  assert (Hin : ext ∈ allowed_extensions).
  { apply list_elem_of_In. destruct Hjpeg as [-> | ->]; cbn; auto. }
  rewrite (bind_Ok _ _ _ _ _ (logo_extension_accepts f w ext Himg Hext Hin)).
  assert (Hconv : Py.str_in ext ["jpg"; "jpeg"] = true)
    by (destruct Hjpeg as [-> | ->]; by vm_compute).
  unfold store_logo. rewrite Hconv.
  unfold bind at 1, write_file. rewrite Hw.
  unfold bind at 1. unfold bind at 1, Image_open. unfold bind at 1, read_file.
  rewrite lookup_insert_eq, Hdec. done.
Qed.

(** The storage step, whatever its outcome: only logo file names are
    written or removed, and a reply means the PNG is there. *)
Lemma store_logo_frame (f : UploadFile) ext (w : FS) r w' :
  ext ∈ allowed_extensions →
  store_logo E f ext w = (r, w') →
  (∀ p, p ∉ logo_files → w' !! p = w !! p)
  ∧ (∀ reply, r = Ok reply →
       reply_filename reply = "college_logo.png" ∧ is_Some (w' !! "college_logo.png")).
Proof.
  intros Hext H.
  assert (Hcases : ext = "png" ∨ ext = "jpg" ∨ ext = "jpeg").
  { apply list_elem_of_In in Hext. cbn in Hext. intuition. }
  assert (Hpath : "college_logo." +:+ ext ∈ logo_files).
  { apply list_elem_of_In. destruct Hcases as [-> | [-> | ->]]; cbn; auto. }
  assert (Hpng : "college_logo.png" ∈ logo_files).
  { apply list_elem_of_In. cbn. auto. }
  assert (Hfresh : ∀ p, p ∉ logo_files →
            p ≠ "college_logo." +:+ ext ∧ p ≠ "college_logo.png").
  { intros p Hp. split; intros ->; done. }
  unfold store_logo, bind, write_file, Image_open, Image_save, os_remove, read_file,
    bind, write_file in H. cbv [ret raise] in H.
  destruct (write_refused E ("college_logo." +:+ ext)) eqn:Hw1.
  { injection H as <- <-. split; [|done].
    intros p [Hp1 Hp2]%Hfresh. by rewrite refused_write_lookup_ne. }
  destruct (Py.str_in ext ["jpg"; "jpeg"]) eqn:Hconv.
  - rewrite lookup_insert_eq in H.
    destruct (image_decode E (file f)) as [e|img].
    { injection H as <- <-. split; [|done].
      intros p [Hp1 Hp2]%Hfresh. by rewrite lookup_insert_ne. }
    destruct (write_refused E "college_logo.png").
    { injection H as <- <-. split; [|done].
      intros p [Hp1 Hp2]%Hfresh.
      by rewrite refused_write_lookup_ne, lookup_insert_ne. }
    assert (Hne : "college_logo.png" ≠ "college_logo." +:+ ext).
    { destruct Hcases as [-> | [-> | ->]]; by vm_compute. }
    rewrite lookup_insert_ne, lookup_insert_eq in H by done.
    destruct (remove_refused E ("college_logo." +:+ ext)).
    { injection H as <- <-. split; [|done].
      intros p [Hp1 Hp2]%Hfresh. by rewrite !lookup_insert_ne. }
    injection H as <- <-. split.
    + intros p [Hp1 Hp2]%Hfresh. by rewrite lookup_delete_ne, !lookup_insert_ne.
    + intros reply [= <-]. split; [done|].
      rewrite lookup_delete_ne, lookup_insert_eq by done. by eexists.
  - assert (ext = "png") as ->.
    { destruct Hcases as [-> | [-> | ->]]; [done| |]; by vm_compute in Hconv. }
    injection H as <- <-. split.
    + intros p [Hp1 Hp2]%Hfresh. by rewrite lookup_insert_ne.
    + intros reply [= <-]. split; [done|].
      change ("college_logo." +:+ "png") with "college_logo.png".
      rewrite lookup_insert_eq. by eexists.
Qed.

Lemma upload_logo_inv (f : UploadFile) (w : FS) r w' :
  upload_logo E f w = (r, w') →
  (∀ p, p ∉ logo_files → w' !! p = w !! p)
  ∧ (∀ reply, r = Ok reply →
       reply_filename reply = "college_logo.png" ∧ is_Some (w' !! "college_logo.png")).
Proof.
  unfold upload_logo, try_except. intros H.
  destruct (bind (logo_extension f) (store_logo E f) w) as [rb wb] eqn:Hb.
  assert (Hbody : (∀ p, p ∉ logo_files → wb !! p = w !! p)
                  ∧ (∀ reply, rb = Ok reply →
                       reply_filename reply = "college_logo.png"
                       ∧ is_Some (wb !! "college_logo.png"))).
  { apply bind_inv in Hb as [(e & Hb & ->)|(ext & w1 & Hext & Hb)].
    - apply stateless_logo_extension in Hb as ->. split; done.
    - apply logo_extension_Ok_inv in Hext as (-> & _ & _ & Hin).
      by eapply store_logo_frame. }
  destruct rb as [reply|e]; cbv [raise] in H; injection H as <- <-; [done|].
  split; [apply Hbody|done].
Qed.

(** X14: an upload, accepted or refused, completed or failed half way,
    never writes or removes a file other than the three logo file names. *)
Theorem upload_logo_touches_logos_only (f : UploadFile) (w : FS) r w' :
  upload_logo E f w = (r, w') →
  ∀ p, p ∉ ["college_logo.png"; "college_logo.jpg"; "college_logo.jpeg"] →
       w' !! p = w !! p.
Proof. intros H. by apply upload_logo_inv in H as [Hframe _]. Qed.

(** X8: after any successful upload the answer names [college_logo.png],
    the status query reports a logo, and a document built next starts
    with the logo block showing the stored PNG, then the spacer. *)
Theorem uploaded_logo_embedded (f : UploadFile) (w : FS) reply w1 (data : RecordData) doc :
  upload_logo E f w = (Ok reply, w1) →
  built_document E data w1 = Some doc →
  ∃ blob rest,
    reply_filename reply = "college_logo.png"
    ∧ w1 !! "college_logo.png" = Some blob
    ∧ logo_uploaded (root w1) = true
    ∧ doc_body doc = logo_block blob :: spacer :: rest.
Proof.
  intros Hup Hdoc.
  apply upload_logo_inv in Hup as [_ Hok].
  destruct (Hok reply eq_refl) as [Hname [blob Hblob]].
  apply built_document_closed in Hdoc as (prefix & rows & -> & _ & Hlogo & _).
  assert (Hres : resolve_spec w1 = Some "college_logo.png").
  { unfold resolve_spec, os_path_exists. rewrite Hblob.
    by rewrite bool_decide_eq_true_2 by eauto. }
  rewrite Hres in Hlogo. destruct Hlogo as (blob' & Hblob' & ->).
  rewrite Hblob in Hblob'. injection Hblob' as <-.
  exists blob. eexists. split; [done|]. split; [done|]. split; [|reflexivity].
  apply root_flag. rewrite Hres. by eexists.
Qed.

(** *** The first link that does not fit *)

Lemma for_each_app {St A B} (body : B → A → M St B) l1 l2 b (s : St) :
  for_each (l1 ++ l2) body b s
  = bind (for_each l1 body b) (λ b', for_each l2 body b') s.
Proof.
  revert b s. induction l1 as [|x l1 IH]; intros b s; [reflexivity|].
  cbn [app for_each]. unfold bind.
  destruct (body b x s) as [[b1|e] s1]; [|reflexivity].
  rewrite IH. reflexivity.
Qed.

Lemma enumerate_from_app {A} (l1 l2 : list A) k :
  enumerate_from k (l1 ++ l2)
  = enumerate_from k l1 ++ enumerate_from (k + length l1) l2.
Proof.
  revert k. induction l1 as [|x l1 IH]; intros k; cbn [app enumerate_from length].
  - by rewrite Nat.add_0_r.
  - rewrite IH. do 3 f_equal. lia.
Qed.

Lemma start_rows_well_formed n :
  well_formed (Datatypes.S n) (header_row :: replicate n blank_row).
Proof.
  split; [split|].
  - cbn. by rewrite length_replicate.
  - constructor; [done|]. by apply Forall_replicate.
  - constructor; [repeat constructor; by eexists|].
    apply Forall_replicate. repeat constructor; by eexists.
Qed.

(** A turn of the loop on a well-formed table, when the texts of the row
    are taken: what [create_qr_code] raises is what the turn raises, before
    anything is written; and when the write of the code image is refused,
    the turn raises that refusal, the file system is left as the refused
    write leaves it, and no name is recorded. *)
Lemma fill_row_stops n rows idx exp fr :
  well_formed n rows → (idx + 1 < n)%nat →
  texts_accepted E (row_texts idx exp) →
  (∀ e, create_qr_code E (github exp) 150 fr = (Raise e, fr) →
        fill_row E rows (idx, exp) fr = (Raise e, fr))
  ∧ (∀ stream e,
       create_qr_code E (github exp) 150 fr = (Ok stream, fr) →
       write_refused E (qr_filename idx) = Some e →
       fill_row E rows (idx, exp) fr
       = (Raise e, {| fs := refused_write E (qr_filename idx) (BytesIO_read stream) (fs fr);
                      qr_images := qr_images fr |})).
Proof.
  intros [[Hn Hm] Hp] Hidx Htexts.
  destruct (lookup_lt_is_Some_2 rows (idx + 1)) as [cells Hcells]; [lia|].
  pose proof (Forall_lookup_1 _ _ _ _ Hm Hcells) as Hlen. cbn beta in Hlen.
  pose proof (Forall_lookup_1 _ _ _ _ Hp Hcells) as Hpar. cbn beta in Hpar.
  destruct cells as [|c0 [|c1 [|c2 [|c3 [|c4 [|c5 [|]]]]]]]; try done.
  assert (Hp2 : has_paragraph c2).
  { by eapply (Forall_lookup_1 _ _ 2%nat _ Hpar). }
  destruct Hp2 as [p2 Hp2].
  assert (Ht0 : text_refused E (Py.zfill 2 (Py.str (idx + 1))) = None)
    by (apply Htexts, list_elem_of_In; cbn; auto).
  assert (Ht1 : text_refused E (if truthy (date exp) then date exp else "") = None)
    by (apply Htexts, list_elem_of_In; cbn; auto).
  assert (Ht2 : text_refused E (title exp) = None)
    by (apply Htexts, list_elem_of_In; cbn; auto).
  assert (Ht3 : text_refused E (newline +:+ newline) = None)
    by (apply Htexts, list_elem_of_In; cbn; auto).
  assert (Ht4 : text_refused E (github exp) = None)
    by (apply Htexts, list_elem_of_In; cbn; auto 10).
  unfold fill_row.
  rewrite (bind_Ok _ _ _ _ _ (item_Ok _ _ _ _ Hcells)).
  erewrite bind_Ok.
  2:{ eapply (update_item_Ok _ 0%nat); [reflexivity|].
      erewrite bind_Ok; [|rewrite set_cell_text_eq, Ht0; reflexivity].
      eapply on_paragraph_Ok. reflexivity. }
  erewrite bind_Ok.
  2:{ eapply (update_item_Ok _ 1%nat); [reflexivity|].
      rewrite set_cell_text_eq, Ht1. reflexivity. }
  erewrite bind_Ok.
  2:{ eapply (update_item_Ok _ 2%nat); [reflexivity|].
      eapply in_paragraph_Ok; [exact Hp2|].
      erewrite bind_Ok; [|rewrite set_paragraph_text_eq, Ht2; reflexivity].
      erewrite bind_Ok; [|rewrite new_run_eq, Ht3; reflexivity].
      erewrite bind_Ok; [|rewrite new_run_eq, Ht4; reflexivity].
      reflexivity. }
  split.
  - intros e He. by apply bind_Raise.
  - intros stream e Hqr Hw. rewrite (bind_Ok _ _ _ _ _ Hqr).
    apply bind_Raise. unfold os, write_file. by rewrite Hw.
Qed.

(** Building the document once the logo step has passed and the texts
    before the rows are taken: what the loop over the experiments raises is
    what the building raises. *)
Lemma build_document_Raise data fr doc1 logo_exists e fr2 :
  texts_accepted E (heading_texts data) →
  add_logo E logo_files
    {| doc_sections := (λ _ : Margins, page_margins) <$> doc_sections Docx.new_document;
       doc_body := doc_body Docx.new_document |} fr
  = (Ok (doc1, logo_exists), fr) →
  for_each (enumerate (experiments data)) (fill_row E)
    (header_row :: replicate (length (experiments data)) blank_row)
    {| fs := fs fr; qr_images := Some [] |} = (Raise e, fr2) →
  build_document E data fr = (Raise e, fr2).
Proof.
  intros Htexts Hlogo Hfill. unfold build_document.
  rewrite (bind_Ok _ _ _ _ _ Hlogo).
  erewrite bind_Ok; [|rewrite new_run_eq, (Htexts (course_title data)) by left; reflexivity].
  erewrite bind_Ok.
  2:{ apply item_Ok. cbn [Docx.set_style Docx.new_table tbl_rows].
      rewrite Nat.add_1_r. reflexivity. }
  erewrite bind_Ok.
  2:{ apply header_loop_eq. intros t Ht. apply Htexts. by right. }
  erewrite bind_Ok.
  2:{ apply (widths_loop_eq _ widths 0).
      cbn [Docx.set_style Docx.new_table tbl_rows].
      apply Forall_insert; [|done]. apply Forall_replicate. done. }
  unfold bind at 1, bind_qr_images, modify. cbn [fs].
  apply bind_Raise. rewrite <- Hfill. f_equal.
  rewrite Nat.add_1_r. cbn [Docx.set_style Docx.new_table tbl_rows replicate].
  change (<[0%nat := ?x]> (?y :: ?l)) with (x :: l).
  rewrite fmap_cons, fmap_replicate. f_equal.
Qed.

(** The rows that go through, from the first: their files are written
    and recorded, and the table stays well formed. *)
Lemma rows_pass_progress n pre (w : FS) :
  (length pre < n)%nat →
  (∀ i x, pre !! i = Some x → row_passes E i x) →
  ∃ rows1 fr1,
    for_each (enumerate_from 0 pre) (fill_row E) (header_row :: replicate n blank_row)
      {| fs := w; qr_images := Some [] |} = (Ok rows1, fr1)
    ∧ well_formed (Datatypes.S n) rows1
    ∧ qr_images fr1 = Some (qr_filenames (length pre)).
Proof.
  intros Hlen Hpass.
  destruct (for_each_progress
              (λ rows (_ : Frame), well_formed (Datatypes.S n) rows)
              (fill_row E) (enumerate_from 0 pre) (header_row :: replicate n blank_row)
              {| fs := w; qr_images := Some [] |} (start_rows_well_formed n))
    as (rows1 & fr1 & Hpre & Hwf1).
  { intros rows0 [idx x] fr Hin Hwf0.
    pose proof (enumerate_from_elem_lookup _ _ _ _ Hin) as [Hidx _].
    rewrite Nat.sub_0_r in Hidx.
    apply enumerate_from_elem in Hin.
    apply fill_row_progress; [done|lia|by apply Hpass]. }
  exists rows1, fr1. split; [done|]. split; [done|].
  apply fill_rows_Ok_inv in Hpre as (_ & _ & _ & _ & ->). done.
Qed.

(** A request whose rows go through up to one at which the turn of the
    loop raises: the handler sweeps the files recorded for the rows before
    it and answers with the error of that turn. *)
Lemma generate_docx_stops data (w : FS) pre exp post e (left_by : FS → FS) :
  experiments data = pre ++ exp :: post →
  texts_accepted E (heading_texts data) →
  (∀ path blob, resolve_spec w = Some path → w !! path = Some blob →
                docx_image_error E blob = None) →
  (∀ i x, pre !! i = Some x → row_passes E i x) →
  (∀ rows fr, well_formed (Datatypes.S (length (experiments data))) rows →
     fill_row E rows (length pre, exp) fr
     = (Raise e, {| fs := left_by (fs fr); qr_images := qr_images fr |})) →
  ∃ w1, generate_docx E data w
        = (Raise (generation_error e),
           sweep E (qr_filenames (length pre)) (left_by w1))
        ∧ ∀ r, fst (generate_docx (with_remove_refused r E) data w)
               = Raise (generation_error e).
Proof.
  intros Hexps Htexts Hlogo Hpass Hstop.
  set (n := length (experiments data)) in *.
  assert (Hn : n = (length pre + Datatypes.S (length post))%nat).
  { subst n. rewrite Hexps, length_app. done. }
  destruct (add_logo_progress E
              {| doc_sections := (λ _ : Margins, page_margins) <$> doc_sections Docx.new_document;
                 doc_body := doc_body Docx.new_document |}
              {| fs := w; qr_images := None |} Hlogo) as (doc1 & le & Hl).
  destruct (rows_pass_progress n pre w) as (rows1 & fr1 & Hpre & Hwf1 & Hq1); [lia|done|].
  assert (Hfill : for_each (enumerate (experiments data)) (fill_row E)
                    (header_row :: replicate n blank_row)
                    {| fs := w; qr_images := Some [] |}
                  = (Raise e, {| fs := left_by (fs fr1); qr_images := qr_images fr1 |})).
  { unfold enumerate. rewrite Hexps, enumerate_from_app, for_each_app.
    rewrite (bind_Ok _ _ _ _ _ Hpre). cbn [enumerate_from for_each].
    apply bind_Raise. by apply Hstop. }
  pose proof (build_document_Raise data {| fs := w; qr_images := None |} _ _ _ _
                Htexts Hl Hfill) as Hb.
  exists (fs fr1). split.
  - rewrite generate_docx_eq, Hb. cbn [qr_images fs]. by rewrite Hq1.
  - intros r. by rewrite generate_docx_eq, build_document_remove_irrelevant, Hb.
Qed.

(** X15: when the texts before the rows are taken and the logo is read,
    the rows before one go through, the texts of that row are taken and
    its link does not fit a symbol, the request fails with the encoder's
    error for that link, and the code images written for the rows before
    it are removed. *)
Theorem first_unfit_link_fails (data : RecordData) (w : FS) pre exp post e :
  experiments data = pre ++ exp :: post →
  texts_accepted E (heading_texts data) →
  (∀ path blob, resolve_spec w = Some path → w !! path = Some blob →
                docx_image_error E blob = None) →
  (∀ i x, pre !! i = Some x → row_passes E i x) →
  texts_accepted E (row_texts (length pre) exp) →
  qr_make E (qr_request (github exp)) = inl e →
  ∃ w', generate_docx E data w = (Raise (HTTPException 500 ("Error: " +:+ str_exn e)), w')
        ∧ (∀ p, p ∈ qr_filenames (length pre) → remove_refused E p = None →
                w' !! p = None).
Proof.
  intros Hexps Htexts Hlogo Hpass Hrow Hunfit.
  destruct (generate_docx_stops data w pre exp post e (λ w0, w0) Hexps Htexts Hlogo Hpass)
    as [w1 [Hgen _]].
  { intros rows fr Hwf.
    assert (Hlt : (length pre + 1 < Datatypes.S (length (experiments data)))%nat).
    { rewrite Hexps, length_app. cbn [length]. lia. }
    destruct (fill_row_stops _ rows (length pre) exp fr Hwf Hlt Hrow) as [Hcode _].
    rewrite (Hcode e); [by destruct fr|].
    rewrite create_qr_code_eq. unfold code_image. by rewrite Hunfit. }
  eexists. split; [exact Hgen|].
  intros p Hp Hrm. by apply sweep_lookup_removed.
Qed.

(** C9, as the code has it: when the write of a row's code image is
    refused after the file has been opened, the file exists, with the bytes
    written so far, before its name is appended to [qr_images]; the
    handler's cleanup removes the files of the rows before it and leaves
    this one on disk.  A refused removal is passed over: it never changes
    the error that reaches the caller. *)
Theorem failed_write_left_behind (data : RecordData) (w : FS) pre exp post blob e k :
  experiments data = pre ++ exp :: post →
  texts_accepted E (heading_texts data) →
  (∀ path blob, resolve_spec w = Some path → w !! path = Some blob →
                docx_image_error E blob = None) →
  (∀ i x, pre !! i = Some x → row_passes E i x) →
  texts_accepted E (row_texts (length pre) exp) →
  qr_png E (github exp) = Some blob →
  write_refused E (qr_filename (length pre)) = Some e →
  write_partial E (qr_filename (length pre)) = Some k →
  ∃ w', generate_docx E data w = (Raise (HTTPException 500 ("Error: " +:+ str_exn e)), w')
        ∧ w' !! qr_filename (length pre) = Some (take k blob)
        ∧ (∀ p, p ∈ qr_filenames (length pre) → remove_refused E p = None →
                w' !! p = None)
        ∧ (∀ r, fst (generate_docx (with_remove_refused r E) data w)
                = Raise (HTTPException 500 ("Error: " +:+ str_exn e))).
Proof.
  intros Hexps Htexts Hlogo Hpass Hrow Hblob Hw Hk.
  destruct (generate_docx_stops data w pre exp post e
              (refused_write E (qr_filename (length pre)) blob)
              Hexps Htexts Hlogo Hpass)
    as [w1 [Hgen Hswallow]].
  { intros rows fr Hwf.
    assert (Hlt : (length pre + 1 < Datatypes.S (length (experiments data)))%nat).
    { rewrite Hexps, length_app. cbn [length]. lia. }
    destruct (fill_row_stops _ rows (length pre) exp fr Hwf Hlt Hrow) as [_ Hwrite].
    by rewrite (Hwrite _ e (create_qr_code_of_png E _ _ _ Hblob) Hw). }
  eexists. split; [exact Hgen|]. split.
  - rewrite sweep_lookup_notin.
    + unfold refused_write. rewrite Hk. apply lookup_insert_eq.
    + intros (i & Hi & Hin)%list_elem_of_fmap.
      apply qr_filename_inj in Hi as <-. apply elem_of_seq in Hin. lia.
  - split; [|exact Hswallow]. intros p Hp Hrm. by apply sweep_lookup_removed.
Qed.

(** *** The logo during a generation *)

Lemma logo_not_qr p k : p ∈ logo_files → p ∉ qr_filenames k.
Proof.
  intros Hp (i & -> & _)%list_elem_of_fmap.
  apply list_elem_of_In in Hp. cbn in Hp. unfold qr_filename in Hp.
  rewrite append_cons in Hp. intuition discriminate.
Qed.

Lemma logo_not_output p data : p ∈ logo_files → p ≠ output_filename data.
Proof.
  intros Hp Heq. apply (f_equal last_char) in Heq.
  unfold output_filename in Heq. rewrite last_char_append in Heq by done.
  apply list_elem_of_In in Hp. cbn in Hp.
  destruct Hp as [<-|[<-|[<-|[]]]]; by vm_compute in Heq.
Qed.

(** X16: a generation, whether it answers or fails, leaves the three logo
    file names as it found them: present with the same bytes, or absent. *)
Theorem generate_docx_keeps_logo (data : RecordData) (w : FS) r w' p :
  generate_docx E data w = (r, w') →
  p ∈ ["college_logo.png"; "college_logo.jpg"; "college_logo.jpeg"] →
  w' !! p = w !! p.
Proof.
  intros H Hp.
  pose proof (logo_not_qr p (length (experiments data)) Hp) as Hq.
  pose proof (logo_not_output p data Hp) as Hout.
  rewrite generate_docx_eq in H.
  destruct (build_document E data _) as [[doc|e] fr1] eqn:Hb.
  - pose proof (build_document_tracked _ _ _ _ _ Hb) as Htr.
    unfold tracked in Htr. rewrite (build_document_Ok_images _ _ _ _ _ Hb) in *.
    destruct Htr as [_ Hrest].
    destruct (write_refused E (output_filename data)); injection H as <- <-.
    + rewrite sweep_lookup_notin, refused_write_lookup_ne by done. by apply Hrest.
    + rewrite sweep_lookup_notin, lookup_insert_ne by done. by apply Hrest.
  - pose proof (build_document_tracked _ _ _ _ _ Hb) as Htr.
    unfold tracked in Htr. injection H as <- <-.
    destruct (qr_images fr1) as [files|]; [|by rewrite Htr].
    destruct Htr as [Hnames Hrest].
    rewrite sweep_lookup_notin by (intros Hin; by apply Hq, Hnames). by apply Hrest.
Qed.

End Coverage.

(** ** More runs of the service *)

Module Cover.

Lemma asha_answered :
  ∃ w', generate_docx Ref.env Ref.asha ∅ = (Ok (docx_response Ref.asha), w').
Proof. apply (generate_docx_succeeds Ref.env Ref.asha ∅), Runs.asha_cooperative. Defined.

Lemma overflow_failure :
  ∃ cause,
    generation_error (PyError "DataOverflowError" "")
    = HTTPException 500 ("Error: " +:+ str_exn cause)
    ∧ ((build_failure Ref.env More.overflow ∅ = Some cause
        ∧ snd (generate_docx Ref.env More.overflow ∅) !! output_filename More.overflow
          = (∅ : FS) !! output_filename More.overflow)
       ∨ (∃ doc, built_document Ref.env More.overflow ∅ = Some doc
                 ∧ write_refused Ref.env (output_filename More.overflow) = Some cause))
    ∧ (∀ p, p ∉ qr_filenames (length (experiments More.overflow)) →
            p ≠ output_filename More.overflow →
            snd (generate_docx Ref.env More.overflow ∅) !! p = (∅ : FS) !! p).
Proof.
  apply (generate_docx_failure Ref.env More.overflow ∅). vm_compute. reflexivity.
Defined.

Lemma asha_header :
  ∃ doc, built_document Ref.env Ref.asha ∅ = Some doc
    ∧ ∃ table,
        experiment_table doc = Some table
        ∧ tbl_style table = Some "Table Grid"
        ∧ tbl_rows table !! 0%nat = Some header_row
        ∧ Docx.cell_text <$> header_row = headers
        ∧ cell_width <$> header_row = Some <$> widths.
Proof.
  eexists. split; [vm_compute; reflexivity|].
  apply (header_row_built Ref.env Ref.asha ∅). vm_compute. reflexivity.
Defined.

Lemma asha_first_row :
  let exp := {| title := "Stack Implementation"; date := "2024-01-10";
                github := "https://github.com/asha/stack" |} in
  ∃ doc, built_document Ref.env Ref.asha ∅ = Some doc
    ∧ ∃ table blob,
        experiment_table doc = Some table
        ∧ qr_png Ref.env (github exp) = Some blob
        ∧ tbl_rows table !! 1%nat = Some (data_row 0 exp blob)
        ∧ Docx.cell_text <$> data_row 0 exp blob
          = [ Py.zfill 2 (Py.str (0 + 1)); date exp;
              title exp +:+ newline +:+ newline +:+ github exp; ""; ""; "" ]
        ∧ cell_width <$> data_row 0 exp blob = Some <$> widths
        ∧ Forall (λ c, cell_tcPr c = four_borders) (data_row 0 exp blob).
Proof.
  cbv zeta. eexists. split; [vm_compute; reflexivity|].
  apply (data_rows_built Ref.env Ref.asha ∅ _ 0); [vm_compute; reflexivity|reflexivity].
Defined.

Lemma asha_details :
  ∃ doc, built_document Ref.env Ref.asha ∅ = Some doc
    ∧ doc_sections doc = [page_margins]
    ∧ ∃ table, Docx.tables doc = [table; details_table Ref.asha]
               ∧ (λ row : list Cell, Docx.cell_text <$> row)
                   <$> tbl_rows (details_table Ref.asha)
                 = [ [ "Name: " +:+ student_name Ref.asha;
                       "Register Number: " +:+ register_number Ref.asha ];
                     [ "Date:"; "Learner's Signature:" ] ].
Proof.
  eexists. split; [vm_compute; reflexivity|].
  apply (details_table_built Ref.env Ref.asha ∅). vm_compute. reflexivity.
Defined.

Lemma crest_stored :
  upload_logo Ref.env More.crest Ref.with_jpg_logo
  = (Ok {| reply_message := "Logo uploaded successfully";
           reply_filename := "college_logo.png" |},
     <["college_logo.png" := file More.crest]> Ref.with_jpg_logo).
Proof. apply (upload_logo_png Ref.env More.crest Ref.with_jpg_logo); reflexivity. Defined.

Lemma hollow_left_behind :
  upload_logo Ref.env More.hollow ∅
  = (Raise (HTTPException 500
              ("Error uploading logo: "
               +:+ str_exn (PyError "UnidentifiedImageError" "cannot identify image file"))),
     <["college_logo." +:+ "jpeg" := file More.hollow]> ∅).
Proof.
  apply (upload_logo_undecodable Ref.env More.hollow ∅ "jpeg");
    [reflexivity|reflexivity|right; reflexivity|reflexivity|reflexivity].
Defined.

Lemma photo_embedded :
  ∃ doc,
    built_document Ref.env Ref.asha (snd (upload_logo Ref.env Ref.photo ∅)) = Some doc
    ∧ ∃ blob rest,
        reply_filename {| reply_message := "Logo uploaded successfully";
                          reply_filename := "college_logo.png" |} = "college_logo.png"
        ∧ snd (upload_logo Ref.env Ref.photo ∅) !! "college_logo.png" = Some blob
        ∧ logo_uploaded (root (snd (upload_logo Ref.env Ref.photo ∅))) = true
        ∧ doc_body doc = logo_block blob :: spacer :: rest.
Proof.
  eexists. split; [vm_compute; reflexivity|].
  apply (uploaded_logo_embedded Ref.env Ref.photo ∅ _ _ Ref.asha);
    vm_compute; reflexivity.
Defined.

Lemma jpg_logo_reported :
  ∃ doc, built_document Ref.env Ref.asha Ref.with_jpg_logo = Some doc
    ∧ (logo_uploaded (root Ref.with_jpg_logo) = true
       ↔ ∃ blob rest, doc_body doc = logo_block blob :: spacer :: rest).
Proof.
  eexists. split; [vm_compute; reflexivity|].
  apply (root_reports_logo Ref.env Ref.asha Ref.with_jpg_logo). vm_compute. reflexivity.
Defined.

Lemma loud_borders_are_single :
  set_cell_border Docx.empty_cell More.loud_borders
  = {| cell_paragraphs := cell_paragraphs Docx.empty_cell;
       cell_width := cell_width Docx.empty_cell;
       cell_tcPr := cell_tcPr Docx.empty_cell ++ four_borders |}.
Proof.
  apply (set_cell_border_all_edges Docx.empty_cell More.loud_borders).
  intros edge Hedge. apply list_elem_of_In in Hedge. cbn in Hedge.
  destruct Hedge as [<-|[<-|[<-|[<-|[]]]]]; eexists _, _; vm_compute; reflexivity.
Defined.

Lemma crest_extension : upload_extension More.crest = Some (Py.lower "PNG").
Proof.
  apply (upload_extension_last_dot More.crest "college.crest.v2" "PNG"); reflexivity.
Defined.

Lemma empty_logo_aborts :
  generate_docx Ref.env Ref.asha More.with_empty_logo
  = (Raise (HTTPException 500 ("Error: " +:+ str_exn (PyError "UnrecognizedImageError" ""))),
     More.with_empty_logo).
Proof.
  apply (unreadable_logo_aborts Ref.env Ref.asha More.with_empty_logo "college_logo.png" []);
    vm_compute; reflexivity.
Defined.

Lemma hollow_touches_logos_only :
  ("notes.txt" ∉ ["college_logo.png"; "college_logo.jpg"; "college_logo.jpeg"])
  ∧ snd (upload_logo Ref.env More.hollow More.with_empty_logo) !! "notes.txt"
    = More.with_empty_logo !! "notes.txt".
Proof.
  assert (Hother : "notes.txt" ∉ ["college_logo.png"; "college_logo.jpg"; "college_logo.jpeg"]).
  { intros Hin%list_elem_of_In. cbn in Hin. intuition discriminate. }
  split; [exact Hother|].
  apply (upload_logo_touches_logos_only Ref.env More.hollow More.with_empty_logo
           (fst (upload_logo Ref.env More.hollow More.with_empty_logo)));
    [vm_compute; reflexivity|exact Hother].
Defined.

Lemma overflow_second_link :
  ∃ w', generate_docx Ref.env More.overflow ∅
        = (Raise (HTTPException 500
                    ("Error: " +:+ str_exn (PyError "DataOverflowError" ""))), w')
        ∧ (∀ p, p ∈ qr_filenames
                      (length [ {| title := "Stack"; date := "";
                                   github := "https://github.com/asha/stack" |} ]) →
                remove_refused Ref.env p = None → w' !! p = None).
Proof.
  apply (first_unfit_link_fails Ref.env More.overflow ∅
           [ {| title := "Stack"; date := ""; github := "https://github.com/asha/stack" |} ]
           {| title := "Queue"; date := "2024-01-17";
              github := "https://github.com/asha/" +:+ Py.zeros 64 |} []).
  - reflexivity.
  - intros t Ht. apply list_elem_of_In in Ht. cbn in Ht.
    repeat (destruct Ht as [<-|Ht]; [vm_compute; reflexivity|]). done.
  - intros path blob Hpath. vm_compute in Hpath. done.
  - intros [|i] x Hx; [|done]. injection Hx as <-.
    split; [|split; [|reflexivity]].
    + intros t Ht. apply list_elem_of_In in Ht. cbn in Ht.
      repeat (destruct Ht as [<-|Ht]; [vm_compute; reflexivity|]). done.
    + eexists. split; vm_compute; reflexivity.
  - intros t Ht. apply list_elem_of_In in Ht. cbn in Ht.
    repeat (destruct Ht as [<-|Ht]; [vm_compute; reflexivity|]). done.
  - reflexivity.
Defined.

(** The disk fills up while the second row's code image is written: the
    request fails, the first row's file is removed and the second row's
    file stays, with the two bytes that were written. *)
Lemma disk_full_second_row :
  ∃ w', generate_docx Ref.env_disk_full More.pair ∅
        = (Raise (HTTPException 500
                    ("Error: " +:+ str_exn (PyError "OSError"
                                              "[Errno 28] No space left on device"))), w')
        ∧ w' !! qr_filename
                  (length [ {| title := "Stack"; date := "";
                               github := "https://github.com/asha/stack" |} ])
          = Some (take 2 (Ref.encode {| im_size := (150, 150); im_pixels := [] |}))
        ∧ (∀ p, p ∈ qr_filenames
                      (length [ {| title := "Stack"; date := "";
                                   github := "https://github.com/asha/stack" |} ]) →
                remove_refused Ref.env_disk_full p = None → w' !! p = None)
        ∧ (∀ r, fst (generate_docx (with_remove_refused r Ref.env_disk_full) More.pair ∅)
                = Raise (HTTPException 500
                           ("Error: " +:+ str_exn (PyError "OSError"
                                                     "[Errno 28] No space left on device")))).
Proof.
  apply (failed_write_left_behind Ref.env_disk_full More.pair ∅
           [ {| title := "Stack"; date := ""; github := "https://github.com/asha/stack" |} ]
           {| title := "Queue"; date := "2024-01-17";
              github := "https://github.com/asha/queue" |} []).
  - reflexivity.
  - intros t Ht. apply list_elem_of_In in Ht. cbn in Ht.
    repeat (destruct Ht as [<-|Ht]; [vm_compute; reflexivity|]). done.
  - intros path blob Hpath. vm_compute in Hpath. done.
  - intros [|i] x Hx; [|done]. injection Hx as <-.
    split; [|split; [|reflexivity]].
    + intros t Ht. apply list_elem_of_In in Ht. cbn in Ht.
      repeat (destruct Ht as [<-|Ht]; [vm_compute; reflexivity|]). done.
    + eexists. split; vm_compute; reflexivity.
  - intros t Ht. apply list_elem_of_In in Ht. cbn in Ht.
    repeat (destruct Ht as [<-|Ht]; [vm_compute; reflexivity|]). done.
  - vm_compute. reflexivity.
  - reflexivity.
  - reflexivity.
Defined.

Lemma jpg_logo_kept :
  snd (generate_docx Ref.env Ref.asha Ref.with_jpg_logo) !! "college_logo.jpg"
  = Ref.with_jpg_logo !! "college_logo.jpg".
Proof.
  apply (generate_docx_keeps_logo Ref.env Ref.asha Ref.with_jpg_logo
           (fst (generate_docx Ref.env Ref.asha Ref.with_jpg_logo))).
  - vm_compute. reflexivity.
  - apply list_elem_of_In. cbn. auto.
Defined.

End Cover.
